(** * NeuroSandboxWebUI: the generation dispatchers of [appRU.py]

    A shallow embedding of the dispatcher functions of [src/appRU.py]
    (chat, txt2img, img2img, inpaint, video, extras, audio), of the loader
    helpers they call and of the process-wide globals they share, followed
    by the properties of the dispatch / model-lifecycle workflow.

    The machine-learning libraries, the file system and the wall clock are
    the environment: every library call is an external call whose outcome
    (normal return or a raised exception, whether the "Stop generation"
    button was pressed while the call was blocking, the text it produced)
    is read from an oracle.  Console output ([print]) and progress bars
    ([tqdm]) have no effect on the modelled state and are left out. *)

From Stdlib Require Import List String Ascii NArith ZArith Bool Arith Lia.
From Stdlib Require Floats.
Import ListNotations.
Local Open Scope string_scope.

(* ===================================================================== *)
(** ** Python values, exceptions and model handles *)
(* ===================================================================== *)

(** The exception classes the source names in its [except] clauses,
    the ones Python itself raises on the modelled paths, and one class
    for every other library failure. *)
Inductive ExnClass :=
| ValueError | KeyError | OSError | RuntimeError | AssertionError
| AttributeError | TypeError | UnboundLocalError | FileExistsError
| OtherError.

Definition ExnClass_eqb (a b : ExnClass) : bool :=
  match a, b with
  | ValueError, ValueError | KeyError, KeyError | OSError, OSError
  | RuntimeError, RuntimeError | AssertionError, AssertionError
  | AttributeError, AttributeError | TypeError, TypeError
  | UnboundLocalError, UnboundLocalError
  | FileExistsError, FileExistsError | OtherError, OtherError => true
  | _, _ => false
  end.

(** An exception object: its class and what [str(e)] gives. *)
Record Exn := mkExn { exn_class : ExnClass; exn_str : string }.

(** [except (C1, C2, ...)]: does the clause match the exception? *)
Definition isinstance (e : Exn) (cs : list ExnClass) : bool :=
  existsb (ExnClass_eqb (exn_class e)) cs.

(** The model objects a dispatcher can hold, named after the variable the
    source binds them to. *)
Inductive Handle :=
| H_tokenizer            (* tokenizer               (load_model) *)
| H_llm_model            (* llm_model               (load_model) *)
| H_tts_model            (* tts_model               (load_tts_model) *)
| H_whisper_model        (* whisper_model           (load_whisper_model) *)
| H_transcriber          (* model                   (transcribe_audio) *)
| H_stable_diffusion_model
| H_vae
| H_upscaler
| H_pipe                 (* pipe                    (generate_video) *)
| H_model                (* model                   (generate_audio) *)
| H_mbd.

Definition Handle_eqb (a b : Handle) : bool :=
  match a, b with
  | H_tokenizer, H_tokenizer | H_llm_model, H_llm_model
  | H_tts_model, H_tts_model | H_whisper_model, H_whisper_model
  | H_transcriber, H_transcriber
  | H_stable_diffusion_model, H_stable_diffusion_model
  | H_vae, H_vae | H_upscaler, H_upscaler | H_pipe, H_pipe
  | H_model, H_model | H_mbd, H_mbd => true
  | _, _ => false
  end.

(** The values a Python variable holds on the modelled paths: [None], a
    string, a model object, or a pair (the tuple [None, "Generation
    stopped"] that [load_upscale_model] returns when stopped). *)
Inductive PyVal :=
| PNone
| PStr (s : string)
| PObj (h : Handle)
| PPair (a b : PyVal).

(** Python truthiness. *)
Definition truthy (v : PyVal) : bool :=
  match v with
  | PNone => false
  | PStr s => negb (s =? "")
  | PObj _ => true
  | PPair _ _ => true
  end.

(** Truthiness of a value that is [None] or a string (dropdown and
    textbox inputs, file paths). *)
Definition truthy_str (o : option string) : bool :=
  match o with
  | None => false
  | Some s => negb (s =? "")
  end.

(** What an f-string prints for a value that is [None] or a string. *)
Definition fmt (o : option string) : string :=
  match o with
  | None => "None"
  | Some s => s
  end.

(** [os.path.join] on relative components that contain no separator. *)
Fixpoint path_join (parts : list string) : string :=
  match parts with
  | [] => ""
  | [p] => p
  | p :: rest => p ++ "/" ++ path_join rest
  end.

(* ===================================================================== *)
(** ** Timestamps: [datetime.now()] and [strftime] *)
(* ===================================================================== *)

Record DateTime := mkDateTime {
  year : N; month : N; day : N;
  hour : N; minute : N; second : N
}.

(** The ranges of a Python [datetime]. *)
Definition valid_datetime (t : DateTime) : Prop :=
  (1 <= year t <= 9999 /\ 1 <= month t <= 12 /\ 1 <= day t <= 31 /\
   hour t <= 23 /\ minute t <= 59 /\ second t <= 59)%N.

Definition digit (n : N) : ascii := ascii_of_N (48 + n).

(** [%m], [%d], [%H], [%M], [%S]: two digits, zero padded. *)
Definition pad2 (n : N) : string :=
  String (digit ((n / 10) mod 10)) (String (digit (n mod 10)) "").

(** [%Y]: four digits, zero padded. *)
Definition pad4 (n : N) : string :=
  String (digit ((n / 1000) mod 10))
    (String (digit ((n / 100) mod 10)) (pad2 n)).

(** [strftime('%Y%m%d')] *)
Definition strftime_Ymd (t : DateTime) : string :=
  pad4 (year t) ++ pad2 (month t) ++ pad2 (day t).

(** [strftime('%Y%m%d_%H%M%S')] *)
Definition strftime_Ymd_HMS (t : DateTime) : string :=
  strftime_Ymd t ++ "_" ++ pad2 (hour t) ++ pad2 (minute t) ++ pad2 (second t).

(** The directory of a modality's artifacts:
    [os.path.join('outputs', f"<Category>_{today.strftime('%Y%m%d')}")]. *)
Definition output_dir (category : string) (today : DateTime) : string :=
  path_join ["outputs"; category ++ "_" ++ strftime_Ymd today].

(** The file name of an artifact:
    [f"<subtype>_{datetime.now().strftime('%Y%m%d_%H%M%S')}<ext>"]. *)
Definition output_filename (subtype : string) (now : DateTime) (ext : string)
  : string :=
  subtype ++ "_" ++ strftime_Ymd_HMS now ++ ext.

(** The path of an artifact, from the two clock readings of a call. *)
Definition output_path (category subtype ext : string) (today now : DateTime)
  : string :=
  path_join [output_dir category today; output_filename subtype now ext].

(* ===================================================================== *)
(** ** The environment: external calls and their outcomes *)
(* ===================================================================== *)

(** A call into a library, the file system or the network. *)
Inductive ExtCall :=
| Load (h : Handle) (constructor path : string)
    (* a model constructor: [from_pretrained], [from_single_file], ... *)
| Method (h : Handle) (name arg : string)
    (* a method of a loaded object other than its inference call *)
| Infer (h : Handle) (input : string)
    (* the inference call of a loaded model *)
| InferMasked (h : Handle) (input : string) (mask : list (list Z))
    (* the inpaint pipeline call, with the mask it is given *)
| Fetch (url dest : string)
    (* [Repo.clone_from] / [requests.get] + write into [dest] *)
| FileOpen (opener path : string)
    (* [Image.open], [load_image], [torchaudio.load] *)
| FileWrite (path : string)
    (* a file written by the dispatcher *)
| Lib (name : string).
    (* any other library function *)

(** What the environment answers to one external call: the exception it
    raises, if any, and whether the "Stop generation" button (which runs
    [stop_all_processes]) was pressed while the call was blocking. *)
Record Reply := mkReply { r_raise : option Exn; r_stop : bool }.

Record Env := mkEnv {
  env_reply : nat -> ExtCall -> Reply;   (* outcome of the n-th call *)
  env_text : nat -> ExtCall -> string;   (* the text the n-th call returns *)
  env_now : nat -> DateTime;             (* [datetime.now()] at step n *)
  cuda_is_available : bool;              (* [torch.cuda.is_available()] *)
  XFORMERS_AVAILABLE : bool;             (* set once at import time *)
  env_pixels : string -> list (list Z);  (* [Image.open(p).convert("L")] *)
  env_size : string -> nat * nat         (* [Image.open(p).size] = (w, h) *)
}.

(** What a call leaves in the log, newest first. *)
Inductive Event :=
| E_call (c : ExtCall)      (* an external call was made *)
| E_del (h : Handle)        (* [del x] of the variable bound to [h] *)
| E_empty_cache             (* [torch.cuda.empty_cache()] *)
| E_makedirs (p : string).  (* [os.makedirs(p)] created [p] *)

(* ===================================================================== *)
(** ** The process state *)
(* ===================================================================== *)

(** The module-level globals of [appRU.py], the part of the file system
    the program tests and creates, the model objects currently bound to a
    variable, and the log of effects (newest first). *)
Record World := mkWorld {
  stop_signal : bool;
  chat_history : list (option string * option string);
  chat_dir : option string;
  tts_model : PyVal;
  whisper_model : PyVal;
  audiocraft_model_path : option string;
  fs : list string;
  live : list Handle;
  trace : list Event;
  tick : nat
}.

Definition set_stop_signal (b : bool) (w : World) : World :=
  mkWorld b (chat_history w) (chat_dir w) (tts_model w) (whisper_model w)
    (audiocraft_model_path w) (fs w) (live w) (trace w) (tick w).
Definition set_chat_history l (w : World) : World :=
  mkWorld (stop_signal w) l (chat_dir w) (tts_model w) (whisper_model w)
    (audiocraft_model_path w) (fs w) (live w) (trace w) (tick w).
Definition set_chat_dir d (w : World) : World :=
  mkWorld (stop_signal w) (chat_history w) d (tts_model w) (whisper_model w)
    (audiocraft_model_path w) (fs w) (live w) (trace w) (tick w).
Definition set_tts_model v (w : World) : World :=
  mkWorld (stop_signal w) (chat_history w) (chat_dir w) v (whisper_model w)
    (audiocraft_model_path w) (fs w) (live w) (trace w) (tick w).
Definition set_whisper_model v (w : World) : World :=
  mkWorld (stop_signal w) (chat_history w) (chat_dir w) (tts_model w) v
    (audiocraft_model_path w) (fs w) (live w) (trace w) (tick w).
Definition set_audiocraft_model_path p (w : World) : World :=
  mkWorld (stop_signal w) (chat_history w) (chat_dir w) (tts_model w)
    (whisper_model w) p (fs w) (live w) (trace w) (tick w).
Definition set_fs l (w : World) : World :=
  mkWorld (stop_signal w) (chat_history w) (chat_dir w) (tts_model w)
    (whisper_model w) (audiocraft_model_path w) l (live w) (trace w) (tick w).
Definition set_live l (w : World) : World :=
  mkWorld (stop_signal w) (chat_history w) (chat_dir w) (tts_model w)
    (whisper_model w) (audiocraft_model_path w) (fs w) l (trace w) (tick w).
Definition log (e : Event) (w : World) : World :=
  mkWorld (stop_signal w) (chat_history w) (chat_dir w) (tts_model w)
    (whisper_model w) (audiocraft_model_path w) (fs w) (live w)
    (e :: trace w) (tick w).
Definition step (w : World) : World :=
  mkWorld (stop_signal w) (chat_history w) (chat_dir w) (tts_model w)
    (whisper_model w) (audiocraft_model_path w) (fs w) (live w)
    (trace w) (S (tick w)).

(** The state of a freshly started process (lines 44-47, 215-217). *)
Definition initial_world : World :=
  mkWorld false [] None PNone PNone None [] [] [] 0.

(** [stop_all_processes], the handler of every "Stop generation" button. *)
Definition stop_all_processes (w : World) : World := set_stop_signal true w.

Definition unbind (h : Handle) (l : list Handle) : list Handle :=
  filter (fun x => negb (Handle_eqb h x)) l.

Definition bound (h : Handle) (w : World) : bool :=
  existsb (Handle_eqb h) (live w).

(* ===================================================================== *)
(** ** Statements: a state monad with exceptions and early [return] *)
(* ===================================================================== *)

(** The three ways a Python statement ends: it falls through with a value,
    it executes [return r], or it raises. *)
Inductive Res (R A : Type) :=
| Val (a : A)
| Ret (r : R)
| Exc (e : Exn).
Arguments Val {R A} a.
Arguments Ret {R A} r.
Arguments Exc {R A} e.

Definition M (R A : Type) := World -> Res R A * World.

(** The two ways a function call ends. *)
Inductive Result (R : Type) :=
| Returned (r : R)
| Raised (e : Exn).
Arguments Returned {R} r.
Arguments Raised {R} e.

Definition Fn (R : Type) := World -> Result R * World.

Definition ret {R A} (a : A) : M R A := fun w => (Val a, w).

Definition bind {R A B} (c : M R A) (k : A -> M R B) : M R B :=
  fun w =>
    match c w with
    | (Val a, w1) => k a w1
    | (Ret r, w1) => (Ret r, w1)
    | (Exc e, w1) => (Exc e, w1)
    end.

(** [return r] *)
Definition return_ {R A} (r : R) : M R A := fun w => (Ret r, w).

(** [raise e] *)
Definition raise {R A} (e : Exn) : M R A := fun w => (Exc e, w).

Declare Scope py_scope.
Delimit Scope py_scope with py.
Notation "x <- c ;; k" := (bind c (fun x => k))
  (at level 61, c at next level, right associativity) : py_scope.
Notation "' pat <- c ;; k" := (bind c (fun x => let 'pat := x in k))
  (at level 61, pat pattern, c at next level, right associativity) : py_scope.
Notation "c ;; k" := (bind c (fun _ => k))
  (at level 61, right associativity) : py_scope.
Local Open Scope py_scope.

(** [if b: c] with no [else]. *)
Definition when {R} (b : bool) (c : M R unit) : M R unit :=
  if b then c else ret tt.

(** [try: body finally: fin].  The [finally] clause runs on every way out
    of [body]; the way [body] ended is kept unless [fin] itself returns
    or raises. *)
Definition try_finally {R A} (body : M R A) (fin : M R unit) : M R A :=
  fun w =>
    match body w with
    | (res, w1) =>
        match fin w1 with
        | (Val _, w2) => (res, w2)
        | (Ret r, w2) => (Ret r, w2)
        | (Exc e, w2) => (Exc e, w2)
        end
    end.

(** [try: body except <classes> as e: handler e]. *)
Definition try_except {R A} (body : M R A) (catches : Exn -> bool)
    (handler : Exn -> M R A) : M R A :=
  fun w =>
    match body w with
    | (Exc e, w1) => if catches e then handler e w1 else (Exc e, w1)
    | other => other
    end.

(** [for x in l: f x] *)
Fixpoint for_each {R A} (l : list A) (f : A -> M R unit) : M R unit :=
  match l with
  | [] => ret tt
  | x :: rest => f x ;; for_each rest f
  end.

(** A function definition: [return r] and falling off the end with [r]
    both make the call return [r]. *)
Definition def {R} (body : M R R) : Fn R :=
  fun w =>
    match body w with
    | (Val r, w1) => (Returned r, w1)
    | (Ret r, w1) => (Returned r, w1)
    | (Exc e, w1) => (Raised e, w1)
    end.

(** A call of a function from inside another function's body. *)
Definition call {R R'} (f : Fn R') : M R R' :=
  fun w =>
    match f w with
    | (Returned r, w1) => (Val r, w1)
    | (Raised e, w1) => (Exc e, w1)
    end.

(** Reading and writing the globals. *)
Definition get {R A} (f : World -> A) : M R A := fun w => (Val (f w), w).
Definition modify {R} (f : World -> World) : M R unit :=
  fun w => (Val tt, f w).

(* ===================================================================== *)
(** ** Pillow's nearest-neighbour scaling *)
(* ===================================================================== *)

(** [Image.resize(size, resample=Image.NEAREST)] is Pillow's, not the
    program's.  Its C side ([_resize] in [_imaging.c], then
    [ImagingScaleAffine] in [libImaging/Geometry.c]) tabulates the source
    coordinate of every output position in C doubles, by repeated
    addition:
<<
    a[0] = (double)(box[2] - box[0]) / xsize;   /* box = (0, 0, w_in, h_in) */
    xo = a[2] + a[0] * 0.5;                      /* a[2] = box[0] = 0 */
    for (x = x0; x < x1; x++) {
        xin = COORD(xo);
        if (xin >= 0 && xin < (int)imIn->xsize) {
            xmax = x + 1;
            if (x < xmin) xmin = x;
            xintab[x] = xin;
        }
        xo += a[0];
    }
>>
    and the same for the rows.  The sums are rounded at every step, so the
    tables are those of IEEE binary64, not of the exact quotient: scaling
    2 columns to 7 copies column 0 four times, where
    [floor ((x + 1/2) * 2 / 7)] would copy it three times.  The doubles
    are the kernel's primitive floats. *)
Module Pillow.
Import PrimFloat FloatOps SpecFloat.

(** [(double) n] for a size [n]; exact below [2^24], the largest size a C
    [float] entry of [box] holds exactly. *)
Definition double_of_size (n : nat) : float :=
  of_uint63 (Uint63Axioms.of_Z (Z.of_nat n)).

(** [(int) v]: conversion truncates towards zero. *)
Definition int_of_double (v : float) : Z :=
  match Prim2SF v with
  | S754_finite s m e =>
      let n := Z.shiftl (Zpos m) e in
      if s then (- n)%Z else n
  | _ => 0%Z
  end.

(** [#define COORD(v) ((v) < 0.0 ? -1 : ((int)(v)))] *)
Definition COORD (v : float) : Z :=
  if (v <? 0)%float then (-1)%Z else int_of_double v.

(** [COORD(xo)] at each of [n] output positions, [xo += a] in between. *)
Fixpoint coords (n : nat) (a xo : float) : list Z :=
  match n with
  | O => []
  | S n' => COORD xo :: coords n' a (xo + a)%float
  end.

(** The source coordinates of [n_out] output positions over [n_in] input
    positions. *)
Definition source_coords (n_in n_out : nat) : list Z :=
  let a := (double_of_size n_in / double_of_size n_out)%float in
  coords n_out a (0 + a * 0.5)%float.

(** [xin >= 0 && xin < imIn->xsize] *)
Definition inside (n_in : nat) (c : Z) : bool :=
  (0 <=? c)%Z && (c <? Z.of_nat n_in)%Z.

(** [xintab], allocated by [calloc]: an entry is written only for a
    coordinate inside the input. *)
Definition xintab (n_in : nat) (cs : list Z) : list Z :=
  map (fun c => if inside n_in c then c else 0%Z) cs.

(** [xmin]: the first output position whose coordinate is inside the
    input, or [x1] when there is none; [x] counts the positions passed. *)
Fixpoint xmin (n_in x : nat) (cs : list Z) : nat :=
  match cs with
  | [] => x
  | c :: rest => if inside n_in c then x else xmin n_in (S x) rest
  end.

(** [xmax]: one past the last output position whose coordinate is inside
    the input, or [x0 = 0] when there is none. *)
Fixpoint xmax (n_in x acc : nat) (cs : list Z) : nat :=
  match cs with
  | [] => acc
  | c :: rest => xmax n_in (S x) (if inside n_in c then S x else acc) rest
  end.

End Pillow.

(* ===================================================================== *)
(** ** The program *)
(* ===================================================================== *)

Section Program.

Variable env : Env.

(** [device = "cuda" if torch.cuda.is_available() else "cpu"] *)
Definition device : string :=
  if cuda_is_available env then "cuda" else "cpu".

(** *** Primitive statements *)

(** What a successful external call changes besides the log: a constructor
    binds its result to the variable it is assigned to, a write creates
    the file. *)
Definition effect (c : ExtCall) (w : World) : World :=
  match c with
  | Load h _ _ => set_live (h :: live w) w
  | FileWrite p => set_fs (p :: fs w) w
  | _ => w
  end.

(** An external call.  It is logged, the clock of calls advances, a stop
    pressed while it was blocking sets [stop_signal], and it either raises
    or takes effect. *)
Definition ext {R} (c : ExtCall) : M R unit :=
  fun w =>
    let r := env_reply env (tick w) c in
    let w1 :=
      step (log (E_call c) (set_stop_signal (stop_signal w || r_stop r) w)) in
    match r_raise r with
    | Some e => (Exc e, w1)
    | None => (Val tt, effect c w1)
    end.

(** An external call that returns text. *)
Definition ext_text {R} (c : ExtCall) : M R string :=
  fun w =>
    let t := env_text env (tick w) c in
    match ext (R := R) c w with
    | (Val _, w1) => (Val t, w1)
    | (Ret r, w1) => (Ret r, w1)
    | (Exc e, w1) => (Exc e, w1)
    end.

(** [datetime.now()] *)
Definition datetime_now {R} : M R DateTime :=
  fun w => (Val (env_now env (tick w)), step w).

(** [os.path.exists(p)] *)
Definition os_path_exists {R} (p : string) : M R bool :=
  get (fun w => existsb (String.eqb p) (fs w)).

(** [os.makedirs(p, exist_ok=exist_ok)] *)
Definition os_makedirs {R} (p : string) (exist_ok : bool) : M R unit :=
  fun w =>
    if existsb (String.eqb p) (fs w) then
      if exist_ok then (Val tt, w)
      else (Exc (mkExn FileExistsError ("File exists: " ++ p)), w)
    else (Val tt, log (E_makedirs p) (set_fs (p :: fs w) w)).

(** [torch.cuda.empty_cache()] *)
Definition empty_cache {R} : M R unit := modify (log E_empty_cache).

(** [del x] where [x] is bound to [v]. *)
Definition del_ {R} (v : PyVal) : M R unit :=
  match v with
  | PObj h => modify (fun w => log (E_del h) (set_live (unbind h (live w)) w))
  | _ => ret tt
  end.

(** [del x] where the local [x] may never have been assigned. *)
Definition del_local {R} (h : Handle) (name : string) : M R unit :=
  fun w =>
    if bound h w then del_ (PObj h) w
    else (Exc (mkExn UnboundLocalError
                 ("local variable '" ++ name
                    ++ "' referenced before assignment")), w).

(** The locals of a helper's frame die when it returns. *)
Definition out_of_scope {R} (hs : list Handle) : M R unit :=
  modify (fun w => set_live (fold_right unbind (live w) hs) w).

Definition type_name (v : PyVal) : string :=
  match v with
  | PNone => "NoneType"
  | PStr _ => "str"
  | PObj _ => "object"
  | PPair _ _ => "tuple"
  end.

(** [v.name(arg)] *)
Definition method {R} (v : PyVal) (name arg : string) : M R unit :=
  match v with
  | PObj h => ext (Method h name arg)
  | _ => raise (mkExn AttributeError
                  ("'" ++ type_name v ++ "' object has no attribute '"
                     ++ name ++ "'"))
  end.

(** [v(input)], the inference call of a model, returning its text. *)
Definition call_obj {R} (v : PyVal) (input : string) : M R string :=
  match v with
  | PObj h => ext_text (Infer h input)
  | _ => raise (mkExn TypeError
                  ("'" ++ type_name v ++ "' object is not callable"))
  end.

(** [chat_history.append([a, b])] *)
Definition chat_history_append {R} (a b : option string) : M R unit :=
  modify (fun w => set_chat_history (chat_history w ++ [(a, b)]) w).

Definition is_not_None (v : PyVal) : bool :=
  match v with
  | PNone => false
  | _ => true
  end.

(** *** Loaders (lines 50-212) *)

(** [load_model(model_name, model_type)] *)
Definition load_model (model_name : option string) (model_type : string)
  : Fn (PyVal * PyVal * option string) :=
  def (
    stop <- get stop_signal ;;
    when stop (return_ (PNone, PNone, Some "Generation stopped")) ;;
    when (truthy_str model_name) (
      let model_path := "inputs/text/llm_models/" ++ fmt model_name in
      if model_type =? "transformers" then
        try_except (
          ext (Load H_tokenizer "AutoTokenizer.from_pretrained" model_path) ;;
          ext (Load H_llm_model "AutoModelForCausalLM.from_pretrained"
                 model_path) ;;
          return_ (PObj H_tokenizer, PObj H_llm_model, None))
        (fun e => isinstance e [OSError; RuntimeError])
        (fun _ =>
          out_of_scope [H_tokenizer; H_llm_model] ;;
          return_ (PNone, PNone,
            Some "The selected model is not compatible with the 'transformers' model type"))
      else if model_type =? "llama" then
        try_except (
          ext (Load H_llm_model "Llama" model_path) ;;
          return_ (PNone, PObj H_llm_model, None))
        (fun e => isinstance e [ValueError; RuntimeError])
        (fun _ =>
          out_of_scope [H_llm_model] ;;
          return_ (PNone, PNone,
            Some "The selected model is not compatible with the 'llama' model type"))
      else ret tt) ;;
    return_ (PNone, PNone, None)).

Definition whisper_model_path : string := "inputs/text/whisper-medium".
Definition whisper_url : string :=
  "https://openaipublic.azureedge.net/main/whisper/models/345ae4da62f9b3d59415adc60127b97c714f32e89e936602e85993674d08dcb1/medium.pt".

(** [transcribe_audio(audio_file_path)] *)
Definition transcribe_audio (audio_file_path : string) : Fn string :=
  def (
    stop <- get stop_signal ;;
    when stop (return_ "Generation stopped") ;;
    ex <- os_path_exists whisper_model_path ;;
    when (negb ex) (
      os_makedirs whisper_model_path true ;;
      ext (Fetch whisper_url (path_join [whisper_model_path; "medium.pt"]))) ;;
    let model_file := path_join [whisper_model_path; "medium.pt"] in
    ext (Load H_transcriber "whisper.load_model" model_file) ;;
    text <- ext_text (Infer H_transcriber audio_file_path) ;;
    out_of_scope [H_transcriber] ;;
    return_ text).

(** [load_tts_model()] *)
Definition load_tts_model : Fn PyVal :=
  def (
    stop <- get stop_signal ;;
    when stop (return_ (PStr "Generation stopped")) ;;
    let tts_model_path := "inputs/audio/XTTS-v2" in
    ex <- os_path_exists tts_model_path ;;
    when (negb ex) (
      os_makedirs tts_model_path true ;;
      ext (Fetch "https://huggingface.co/coqui/XTTS-v2" tts_model_path)) ;;
    ext (Load H_tts_model "TTS" tts_model_path) ;;
    return_ (PObj H_tts_model)).

(** [load_whisper_model()] *)
Definition load_whisper_model : Fn PyVal :=
  def (
    stop <- get stop_signal ;;
    when stop (return_ (PStr "Generation stopped")) ;;
    ex <- os_path_exists whisper_model_path ;;
    when (negb ex) (
      os_makedirs whisper_model_path true ;;
      ext (Fetch whisper_url (path_join [whisper_model_path; "medium.pt"]))) ;;
    let model_file := path_join [whisper_model_path; "medium.pt"] in
    ext (Load H_whisper_model "whisper.load_model" model_file) ;;
    return_ (PObj H_whisper_model)).

(** The repository [load_audiocraft_model] clones for a model name. *)
Definition audiocraft_url (model_name : string) : option string :=
  if model_name =? "musicgen-stereo-medium" then
    Some "https://huggingface.co/facebook/musicgen-stereo-medium"
  else if model_name =? "audiogen-medium" then
    Some "https://huggingface.co/facebook/audiogen-medium"
  else if model_name =? "musicgen-stereo-melody" then
    Some "https://huggingface.co/facebook/musicgen-stereo-melody"
  else if model_name =? "magnet-medium-30sec" then
    Some "https://huggingface.co/facebook/magnet-medium-30secs"
  else if model_name =? "magnet-medium-10sec" then
    Some "https://huggingface.co/facebook/magnet-medium-10secs"
  else if model_name =? "audio-magnet-medium" then
    Some "https://huggingface.co/facebook/audio-magnet-medium"
  else None.

(** [load_audiocraft_model(model_name)]: sets the global
    [audiocraft_model_path] and returns it. *)
Definition load_audiocraft_model (model_name : string) : Fn string :=
  def (
    stop <- get stop_signal ;;
    when stop (return_ "Generation stopped") ;;
    let path := path_join ["inputs"; "audio"; "audiocraft"; model_name] in
    modify (set_audiocraft_model_path (Some path)) ;;
    ex <- os_path_exists path ;;
    when (negb ex) (
      os_makedirs path true ;;
      match audiocraft_url model_name with
      | Some url => ext (Fetch url path)
      | None => ret tt
      end) ;;
    return_ path).

(** [load_upscale_model(upscale_factor)].  When stopped it returns the
    pair [None, "Generation stopped"], otherwise the upscaler itself. *)
Definition load_upscale_model (upscale_factor : nat) : Fn PyVal :=
  def (
    stop <- get stop_signal ;;
    when stop (return_ (PPair PNone (PStr "Generation stopped"))) ;;
    let upscale_model_name :=
      if (upscale_factor =? 2)%nat then "stabilityai/sd-x2-latent-upscaler"
      else "stabilityai/stable-diffusion-x4-upscaler" in
    let upscale_model_path :=
      if (upscale_factor =? 2)%nat
      then path_join ["inputs"; "image"; "sd_models"; "upscale"; "x2-upscaler"]
      else path_join ["inputs"; "image"; "sd_models"; "upscale"; "x4-upscaler"]
    in
    ex <- os_path_exists upscale_model_path ;;
    when (negb ex) (
      os_makedirs upscale_model_path true ;;
      ext (Fetch ("https://huggingface.co/" ++ upscale_model_name)
             upscale_model_path)) ;;
    (if (upscale_factor =? 2)%nat then
       ext (Load H_upscaler "StableDiffusionLatentUpscalePipeline.from_pretrained"
              upscale_model_path)
     else
       ext (Load H_upscaler "StableDiffusionUpscalePipeline.from_pretrained"
              upscale_model_path)) ;;
    ext (Method H_upscaler "to" device) ;;
    ext (Method H_upscaler "enable_attention_slicing" "") ;;
    when (XFORMERS_AVAILABLE env) (
      ext (Method H_upscaler "enable_xformers_memory_efficient_attention" "")) ;;
    return_ (PObj H_upscaler)).

(** *** The chat dispatcher (lines 220-386) *)

(** What [generate_text_and_speech] returns: five values on every path
    but the two stop checks that follow text generation, which return
    four. *)
Inductive ChatResult :=
| Chat5 (history : list (option string * option string))
        (audio_path avatar_path dir message : option string)
| Chat4 (history : list (option string * option string))
        (audio_path avatar_path dir : option string).

Definition instruction_en : string :=
  "I am a chatbot created to help with any questions. I use my knowledge and abilities to provide useful and meaningful answers in any language".
Definition instruction_ru : string :=
  "Я чат-бот, созданный для помощи по любым вопросам. Я использую свои знания и способности, чтобы давать полезные и содержательные ответы на любом языке".

Definition newline : string := String (ascii_of_nat 10) EmptyString.

(** [return chat_history, None, None, None, None] *)
Definition return_history {A} : M ChatResult A :=
  h <- get chat_history ;;
  return_ (Chat5 h None None None None).

(** The text generation step (lines 256-334): the reply, or [None] when no
    model was loaded. *)
Definition generate_text (tokenizer llm_model : PyVal) (llm_model_type : string)
    (prompt : option string) : M ChatResult (option string) :=
  if truthy llm_model then
    if llm_model_type =? "transformers" then
      detect_lang <- ext_text (Lib "langdetect.detect") ;;
      let bot_instruction :=
        if detect_lang =? "en" then instruction_en else instruction_ru in
      method tokenizer "encode" (bot_instruction ++ fmt prompt) ;;
      _ <- call_obj llm_model (bot_instruction ++ fmt prompt) ;;
      stop <- get stop_signal ;;
      when stop (
        chat_history_append prompt (Some "Generation stopped") ;;
        h <- get chat_history ;;
        return_ (Chat4 h None None None)) ;;
      text <- (match tokenizer with
               | PObj h => ext_text (Method h "decode" "")
               | _ => raise (mkExn AttributeError
                               ("'" ++ type_name tokenizer
                                  ++ "' object has no attribute 'decode'"))
               end) ;;
      ret (Some text)
    else if llm_model_type =? "llama" then
      detect_lang <- ext_text (Lib "langdetect.detect") ;;
      let instruction :=
        if detect_lang =? "en"
        then instruction_en ++ newline ++ newline ++ "Human: "
        else instruction_ru ++ newline ++ newline ++ "Человек: " in
      let prompt_with_instruction :=
        instruction ++ fmt prompt ++ newline ++ "Assistant: " in
      text <- call_obj llm_model prompt_with_instruction ;;
      stop <- get stop_signal ;;
      when stop (
        chat_history_append prompt (Some "Generation stopped") ;;
        h <- get chat_history ;;
        return_ (Chat4 h None None None)) ;;
      ret (Some text)
    else ret None
  else ret None.

(** The [try] block of the chat dispatcher (lines 243-373): the reply
    text, the path of the spoken reply and the avatar path. *)
Definition chat_body (tokenizer llm_model : PyVal) (prompt : option string)
    (input_audio : option string) (llm_model_type : string)
    (avatar_name : option string) (enable_tts : bool)
    (speaker_wav language : option string)
  : M ChatResult (option string * option string * option string) :=
  when enable_tts (
    tm <- get tts_model ;;
    when (negb (truthy tm)) (
      v <- call load_tts_model ;;
      modify (set_tts_model v)) ;;
    when (negb (truthy_str speaker_wav) || negb (truthy_str language)) (
      chat_history_append None
        (Some "Please, select a voice and language for TTS!") ;;
      return_history) ;;
    tm <- get tts_model ;;
    method tm "to" device) ;;
  when (truthy_str input_audio) (
    wm <- get whisper_model ;;
    when (negb (truthy wm)) (
      v <- call load_whisper_model ;;
      modify (set_whisper_model v)) ;;
    wm <- get whisper_model ;;
    method wm "to" device) ;;
  text <- generate_text tokenizer llm_model llm_model_type prompt ;;
  cd <- get chat_dir ;;
  when (negb (truthy_str cd)) (
    now <- datetime_now ;;
    let d := path_join ["outputs"; "LLM_" ++ strftime_Ymd_HMS now] in
    modify (set_chat_dir (Some d)) ;;
    os_makedirs d false ;;
    os_makedirs (path_join [d; "text"]) false ;;
    os_makedirs (path_join [d; "audio"]) false) ;;
  cd <- get chat_dir ;;
  let chat_history_path := path_join [fmt cd; "text"; "chat_history.txt"] in
  ext (FileWrite chat_history_path) ;;
  let avatar_path :=
    if truthy_str avatar_name
    then Some ("inputs/image/avatars/" ++ fmt avatar_name) else None in
  if enable_tts && truthy_str text then
    stop <- get stop_signal ;;
    when stop (
      chat_history_append prompt text ;;
      h <- get chat_history ;;
      return_ (Chat5 h None avatar_path cd (Some "Generation stopped"))) ;;
    (* enable_text_splitting = False: only the [else] branch can run *)
    tm <- get tts_model ;;
    method tm "tts" (fmt text) ;;
    now <- datetime_now ;;
    let audio_filename := "TTS_" ++ strftime_Ymd_HMS now ++ ".wav" in
    let audio_path := path_join [fmt cd; "audio"; audio_filename] in
    ext (FileWrite audio_path) ;;
    ret (text, Some audio_path, avatar_path)
  else ret (text, None, avatar_path).

(** The [finally] clause of the chat dispatcher (lines 374-383).  [del] of
    the globals [tts_model] and [whisper_model] unbinds the names until
    line 236-237 of the next call assigns them again. *)
Definition chat_finally (tokenizer llm_model : PyVal) : M ChatResult unit :=
  when (is_not_None tokenizer) (del_ tokenizer) ;;
  when (is_not_None llm_model) (del_ llm_model) ;;
  tm <- get tts_model ;;
  when (is_not_None tm) (del_ tm ;; modify (set_tts_model PNone)) ;;
  wm <- get whisper_model ;;
  when (is_not_None wm) (del_ wm ;; modify (set_whisper_model PNone)) ;;
  empty_cache.

(** [generate_text_and_speech].  The sampling parameters (max_length,
    temperature, top_p, top_k and the TTS ones) go to the library calls
    unchanged and decide nothing in the dispatcher. *)
Definition generate_text_and_speech
    (input_text input_audio llm_model_name : option string)
    (llm_model_type : string) (avatar_name : option string)
    (enable_tts : bool) (speaker_wav language : option string)
  : Fn ChatResult :=
  def (
    modify (set_stop_signal false) ;;
    when (negb (truthy_str input_text) && negb (truthy_str input_audio)) (
      chat_history_append (Some "Please, enter your request!") None ;;
      return_history) ;;
    prompt <- (if truthy_str input_audio
               then t <- call (transcribe_audio (fmt input_audio)) ;;
                    ret (Some t)
               else ret input_text) ;;
    when (negb (truthy_str llm_model_name)) (
      chat_history_append None (Some "Please, select a LLM model!") ;;
      return_history) ;;
    '(tokenizer, llm_model, error_message) <-
      call (load_model llm_model_name llm_model_type) ;;
    when (truthy_str error_message) (
      chat_history_append None error_message ;;
      return_history) ;;
    modify (set_tts_model PNone) ;;
    modify (set_whisper_model PNone) ;;
    '(text, audio_path, avatar_path) <-
      try_finally
        (chat_body tokenizer llm_model prompt input_audio llm_model_type
           avatar_name enable_tts speaker_wav language)
        (chat_finally tokenizer llm_model) ;;
    chat_history_append prompt text ;;
    h <- get chat_history ;;
    cd <- get chat_dir ;;
    return_ (Chat5 h audio_path avatar_path cd None)).

(** *** The image dispatchers (lines 389-697) *)

(** What the dispatchers other than chat return: [(path, message)]. *)
Definition Pair : Type := option string * option string.

Definition sd_model_path (subdirs : list string) (name : option string)
  : string :=
  path_join (["inputs"; "image"; "sd_models"] ++ subdirs
               ++ [fmt name ++ ".safetensors"]).

(** The first [try] of the three image dispatchers (lines 405-430,
    513-538, 609-634): pick the pipeline class and the config file by the
    model-type tag and load the checkpoint; the value is the VAE config. *)
Definition load_pipeline (cls_SD cls_SD2 cls_SDXL : string)
    (stable_diffusion_model_type stable_diffusion_model_path : string)
  : M Pair string :=
  try_except (
    if stable_diffusion_model_type =? "SD" then
      ext (Load H_stable_diffusion_model cls_SD stable_diffusion_model_path) ;;
      ret "configs/sd/v1-inference.yaml"
    else if stable_diffusion_model_type =? "SD2" then
      ext (Load H_stable_diffusion_model cls_SD2 stable_diffusion_model_path) ;;
      ret "configs/sd/v2-inference.yaml"
    else if stable_diffusion_model_type =? "SDXL" then
      ext (Load H_stable_diffusion_model cls_SDXL stable_diffusion_model_path) ;;
      ret "configs/sd/sd_xl_base.yaml"
    else return_ (None, Some "Invalid StableDiffusion model type!"))
  (fun e => isinstance e [ValueError; KeyError])
  (fun _ => return_
     (None, Some "The selected model is not compatible with the chosen model type")).

(** Device placement and the optional VAE (lines 432-452, 540-560,
    636-656). *)
Definition place_on_device (vae_model_name : option string)
    (vae_config_file : string) : M Pair unit :=
  when (XFORMERS_AVAILABLE env) (
    ext (Method H_stable_diffusion_model
           "enable_xformers_memory_efficient_attention" "") ;;
    ext (Method H_stable_diffusion_model
           "vae.enable_xformers_memory_efficient_attention" "") ;;
    ext (Method H_stable_diffusion_model
           "unet.enable_xformers_memory_efficient_attention" "")) ;;
  ext (Method H_stable_diffusion_model "to" device) ;;
  ext (Method H_stable_diffusion_model "text_encoder.to" device) ;;
  ext (Method H_stable_diffusion_model "vae.to" device) ;;
  ext (Method H_stable_diffusion_model "unet.to" device) ;;
  (* stable_diffusion_model.safety_checker = None *)
  match vae_model_name with
  | Some _ =>
      let vae_model_path := sd_model_path ["vae"] vae_model_name in
      ex <- os_path_exists vae_model_path ;;
      when ex (
        ext (Load H_vae "AutoencoderKL.from_single_file" vae_model_path) ;;
        ext (Method H_vae "to" device))
  | None => ret tt
  end.

(** Writing the artifact (lines 479-486 and their copies): two readings of
    the clock, the directory created on demand, the file saved. *)
Definition save_artifact (category subtype ext_ : string) : M Pair string :=
  today <- datetime_now ;;
  let image_dir := output_dir category today in
  os_makedirs image_dir true ;;
  now <- datetime_now ;;
  let image_path := path_join [image_dir; output_filename subtype now ext_] in
  ext (FileWrite image_path) ;;
  ret image_path.

(** [del stable_diffusion_model; torch.cuda.empty_cache()] *)
Definition sd_finally : M Pair unit :=
  del_ (PObj H_stable_diffusion_model) ;;
  empty_cache.

(** The second [try] block of [generate_image_txt2img] (lines 460-486). *)
Definition txt2img_body (prompt : string) (enable_upscale : bool)
    (upscale_factor : string) : M Pair unit :=
  _ <- call_obj (PObj H_stable_diffusion_model) prompt ;;
  stop <- get stop_signal ;;
  when stop (return_ (None, Some "Generation stopped")) ;;
  when enable_upscale (
    let upscale_factor_value := if upscale_factor =? "x2" then 2 else 4 in
    upscaler <- call (load_upscale_model upscale_factor_value) ;;
    when (truthy upscaler) (
      _ <- call_obj upscaler prompt ;;
      ret tt)) ;;
  image_path <- save_artifact "StableDiffusion" "txt2img" ".png" ;;
  return_ (Some image_path, None).

(** [generate_image_txt2img] *)
Definition generate_image_txt2img (prompt : string)
    (stable_diffusion_model_name vae_model_name : option string)
    (lora_model_names : option (list string))
    (stable_diffusion_model_type : string)
    (enable_upscale : bool) (upscale_factor : string) : Fn Pair :=
  def (
    modify (set_stop_signal false) ;;
    when (negb (truthy_str stable_diffusion_model_name)) (
      return_ (None, Some "Please, select a StableDiffusion model!")) ;;
    let stable_diffusion_model_path :=
      sd_model_path [] stable_diffusion_model_name in
    ex <- os_path_exists stable_diffusion_model_path ;;
    when (negb ex) (
      return_ (None, Some ("StableDiffusion model not found: "
                             ++ stable_diffusion_model_path))) ;;
    vae_config_file <-
      load_pipeline "StableDiffusionPipeline.from_single_file"
        "StableDiffusionPipeline.from_single_file"
        "StableDiffusionXLPipeline.from_single_file"
        stable_diffusion_model_type stable_diffusion_model_path ;;
    place_on_device vae_model_name vae_config_file ;;
    match lora_model_names with
    | Some names =>
        for_each names (fun lora_model_name =>
          ext (Method H_stable_diffusion_model "load_lora_weights"
                 (path_join ["inputs"; "image"; "sd_models"; "lora";
                             lora_model_name])))
    | None => ret tt
    end ;;
    try_finally (txt2img_body prompt enable_upscale upscale_factor)
      sd_finally ;;
    ret (None, None)).

(** The second [try] block of [generate_image_img2img] (lines 563-584),
    with its [except Exception as e: return None, str(e)]. *)
Definition img2img_body (prompt init_image : string) : M Pair unit :=
  try_except (
    ext (FileOpen "Image.open" init_image) ;;
    ext (Method H_stable_diffusion_model "image_processor.preprocess" "") ;;
    _ <- call_obj (PObj H_stable_diffusion_model) prompt ;;
    stop <- get stop_signal ;;
    when stop (return_ (None, Some "Generation stopped")) ;;
    image_path <- save_artifact "StableDiffusion" "img2img" ".png" ;;
    return_ (Some image_path, None))
  (fun _ => true)
  (fun e => return_ (None, Some (exn_str e))).

(** [generate_image_img2img] *)
Definition generate_image_img2img (prompt : string)
    (init_image stable_diffusion_model_name vae_model_name : option string)
    (stable_diffusion_model_type : string) : Fn Pair :=
  def (
    modify (set_stop_signal false) ;;
    when (negb (truthy_str stable_diffusion_model_name)) (
      return_ (None, Some "Please, select a StableDiffusion model!")) ;;
    when (negb (truthy_str init_image)) (
      return_ (None, Some "Please, upload an initial image!")) ;;
    let stable_diffusion_model_path :=
      sd_model_path [] stable_diffusion_model_name in
    ex <- os_path_exists stable_diffusion_model_path ;;
    when (negb ex) (
      return_ (None, Some ("StableDiffusion model not found: "
                             ++ stable_diffusion_model_path))) ;;
    vae_config_file <-
      load_pipeline "StableDiffusionImg2ImgPipeline.from_single_file"
        "StableDiffusionPipeline.from_single_file"
        "StableDiffusionImg2ImgPipeline.from_single_file"
        stable_diffusion_model_type stable_diffusion_model_path ;;
    place_on_device vae_model_name vae_config_file ;;
    try_finally (img2img_body prompt (fmt init_image)) sd_finally ;;
    ret (None, None)).

(** *** The inpaint mask (lines 672-675) *)

(** [np.where(mask_array < 255, 0, 255)] on one pixel. *)
Definition np_where_lt_255 (v : Z) : Z :=
  if (v <? 255)%Z then 0%Z else 255%Z.

(** [.astype(np.uint8)] on one value. *)
Definition astype_uint8 (v : Z) : Z := (v mod 256)%Z.

(** [np.where(mask_array < 255, 0, 255).astype(np.uint8)], elementwise. *)
Definition binarize_pixel (v : Z) : Z := astype_uint8 (np_where_lt_255 v).

Definition binarize_mask (mask_array : list (list Z)) : list (list Z) :=
  map (map binarize_pixel) mask_array.

(** The pixel at column [x] of row [y]; 0 outside the image. *)
Definition pixel (img : list (list Z)) (x y : nat) : Z :=
  nth x (nth y img []) 0%Z.

(** [Image.fromarray(a).size]: [(a.shape[1], a.shape[0])]. *)
Definition image_size (a : list (list Z)) : nat * nat :=
  (List.length (hd [] a), List.length a).

Definition size_eqb (a b : nat * nat) : bool :=
  (fst a =? fst b)%nat && (snd a =? snd b)%nat.

(** The input pixel that output pixel [(x, y)] is a copy of, if any.
    [Image.resize] returns [self.copy()] when the size does not change.
    Otherwise row [y] is copied from input row [yi = COORD(yo)] when that
    lies inside the input, and within it
    [for (x = xmin; x < xmax; x++) out[x] = in[xintab[x]]]. *)
Definition source_pixel (size_in size_out : nat * nat) (x y : nat)
  : option (nat * nat) :=
  if size_eqb size_out size_in then Some (x, y)
  else
    let '(w_in, h_in) := size_in in
    let '(w, h) := size_out in
    let cs := Pillow.source_coords w_in w in
    let yi := nth y (Pillow.source_coords h_in h) (-1)%Z in
    if Pillow.inside h_in yi
       && (Pillow.xmin w_in 0 cs <=? x)%nat
       && (x <? Pillow.xmax w_in 0 0 cs)%nat
    then Some (Z.to_nat (nth x (Pillow.xintab w_in cs) 0%Z), Z.to_nat yi)
    else None.

(** [Image.fromarray(a).resize(size, resample=Image.NEAREST)]; what is
    not copied is filled with 0.  [size] is the size of an opened image,
    so both its numbers are at least 1. *)
Definition resize_nearest (size : nat * nat) (img : list (list Z))
  : list (list Z) :=
  if size_eqb size (image_size img) then img
  else
    let '(w, h) := size in
    map (fun y =>
           map (fun x =>
                  match source_pixel (image_size img) size x y with
                  | Some (sx, sy) => pixel img sx sy
                  | None => 0%Z
                  end)
             (seq 0 w))
      (seq 0 h).

(** The mask handed to the inpaint pipeline, from the grayscale mask image
    and the size of the initial image. *)
Definition derive_mask (mask_image : list (list Z)) (size : nat * nat)
  : list (list Z) :=
  resize_nearest size (binarize_mask mask_image).

(** What the mask editor hands over: nothing, a dict whose ['composite']
    entry is a path or missing, a path, or an object of another type. *)
Inductive MaskImage :=
| Mask_None
| Mask_dict (composite : option string)
| Mask_str (s : string)
| Mask_other.

Definition truthy_mask (m : MaskImage) : bool :=
  match m with
  | Mask_None => false
  | Mask_dict _ => true
  | Mask_str s => negb (s =? "")
  | Mask_other => true
  end.

(** The second [try] block of [generate_image_inpaint] (lines 659-693). *)
Definition inpaint_body (prompt init_image : string) (mask_image : MaskImage)
  : M Pair unit :=
  mask_path <-
    match mask_image with
    | Mask_dict None =>
        raise (mkExn ValueError
                 "Invalid mask image data: missing 'composite' key")
    | Mask_dict (Some composite_path) =>
        ext (FileOpen "Image.open" composite_path) ;; ret composite_path
    | Mask_str s =>
        ext (FileOpen "Image.open" s) ;; ret s
    | _ => raise (mkExn ValueError "Invalid mask image format")
    end ;;
  ext (FileOpen "Image.open" init_image) ;;
  let mask_array := derive_mask (env_pixels env mask_path)
                      (env_size env init_image) in
  ext (InferMasked H_stable_diffusion_model prompt mask_array) ;;
  stop <- get stop_signal ;;
  when stop (return_ (None, Some "Generation stopped")) ;;
  image_path <- save_artifact "StableDiffusion" "inpaint" ".png" ;;
  return_ (Some image_path, None).

(** [generate_image_inpaint] *)
Definition generate_image_inpaint (prompt : string)
    (init_image : option string) (mask_image : MaskImage)
    (stable_diffusion_model_name vae_model_name : option string)
    (stable_diffusion_model_type : string) : Fn Pair :=
  def (
    modify (set_stop_signal false) ;;
    when (negb (truthy_str stable_diffusion_model_name)) (
      return_ (None, Some "Please, select a StableDiffusion model!")) ;;
    when (negb (truthy_str init_image) || negb (truthy_mask mask_image)) (
      return_ (None, Some "Please, upload an initial image and a mask image!")) ;;
    let stable_diffusion_model_path :=
      sd_model_path ["inpaint"] stable_diffusion_model_name in
    ex <- os_path_exists stable_diffusion_model_path ;;
    when (negb ex) (
      return_ (None, Some ("StableDiffusion model not found: "
                             ++ stable_diffusion_model_path))) ;;
    vae_config_file <-
      load_pipeline "StableDiffusionInpaintPipeline.from_single_file"
        "StableDiffusionInpaintPipeline.from_single_file"
        "StableDiffusionInpaintPipeline.from_single_file"
        stable_diffusion_model_type stable_diffusion_model_path ;;
    place_on_device vae_model_name vae_config_file ;;
    try_finally (inpaint_body prompt (fmt init_image) mask_image) sd_finally ;;
    ret (None, None)).

(** *** The video dispatcher (lines 700-747) *)

Definition video_model_path : string :=
  path_join ["inputs"; "image"; "sd_models"; "video"].

(** The [try] block of [generate_video] (lines 716-740). *)
Definition video_body (init_image : option string) : M Pair unit :=
  ext (Load H_pipe "StableVideoDiffusionPipeline.from_pretrained"
         video_model_path) ;;
  ext (Method H_pipe "enable_model_cpu_offload" "") ;;
  ext (FileOpen "load_image" (fmt init_image)) ;;
  ext (Lib "torch.manual_seed") ;;
  _ <- call_obj (PObj H_pipe) (fmt init_image) ;;
  stop <- get stop_signal ;;
  when stop (return_ (None, Some "Generation stopped")) ;;
  video_path <- save_artifact "StableDiffusion" "video" ".mp4" ;;
  return_ (Some video_path, None).

(** The [finally] clause of [generate_video] (lines 742-747). *)
Definition video_finally : M Pair unit :=
  try_except (del_local H_pipe "pipe")
    (fun e => isinstance e [UnboundLocalError])
    (fun _ => ret tt) ;;
  empty_cache.

(** [generate_video] *)
Definition generate_video (init_image : option string) : Fn Pair :=
  def (
    modify (set_stop_signal false) ;;
    ex <- os_path_exists video_model_path ;;
    when (negb ex) (
      os_makedirs video_model_path true ;;
      ext (Fetch "https://huggingface.co/vdo/stable-video-diffusion-img2vid-xt-1-1"
             video_model_path)) ;;
    try_finally (video_body init_image) video_finally ;;
    ret (None, None)).

(** *** The extras dispatcher (lines 750-776) *)

(** [generate_image_extras] *)
Definition generate_image_extras (image_path : option string)
    (enable_upscale : bool) : Fn Pair :=
  def (
    stop <- get stop_signal ;;
    when stop (return_ (None, Some "Generation stopped")) ;;
    when (negb enable_upscale) (
      return_ (None, Some "Please enable upscale to generate an image!")) ;;
    when (negb (truthy_str image_path)) (
      return_ (None, Some "Please, upload an initial image!")) ;;
    upscaler <- call (load_upscale_model 2) ;;
    if truthy upscaler then
      ext (FileOpen "Image.open" (fmt image_path)) ;;
      _ <- call_obj upscaler "" ;;
      image_path <- save_artifact "StableDiffusion" "extras" ".png" ;;
      return_ (Some image_path, None)
    else return_ (None, Some "Failed to load upscale model")).

(** *** The audio dispatcher (lines 779-874) *)

(** The first [try] of [generate_audio] (lines 803-816): the model is
    loaded from the global [audiocraft_model_path]. *)
Definition load_audio_model (model_type : string) : M Pair unit :=
  try_except (
    path <- get audiocraft_model_path ;;
    if model_type =? "musicgen" then
      ext (Load H_model "MusicGen.get_pretrained" (fmt path)) ;;
      ext (Method H_model "set_generation_params" "")
    else if model_type =? "audiogen" then
      ext (Load H_model "AudioGen.get_pretrained" (fmt path)) ;;
      ext (Method H_model "set_generation_params" "")
    else return_ (None, Some "Invalid model type!"))
  (fun e => isinstance e [ValueError; AssertionError])
  (fun _ => return_
     (None, Some "The selected model is not compatible with the chosen model type")).

(** The second [try] block of [generate_audio] (lines 824-868). *)
Definition audio_body (prompt : string) (input_audio : option string)
    (model_type audio_dir : string) (mbd : PyVal) : M Pair unit :=
  (if truthy_str input_audio && (model_type =? "musicgen") then
     ext (FileOpen "torchaudio.load" (fmt input_audio)) ;;
     ext (Method H_model "set_generation_params" "") ;;
     ext (Infer H_model prompt) ;;
     stop <- get stop_signal ;;
     when stop (return_ (None, Some "Generation stopped"))
   else
     ext (Method H_model "set_generation_params" "") ;;
     ext (Infer H_model prompt) ;;
     stop <- get stop_signal ;;
     when stop (return_ (None, Some "Generation stopped"))) ;;
  when (truthy mbd) (
    stop <- get stop_signal ;;
    when stop (return_ (None, Some "Generation stopped")) ;;
    ext (Lib "rearrange") ;;
    method mbd "tokens_to_wav" "" ;;
    now <- datetime_now ;;
    let audio_filename_diffusion :=
      "audio_" ++ strftime_Ymd_HMS now ++ "_diffusion.wav" in
    ext (FileWrite (path_join [audio_dir; audio_filename_diffusion]))) ;;
  now <- datetime_now ;;
  let audio_filename := "audio_" ++ strftime_Ymd_HMS now in
  let audio_path := path_join [audio_dir; audio_filename] in
  ext (FileWrite (audio_path ++ ".wav")) ;;
  return_ (Some (audio_path ++ ".wav"), None).

(** The [finally] clause of [generate_audio] (lines 870-874). *)
Definition audio_finally (mbd : PyVal) : M Pair unit :=
  del_ (PObj H_model) ;;
  when (truthy mbd) (del_ mbd) ;;
  empty_cache.

(** [generate_audio].  [audio_write] appends the [.wav] suffix to the
    stem it is given. *)
Definition generate_audio (prompt : string)
    (input_audio model_name : option string) (model_type : string)
    (enable_multiband : bool) : Fn Pair :=
  def (
    modify (set_stop_signal false) ;;
    when (negb (truthy_str model_name)) (
      return_ (None, Some "Please, select an AudioCraft model!")) ;;
    when (enable_multiband
          && ((model_type =? "audiogen") || (model_type =? "magnet"))) (
      return_ (None, Some "Multiband Diffusion is not supported with 'audiogen' or 'magnet' model types. Please select 'musicgen' or disable Multiband Diffusion")) ;;
    when (model_type =? "magnet") (
      return_ (None, Some "The 'magnet' model type is currently not supported, but it will be available in a future update. Please select another model type for now")) ;;
    path <- get audiocraft_model_path ;;
    when (negb (truthy_str path)) (
      p <- call (load_audiocraft_model (fmt model_name)) ;;
      modify (set_audiocraft_model_path (Some p))) ;;
    today <- datetime_now ;;
    let audio_dir := output_dir "AudioCraft" today in
    os_makedirs audio_dir true ;;
    load_audio_model model_type ;;
    mbd <- (if enable_multiband
            then ext (Load H_mbd "MultiBandDiffusion.get_mbd_musicgen" "") ;;
                 ret (PObj H_mbd)
            else ret PNone) ;;
    try_finally (audio_body prompt input_audio model_type audio_dir mbd)
      (audio_finally mbd) ;;
    ret (None, None)).

End Program.

(* ===================================================================== *)
(** ** Concrete environments for the examples *)
(* ===================================================================== *)

Definition no_reply : Reply := mkReply None false.

Definition noon : DateTime := mkDateTime 2024 5 17 12 0 0.

(** Every library call succeeds, nobody presses stop, the clock stands at
    the same second for the whole run. *)
Definition quiet_env : Env :=
  mkEnv (fun _ _ => no_reply) (fun _ _ => "hello") (fun _ => noon)
    true false (fun _ => [[0; 128]; [254; 255]]%Z) (fun _ => (2, 2)).

(** The same environment in which one kind of call fails with [e]. *)
Definition failing_env (fails : ExtCall -> bool) (e : Exn) : Env :=
  mkEnv (fun _ c => if fails c then mkReply (Some e) false else no_reply)
    (fun _ _ => "hello") (fun _ => noon)
    true false (fun _ => [[0; 128]; [254; 255]]%Z) (fun _ => (2, 2)).

(** The same environment in which stop is pressed during one kind of
    call. *)
Definition stopping_env (stops : ExtCall -> bool) : Env :=
  mkEnv (fun _ c => mkReply None (stops c))
    (fun _ _ => "hello") (fun _ => noon)
    true false (fun _ => [[0; 128]; [254; 255]]%Z) (fun _ => (2, 2)).

(** A process whose [inputs/] tree holds the checkpoint [m]. *)
Definition world_with_models : World :=
  set_fs ["inputs/image/sd_models/m.safetensors";
          "inputs/image/sd_models/inpaint/m.safetensors";
          "inputs/image/sd_models/video"] initial_world.

Definition is_Load (c : ExtCall) : bool :=
  match c with Load _ _ _ => true | _ => false end.
Definition is_Infer (c : ExtCall) : bool :=
  match c with Infer _ _ | InferMasked _ _ _ => true | _ => false end.
Definition is_write (c : ExtCall) : bool :=
  match c with FileWrite _ | Fetch _ _ => true | _ => false end.

(** Did the log record a model load, a file write, a cache clear? *)
Definition loads_model (e : Event) : bool :=
  match e with E_call c => is_Load c | _ => false end.
Definition writes_file (e : Event) : bool :=
  match e with E_call c => is_write c | E_makedirs _ => true | _ => false end.
Definition clears_cache (e : Event) : bool :=
  match e with E_empty_cache => true | _ => false end.

(** The messages of the audio dispatcher's up-front rejections. *)
Definition msg_select_audiocraft : string :=
  "Please, select an AudioCraft model!".
Definition msg_multiband : string :=
  "Multiband Diffusion is not supported with 'audiogen' or 'magnet' model types. Please select 'musicgen' or disable Multiband Diffusion".
Definition msg_magnet : string :=
  "The 'magnet' model type is currently not supported, but it will be available in a future update. Please select another model type for now".


(** Stop is pressed while the language model is being loaded. *)
Definition stop_during_llm_load : Env :=
  stopping_env (fun c =>
    match c with
    | Load H_llm_model _ _ => true
    | _ => false
    end).

(** The process after a first, successful audio generation with the
    model "musicgen-stereo-medium". *)
Definition after_first_audio : World :=
  snd (generate_audio quiet_env "rain" None (Some "musicgen-stereo-medium")
         "musicgen" false initial_world).

(** The events a call added to the log: those of [w'] that [w] lacks. *)
Definition new_events (w w' : World) : list Event :=
  firstn (List.length (trace w') - List.length (trace w)) (trace w').

(** An 8-bit grayscale image. *)
Definition grayscale (img : list (list Z)) : Prop :=
  Forall (Forall (fun v => 0 <= v <= 255)%Z) img.

(** The mask of the specification's example. *)
Definition example_mask : list (list Z) := [[0; 128]; [254; 255]]%Z.

(** The state a cleanup is meant to leave: the cache clear is the newest
    event of the log and none of the handles [hs] is bound any more. *)
Definition released (hs : list Handle) (w : World) : Prop :=
  hd_error (trace w) = Some E_empty_cache
  /\ forall h, In h hs -> bound h w = false.

(** The handles among a list of values. *)
Fixpoint handles_of (vs : list PyVal) : list Handle :=
  match vs with
  | [] => []
  | PObj h :: rest => h :: handles_of rest
  | _ :: rest => handles_of rest
  end.

(** Loading the LoRA weights fails. *)
Definition lora_fails : Env :=
  failing_env (fun c =>
    match c with
    | Method _ name _ => name =? "load_lora_weights"
    | _ => false
    end) (mkExn OSError "lora file not found").

(** Two clock readings fall on the same calendar day. *)
Definition same_day (a b : DateTime) : Prop :=
  year a = year b /\ month a = month b /\ day a = day b.

(** The process after a first, successful text-to-image generation. *)
Definition after_first_txt2img : World :=
  snd (generate_image_txt2img quiet_env "a cat" (Some "m") None None "SD"
         false "x2" world_with_models).

(** Loading the optional VAE fails. *)
Definition vae_fails : Env :=
  failing_env (fun c =>
    match c with
    | Load H_vae _ _ => true
    | _ => false
    end) (mkExn RuntimeError "unexpected key in state_dict").

(** A process whose [inputs/] tree also holds the VAE [v]. *)
Definition world_with_vae : World :=
  set_fs ["inputs/image/sd_models/vae/v.safetensors";
          "inputs/image/sd_models/m.safetensors"] initial_world.

Definition msg_select_sd : string := "Please, select a StableDiffusion model!".
Definition msg_select_llm : string := "Please, select a LLM model!".

(* ===================================================================== *)
(** ** Frames: what a statement may change *)
(* ===================================================================== *)

(** A frame [I] relates the state before a statement to the state after
    it.  [sat I PV PR c]: when [c] falls through, the frame holds and the
    value satisfies [PV]; when it executes [return r], [PR] holds of the
    two states and [r]; when it raises, the frame holds. *)
Definition sat {R A} (I : World -> World -> Prop) (PV : A -> Prop)
    (PR : World -> R -> World -> Prop) (c : M R A) : Prop :=
  forall w,
    match c w with
    | (Val a, w') => I w w' /\ PV a
    | (Ret r, w') => PR w r w'
    | (Exc _, w') => I w w'
    end.

(** The same for a function call: the frame holds however the call ends,
    and a returned value satisfies [PV]. *)
Definition fn_sat {R} (I : World -> World -> Prop) (PV : R -> Prop)
    (f : Fn R) : Prop :=
  forall w,
    match f w with
    | (Returned r, w') => I w w' /\ PV r
    | (Raised _, w') => I w w'
    end.

(** What a frame must tolerate: the bookkeeping every external call and
    every primitive statement does. *)
Record frame_ok (I : World -> World -> Prop) : Prop := mk_frame_ok {
  fr_refl : forall w, I w w;
  fr_trans : forall a b c, I a b -> I b c -> I a c;
  fr_stop : forall b w, I w (set_stop_signal b w);
  fr_log : forall e w, I w (log e w);
  fr_step : forall w, I w (step w);
  fr_live : forall l w, I w (set_live l w);
  fr_fs : forall p w, I w (set_fs (p :: fs w) w)
}.

(** A cleanup clause: it always falls through, within the frame. *)
Definition runs {R} (I : World -> World -> Prop) (fin : M R unit) : Prop :=
  forall w, fst (fin w) = Val tt /\ I w (snd (fin w)).

(** A [return] condition that absorbs the frame on both sides. *)
Record ret_ok {R} (I : World -> World -> Prop)
    (PR : World -> R -> World -> Prop) : Prop := mk_ret_ok {
  ro_left : forall a b c r, I a b -> PR b r c -> PR a r c;
  ro_right : forall a b c r, PR a r b -> I b c -> PR a r c
}.

(** No [return] at all. *)
Definition no_return {R} : World -> R -> World -> Prop :=
  fun _ _ _ => False.

Definition any {A} : A -> Prop := fun _ => True.
Definition never {A} : A -> Prop := fun _ => False.

(** The chat history is left as it was. *)
Definition same_history (w w' : World) : Prop :=
  chat_history w' = chat_history w.

(** Exactly one entry was appended to the chat history. *)
Definition one_more_entry (w : World) (r : ChatResult) (w' : World) : Prop :=
  exists entry, chat_history w' = (chat_history w ++ [entry])%list.

(** The trivial frame. *)
Definition any_change (w w' : World) : Prop := True.

(** A result of a pair-returning dispatcher is well formed: an artifact
    path with no message, or a message with no path. *)
Definition path_xor_message (r : Pair) : Prop :=
  match r with
  | (Some _, None) | (None, Some _) => True
  | _ => False
  end.

(** A resolved AudioCraft model path stays as it is. *)
Definition audiocraft_path_kept (w w' : World) : Prop :=
  truthy_str (audiocraft_model_path w) = true ->
  audiocraft_model_path w' = audiocraft_model_path w.

(** An open chat session keeps its directory. *)
Definition chat_dir_kept (w w' : World) : Prop :=
  truthy_str (chat_dir w) = true -> chat_dir w' = chat_dir w.

(** The return condition of the pair-returning dispatchers. *)
Definition well_formed_result (w : World) (r : Pair) (w' : World) : Prop :=
  path_xor_message r.

(** The chat session is left as it was. *)
Definition same_session (w w' : World) : Prop :=
  chat_history w' = chat_history w /\ chat_dir w' = chat_dir w
  /\ tts_model w' = tts_model w /\ whisper_model w' = whisper_model w.

(** None of the globals that outlive a request is changed. *)
Definition untouched_globals (w w' : World) : Prop :=
  same_session w w'
  /\ audiocraft_model_path w' = audiocraft_model_path w.

(** What the audio dispatcher may change: only an unresolved model path. *)
Definition audio_frame (w w' : World) : Prop :=
  same_session w w' /\ audiocraft_path_kept w w'.

(** What the chat dispatcher leaves alone: the AudioCraft model path, and
    the directory of a session that is already open. *)
Definition chat_frame (w w' : World) : Prop :=
  audiocraft_model_path w' = audiocraft_model_path w /\ chat_dir_kept w w'.

(** The AudioCraft model path is left as it was. *)
Definition audiocraft_path_same (w w' : World) : Prop :=
  audiocraft_model_path w' = audiocraft_model_path w.

(** The process after a first chat turn, which opened the session. *)
Definition after_first_chat : World :=
  snd (generate_text_and_speech quiet_env (Some "hi") None (Some "llm")
         "transformers" None false None None initial_world).

(* ===================================================================== *)
(** ** Definitions for the further properties *)
(* ===================================================================== *)

Definition msg_upscale_failed : string := "Failed to load upscale model".

(** The message of a result, if any, is not [msg]. *)
Definition message_differs (msg : string) (r : Pair) : Prop :=
  match snd r with
  | Some m => m <> msg
  | None => True
  end.

Definition not_upscale_failure (w : World) (r : Pair) (w' : World) : Prop :=
  message_differs msg_upscale_failed r.

Definition is_truthy (v : PyVal) : Prop := truthy v = true.

(** What [load_model] can return. *)
Definition load_model_result (model_type : string)
    (r : PyVal * PyVal * option string) : Prop :=
  match r with
  | (PNone, PNone, _) => True
  | (PObj H_tokenizer, PObj H_llm_model, None) => model_type = "transformers"
  | (PNone, PObj H_llm_model, None) => model_type = "llama"
  | _ => False
  end.

(** The statements under [try:] in [generate_image_img2img] (lines
    563-581), without the [except] clause. *)
Definition img2img_try (env : Env) (prompt init_image : string)
  : M Pair unit :=
  ext env (FileOpen "Image.open" init_image) ;;
  ext env (Method H_stable_diffusion_model "image_processor.preprocess" "") ;;
  _ <- call_obj env (PObj H_stable_diffusion_model) prompt ;;
  stop <- get stop_signal ;;
  when stop (return_ (None, Some "Generation stopped")) ;;
  image_path <- save_artifact env "StableDiffusion" "img2img" ".png" ;;
  return_ (Some image_path, None).

Definition never_fails (env : Env) : Prop :=
  forall n c, r_raise (env_reply env n c) = None.

Definition stopped : Pair := (None, Some "Generation stopped").

(* ===================================================================== *)
(** ** The model lists offered by the interface (lines 910-924) *)
(* ===================================================================== *)

(** [s.startswith(pat)] *)
Fixpoint startswith (pat s : string) : bool :=
  match pat, s with
  | EmptyString, _ => true
  | String _ _, EmptyString => false
  | String a pat', String b s' => Ascii.eqb a b && startswith pat' s'
  end.

(** [s.endswith(suf)]: some tail of [s] is [suf]. *)
Fixpoint endswith (suf s : string) : bool :=
  (s =? suf)
  || match s with
     | EmptyString => false
     | String _ s' => endswith suf s'
     end.

(** Does [pat] occur in [s]? *)
Fixpoint occurs (pat s : string) : bool :=
  startswith pat s
  || match s with
     | EmptyString => false
     | String _ s' => occurs pat s'
     end.

(** [s.replace(pat, "")] for a non-empty [pat], scanning left to right:
    [skip] characters of a match are still to be dropped. *)
Fixpoint remove_from (pat s : string) (skip : nat) : string :=
  match s with
  | EmptyString => EmptyString
  | String c rest =>
      match skip with
      | S k => remove_from pat rest k
      | O =>
          if startswith pat s
          then remove_from pat rest (String.length pat - 1)
          else String c (remove_from pat rest 0)
      end
  end.

(** [s.replace(pat, "")] *)
Definition replace_with_empty (pat s : string) : string :=
  if pat =? "" then s else remove_from pat s 0.

Definition safetensors : string := ".safetensors".

(** [[None] + [m for m in os.listdir(d) if not m.endswith(".txt")]]
    (llm_models_list, avatars_list, speaker_wavs_list). *)
Definition plain_list (listdir : list string) : list (option string) :=
  None :: map Some (filter (fun m => negb (endswith ".txt" m)) listdir).

(** [stable_diffusion_models_list]; [isdir] is
    [os.path.isdir("inputs/image/sd_models")]. *)
Definition stable_diffusion_models_list (listdir : list string)
    (isdir : bool) : list (option string) :=
  None :: map (fun m => Some (replace_with_empty safetensors m))
            (filter (fun m => endswith safetensors m
                              || (negb (endswith ".txt" m) && negb isdir))
               listdir).

(** [vae_models_list] and [inpaint_models_list]. *)
Definition vae_models_list (listdir : list string) : list (option string) :=
  None :: map (fun m => Some (replace_with_empty safetensors m))
            (filter (fun m => endswith safetensors m
                              || negb (endswith ".txt" m))
               listdir).

(** [lora_models_list] *)
Definition lora_models_list (listdir : list string) : list (option string) :=
  None :: map Some (filter (fun m => endswith safetensors m) listdir).

(** [audiocraft_models_list] (lines 916-917), without its leading
    [None]. *)
Definition audiocraft_models_list : list string :=
  ["musicgen-stereo-medium"; "audiogen-medium"; "musicgen-stereo-melody";
   "magnet-medium-30sec"; "magnet-medium-10sec"; "audio-magnet-medium"].

(** [load_multiband_diffusion_model()] (lines 153-163); no dispatcher
    calls it. *)
Definition load_multiband_diffusion_model (env : Env) : Fn string :=
  def (
    stop <- get stop_signal ;;
    when stop (return_ "Generation stopped") ;;
    let multiband_diffusion_path :=
      path_join ["inputs"; "audio"; "audiocraft"; "multiband-diffusion"] in
    ex <- os_path_exists multiband_diffusion_path ;;
    when (negb ex) (
      os_makedirs multiband_diffusion_path true ;;
      ext env (Fetch "https://huggingface.co/facebook/multiband-diffusion"
                 multiband_diffusion_path)) ;;
    return_ (device env))%py.

(* ===================================================================== *)
(** ** Downloads and the model directories *)
(* ===================================================================== *)

(** The downloads among the logged calls: [Repo.clone_from] and
    [requests.get]. *)
Definition is_Fetch (c : ExtCall) : bool :=
  match c with Fetch _ _ => true | _ => false end.
Definition is_download (e : Event) : bool :=
  match e with E_call c => is_Fetch c | _ => false end.
Definition downloads (w : World) : list Event :=
  filter is_download (trace w).

(** [os.path.exists(p)] in the state [w]. *)
Definition exists_on_disk (p : string) (w : World) : bool :=
  existsb (String.eqb p) (fs w).

(** The directories the loaders test (lines 103, 158, 174-178). *)
Definition tts_model_path : string := "inputs/audio/XTTS-v2".
Definition multiband_diffusion_path : string :=
  "inputs/audio/audiocraft/multiband-diffusion".
Definition upscale_model_path (upscale_factor : nat) : string :=
  if (upscale_factor =? 2)%nat
  then "inputs/image/sd_models/upscale/x2-upscaler"
  else "inputs/image/sd_models/upscale/x4-upscaler".

(** A download that fails. *)
Definition offline_env : Env :=
  failing_env is_Fetch (mkExn OtherError "Could not resolve host").

(** Loading a model or running one. *)
Definition uses_model (e : Event) : bool :=
  match e with
  | E_call c => is_Load c || is_Infer c
  | _ => false
  end.

(** [f"inputs/image/avatars/{avatar_name}" if avatar_name else None]
    (line 346) *)
Definition avatar_path_of (avatar_name : option string) : option string :=
  if truthy_str avatar_name
  then Some ("inputs/image/avatars/" ++ fmt avatar_name) else None.

(** No model was loaded or run, and the chat globals are as they were. *)
Definition no_model_used (w w' : World) : Prop :=
  filter uses_model (trace w') = filter uses_model (trace w)
  /\ chat_history w' = chat_history w
  /\ tts_model w' = tts_model w
  /\ whisper_model w' = whisper_model w.

(** Constructing the VAE (line 448). *)
Definition loads_vae (e : Event) : bool :=
  match e with
  | E_call (Load H_vae _ _) => true
  | _ => false
  end.

(** A VAE folder with one checkpoint in another format. *)
Definition world_with_pt_vae : World :=
  set_fs ["inputs/image/sd_models/vae/vae.pt"] initial_world.

(* ===================================================================== *)
(** ** What a returned path stands for *)
(* ===================================================================== *)

(** The log and the file system only grow. *)
Definition keeps_log (w w' : World) : Prop :=
  (exists new, trace w' = (new ++ trace w)%list)
  /\ incl (fs w) (fs w').

(** The path a dispatcher returns was written during the call: the call
    logged [FileWrite] of that very path, and the file is there. *)
Definition returned_path_written (w : World) (r : Pair) (w' : World)
  : Prop :=
  match fst r with
  | Some p =>
      exists new,
        trace w' = (new ++ trace w)%list
        /\ In (E_call (FileWrite p)) new
        /\ In p (fs w')
  | None => True
  end.

(** The path of the mask image that [inpaint_body] opens (lines 660-669). *)
Definition opened_mask (mask_image : MaskImage) : option string :=
  match mask_image with
  | Mask_dict (Some composite_path) => Some composite_path
  | Mask_str s => Some s
  | _ => None
  end.

(** The directory of an AudioCraft model (line 133). *)
Definition audiocraft_path (model_name : string) : string :=
  path_join ["inputs"; "audio"; "audiocraft"; model_name].
(* ===================================================================== *)
(** ** The audio dispatcher's up-front rejections *)
(* ===================================================================== *)

(** C2, as stated, fails: with the "magnet" model type but no model
    selected, [generate_audio] answers with the missing-model message, and
    with multiband refinement enabled it answers with the multiband
    message, not with the "magnet" one. *)
Lemma C2_magnet_not_always :
  fst (generate_audio quiet_env "rain" None None "magnet" false initial_world)
    = Returned (None, Some msg_select_audiocraft)
  /\ fst (generate_audio quiet_env "rain" None (Some "magnet-medium-10sec")
            "magnet" true initial_world)
    = Returned (None, Some msg_multiband)
  /\ msg_select_audiocraft <> msg_magnet
  /\ msg_multiband <> msg_magnet.
Proof.
  repeat split; try reflexivity; discriminate.
Qed.

(** C2 (amended): for the "magnet" model type [generate_audio] always
    returns [None] with a fixed message and does nothing but reset the stop
    flag; the message is the "magnet" one exactly when a model is selected
    and multiband refinement is off, the missing-model one when no model is
    selected, and the multiband one otherwise. *)
Theorem C2_magnet_short_circuits :
  forall env prompt input_audio model_name enable_multiband w,
    generate_audio env prompt input_audio model_name "magnet"
      enable_multiband w
    = (Returned
         (None,
          Some (if negb (truthy_str model_name) then msg_select_audiocraft
                else if enable_multiband then msg_multiband
                else msg_magnet)),
       set_stop_signal false w).
Proof.
  intros env prompt input_audio model_name enable_multiband w.
  unfold generate_audio, def, bind, when, modify, return_, ret.
  destruct (truthy_str model_name); simpl; [| reflexivity].
  destruct enable_multiband; reflexivity.
Qed.

(* ===================================================================== *)
(** ** The stop flag at the start of a request *)
(* ===================================================================== *)

(** The six generation dispatchers overwrite the flag first, so their
    behaviour does not depend on its value when the request starts. *)
Lemma generation_dispatchers_reset_stop_signal :
  forall env b w,
    (forall it ia n ty av tts sw la,
        generate_text_and_speech env it ia n ty av tts sw la
          (set_stop_signal b w)
        = generate_text_and_speech env it ia n ty av tts sw la w)
    /\ (forall p n v l ty up f,
        generate_image_txt2img env p n v l ty up f (set_stop_signal b w)
        = generate_image_txt2img env p n v l ty up f w)
    /\ (forall p i n v ty,
        generate_image_img2img env p i n v ty (set_stop_signal b w)
        = generate_image_img2img env p i n v ty w)
    /\ (forall p i m n v ty,
        generate_image_inpaint env p i m n v ty (set_stop_signal b w)
        = generate_image_inpaint env p i m n v ty w)
    /\ (forall i, generate_video env i (set_stop_signal b w)
                  = generate_video env i w)
    /\ (forall p ia n ty mb,
        generate_audio env p ia n ty mb (set_stop_signal b w)
        = generate_audio env p ia n ty mb w).
Proof.
  intros env b w. repeat split; intros; reflexivity.
Qed.

(** C3: [generate_image_extras] does not reset the flag.  Called after
    "Stop generation" was pressed, it is cancelled at once, whatever its
    arguments, and leaves the flag set. *)
Theorem C3_extras_cancelled_by_earlier_stop :
  forall env image_path enable_upscale w,
    generate_image_extras env image_path enable_upscale (stop_all_processes w)
    = (Returned (None, Some "Generation stopped"), stop_all_processes w).
Proof.
  intros env image_path enable_upscale w. reflexivity.
Qed.

(* ===================================================================== *)
(** ** Which model the audio dispatcher loads *)
(* ===================================================================== *)

(** C5: after a first audio generation with "musicgen-stereo-medium", a
    second one that asks for "audiogen-medium" loads the checkpoint of the
    first: the global [audiocraft_model_path] is only resolved while it is
    unset. *)
Theorem C5_second_audio_call_reuses_first_path :
  audiocraft_model_path after_first_audio
    = Some "inputs/audio/audiocraft/musicgen-stereo-medium"
  /\ filter loads_model
       (new_events after_first_audio
          (snd (generate_audio quiet_env "barking" None
                  (Some "audiogen-medium") "audiogen" false
                  after_first_audio)))
     = [E_call (Load H_model "AudioGen.get_pretrained"
                  "inputs/audio/audiocraft/musicgen-stereo-medium")].
Proof.
  split; reflexivity.
Qed.

(* ===================================================================== *)
(** ** Stop observed inside a loader *)
(* ===================================================================== *)

(** C7: with a spoken reply requested, a stop pressed while the language
    model loads is observed by the checkpoint of [load_tts_model], which
    returns the string "Generation stopped" in place of the model; the
    dispatcher calls [.to(device)] on it and the call ends with an
    [AttributeError], not with a "Generation stopped" result. *)
Theorem C7_stop_in_tts_loader_raises :
  fst (generate_text_and_speech stop_during_llm_load (Some "hi") None
         (Some "llm") "transformers" None true (Some "v.wav") (Some "en")
         initial_world)
  = Raised (mkExn AttributeError "'str' object has no attribute 'to'")
  /\ chat_history
       (snd (generate_text_and_speech stop_during_llm_load (Some "hi") None
               (Some "llm") "transformers" None true (Some "v.wav")
               (Some "en") initial_world))
     = [].
Proof.
  split; reflexivity.
Qed.

(* ===================================================================== *)
(** ** The inpaint mask *)
(* ===================================================================== *)

Lemma pixel_binarize_mask :
  forall img x y,
    pixel (binarize_mask img) x y = binarize_pixel (pixel img x y).
Proof.
  intros img x y. unfold pixel, binarize_mask.
  change (@nil Z) with (map binarize_pixel []) at 1.
  rewrite map_nth.
  exact (map_nth binarize_pixel (nth y img []) 0%Z x).
Qed.

Lemma pixel_grayscale :
  forall img x y, grayscale img -> (0 <= pixel img x y <= 255)%Z.
Proof.
  intros img x y Himg. unfold pixel.
  assert (Hrow : Forall (fun v => 0 <= v <= 255)%Z (nth y img [])).
  { destruct (Nat.lt_ge_cases y (List.length img)) as [Hy | Hy].
    - apply (proj1 (Forall_forall _ img) Himg). now apply nth_In.
    - rewrite nth_overflow by exact Hy. constructor. }
  destruct (Nat.lt_ge_cases x (List.length (nth y img []))) as [Hx | Hx].
  - apply (proj1 (Forall_forall _ _) Hrow). now apply nth_In.
  - rewrite nth_overflow by exact Hx. lia.
Qed.

Lemma binarize_value :
  forall v, (0 <= v <= 255)%Z ->
    (binarize_pixel v = 0%Z \/ binarize_pixel v = 255%Z)
    /\ (binarize_pixel v = 255%Z <-> v = 255%Z).
Proof.
  intros v Hv. unfold binarize_pixel, astype_uint8, np_where_lt_255.
  destruct (Z.ltb_spec v 255) as [Hlt | Hge].
  - split; [left; reflexivity |]. split; [discriminate | lia].
  - split; [right; reflexivity |]. split; [lia | reflexivity].
Qed.

(** Whatever the input, a binarized value is 0 or 255. *)
Lemma binarize_pixel_binary :
  forall v, binarize_pixel v = 0%Z \/ binarize_pixel v = 255%Z.
Proof.
  intros v. unfold binarize_pixel, astype_uint8, np_where_lt_255.
  destruct (v <? 255)%Z; [left | right]; reflexivity.
Qed.

Lemma image_size_binarize_mask :
  forall img, image_size (binarize_mask img) = image_size img.
Proof.
  intros img. unfold image_size, binarize_mask.
  rewrite length_map. destruct img as [| r rs]; simpl;
    [reflexivity | now rewrite length_map].
Qed.

(** A pixel of a table of rows built position by position. *)
Lemma pixel_tabulate :
  forall (f : nat -> nat -> Z) w h x y,
    pixel (map (fun y0 => map (fun x0 => f x0 y0) (seq 0 w)) (seq 0 h)) x y
    = if (x <? w)%nat && (y <? h)%nat then f x y else 0%Z.
Proof.
  intros f w h x y.
  set (row := fun y0 : nat => map (fun x0 : nat => f x0 y0) (seq 0 w)).
  unfold pixel.
  destruct (Nat.ltb_spec y h) as [Hy | Hy].
  - rewrite (nth_indep _ [] (row 0%nat))
      by (rewrite length_map, length_seq; exact Hy).
    rewrite map_nth, seq_nth by exact Hy. simpl. unfold row.
    destruct (Nat.ltb_spec x w) as [Hx | Hx].
    + set (g := fun x0 : nat => f x0 y).
      rewrite (nth_indep _ 0%Z (g 0%nat))
        by (rewrite length_map, length_seq; exact Hx).
      rewrite map_nth, seq_nth by exact Hx. reflexivity.
    + rewrite nth_overflow by (rewrite length_map, length_seq; exact Hx).
      reflexivity.
  - rewrite (nth_overflow (map row (seq 0 h)))
      by (rewrite length_map, length_seq; exact Hy).
    rewrite andb_false_r. now destruct x.
Qed.

(** A pixel of the resized image is the input pixel it copies, or 0. *)
Lemma pixel_resize_nearest :
  forall img w h x y,
    (x < w)%nat -> (y < h)%nat ->
    pixel (resize_nearest (w, h) img) x y
    = match source_pixel (image_size img) (w, h) x y with
      | Some (sx, sy) => pixel img sx sy
      | None => 0%Z
      end.
Proof.
  intros img w h x y Hx Hy. unfold resize_nearest.
  destruct (size_eqb (w, h) (image_size img)) eqn:Hsame.
  - unfold source_pixel. now rewrite Hsame.
  - rewrite (pixel_tabulate
               (fun x0 y0 =>
                  match source_pixel (image_size img) (w, h) x0 y0 with
                  | Some (sx, sy) => pixel img sx sy
                  | None => 0%Z
                  end)).
    apply Nat.ltb_lt in Hx, Hy. now rewrite Hx, Hy.
Qed.

(** Every pixel of the resized image is a pixel of the input, or 0. *)
Lemma pixel_resize_nearest_copies :
  forall img size x y,
    pixel (resize_nearest size img) x y = 0%Z
    \/ exists sx sy, pixel (resize_nearest size img) x y = pixel img sx sy.
Proof.
  intros img [w h] x y. unfold resize_nearest.
  destruct (size_eqb (w, h) (image_size img)) eqn:Hsame.
  - right. now exists x, y.
  - rewrite (pixel_tabulate
               (fun x0 y0 =>
                  match source_pixel (image_size img) (w, h) x0 y0 with
                  | Some (sx, sy) => pixel img sx sy
                  | None => 0%Z
                  end)).
    destruct ((x <? w)%nat && (y <? h)%nat); [| now left].
    destruct (source_pixel _ _ x y) as [[sx sy] |]; [| now left].
    right. now exists sx, sy.
Qed.

Lemma size_eqb_refl : forall s, size_eqb s s = true.
Proof. intros [a b]. unfold size_eqb. simpl. now rewrite !Nat.eqb_refl. Qed.

Ltac run_calls :=
  repeat (cbv beta iota zeta;
          cbn [fst snd stop_signal fs trace tick live effect step log
               set_stop_signal set_fs set_live];
          match goal with
          | |- context [match r_raise ?r with _ => _ end] =>
              destruct (r_raise r)
          | |- context [if ?b then _ else _] => destruct b
          end);
  cbv beta iota zeta;
  cbn [fst snd stop_signal fs trace tick live effect step log
       set_stop_signal set_fs set_live].

Ltac find_mask :=
  intros Hin;
  repeat (destruct Hin as [Hin | Hin];
          [first [discriminate Hin
                 | injection Hin as _ _ <-; right; eexists; split; reflexivity]
          |]);
  left; exact Hin.

(** The only mask the block hands to the pipeline is the derived one. *)
Lemma inpaint_body_mask :
  forall env prompt init_image mask_image w h p m,
    In (E_call (InferMasked h p m))
      (trace (snd (inpaint_body env prompt init_image mask_image w))) ->
    In (E_call (InferMasked h p m)) (trace w)
    \/ exists path,
        opened_mask mask_image = Some path
        /\ m = derive_mask (env_pixels env path) (env_size env init_image).
Proof.
  intros env prompt init_image mask_image w h p m.
  unfold inpaint_body, save_artifact, bind, when, get, ret, return_, raise,
    datetime_now, os_makedirs, ext.
  destruct mask_image as [| [c |] | s |]; cbv beta iota zeta;
    run_calls; find_mask.
Qed.

(** When no library call fails, the block does hand the derived mask to
    the pipeline. *)
Lemma inpaint_body_passes_mask :
  forall env prompt init_image mask_image path w,
    opened_mask mask_image = Some path ->
    never_fails env ->
    In (E_call (InferMasked H_stable_diffusion_model prompt
                  (derive_mask (env_pixels env path)
                     (env_size env init_image))))
      (trace (snd (inpaint_body env prompt init_image mask_image w))).
Proof.
  intros env prompt init_image mask_image path w Hpath Hok.
  unfold never_fails in Hok.
  unfold inpaint_body, save_artifact, bind, when, get, ret, return_, raise,
    datetime_now, os_makedirs, ext.
  destruct mask_image as [| [c |] | s |]; try discriminate Hpath;
    injection Hpath as ->;
    repeat (cbv beta iota zeta;
            cbn [fst snd stop_signal fs trace tick live effect step log
                 set_stop_signal set_fs set_live];
            first [ rewrite Hok
                  | match goal with
                    | |- context [if ?b then _ else _] => destruct b
                    end ]);
    cbv beta iota zeta;
    cbn [fst snd stop_signal fs trace tick live effect step log
         set_stop_signal set_fs set_live];
    repeat first [left; reflexivity | right].
Qed.

(** C8: on an 8-bit grayscale mask, binarization yields only 0 and 255,
    with 255 exactly at the pixels whose input value is 255.  The mask
    that reaches the pipeline is that array resampled to the size of the
    initial image by Pillow's nearest-neighbour scaling: it still holds
    only 0 and 255, a pixel of it is 255 exactly when the input pixel it
    copies is 255, and when the two sizes agree it is the binarized array
    itself.  It is the mask, and the only one, that [inpaint_body] hands
    to the pipeline. *)
Theorem C8_mask_is_binary :
  forall mask_image,
    grayscale mask_image ->
    (forall x y,
        (pixel (binarize_mask mask_image) x y = 0%Z
         \/ pixel (binarize_mask mask_image) x y = 255%Z)
        /\ (pixel (binarize_mask mask_image) x y = 255%Z
            <-> pixel mask_image x y = 255%Z))
    /\ (forall size x y,
        pixel (derive_mask mask_image size) x y = 0%Z
        \/ pixel (derive_mask mask_image size) x y = 255%Z)
    /\ (forall w h x y,
        (x < w)%nat -> (y < h)%nat ->
        (pixel (derive_mask mask_image (w, h)) x y = 255%Z
         <-> exists sx sy,
               source_pixel (image_size mask_image) (w, h) x y
               = Some (sx, sy)
               /\ pixel mask_image sx sy = 255%Z))
    /\ derive_mask mask_image (image_size mask_image)
       = binarize_mask mask_image
    /\ (forall env prompt init_image mask path w,
        opened_mask mask = Some path ->
        env_pixels env path = mask_image ->
        never_fails env ->
        In (E_call (InferMasked H_stable_diffusion_model prompt
                      (derive_mask mask_image (env_size env init_image))))
          (trace (snd (inpaint_body env prompt init_image mask w))))
    /\ (forall env prompt init_image mask w h p m,
        In (E_call (InferMasked h p m))
          (trace (snd (inpaint_body env prompt init_image mask w))) ->
        In (E_call (InferMasked h p m)) (trace w)
        \/ exists path,
            opened_mask mask = Some path
            /\ m = derive_mask (env_pixels env path)
                     (env_size env init_image)).
Proof.
  intros mask_image Hgray. repeat apply conj.
  - intros x y. rewrite pixel_binarize_mask.
    apply binarize_value, pixel_grayscale, Hgray.
  - intros size x y. unfold derive_mask.
    destruct (pixel_resize_nearest_copies (binarize_mask mask_image) size x y)
      as [H0 | (sx & sy & Hcopy)].
    + now left.
    + rewrite Hcopy, pixel_binarize_mask. apply binarize_pixel_binary.
  - intros w h x y Hx Hy. unfold derive_mask.
    rewrite pixel_resize_nearest by assumption.
    rewrite image_size_binarize_mask.
    destruct (source_pixel (image_size mask_image) (w, h) x y)
      as [[sx sy] |].
    + rewrite pixel_binarize_mask.
      pose proof (binarize_value _ (pixel_grayscale mask_image sx sy Hgray))
        as [_ Hiff].
      rewrite Hiff. split.
      * intros H. now exists sx, sy.
      * intros (sx' & sy' & Heq & H). now injection Heq as <- <-.
    + split; [discriminate |]. intros (sx & sy & Heq & _). discriminate.
  - unfold derive_mask, resize_nearest.
    now rewrite <- image_size_binarize_mask, size_eqb_refl.
  - intros env prompt init_image mask path w Hpath <- Hok.
    now apply inpaint_body_passes_mask.
  - apply inpaint_body_mask.
Qed.

(** Scaling two columns to seven: the rounded sums keep the fourth output
    column on input column 0. *)
Example pillow_two_columns_to_seven :
  Pillow.source_coords 2 7 = [0; 0; 0; 0; 1; 1; 1]%Z
  /\ resize_nearest (7, 1) [[0; 255]]%Z = [[0; 0; 0; 0; 255; 255; 255]]%Z.
Proof. split; vm_compute; reflexivity. Qed.

(** The example of the specification: the values 0, 128, 254, 255 become
    0, 0, 0, 255. *)
Example binarize_example_mask :
  binarize_mask example_mask = [[0; 0]; [0; 255]]%Z.
Proof. reflexivity. Qed.

Lemma example_mask_grayscale : grayscale example_mask.
Proof.
  unfold grayscale, example_mask. repeat constructor; lia.
Qed.

(** The same mask under a three by three initial image. *)
Example derive_example_mask :
  derive_mask example_mask (3, 3)
  = [[0; 0; 0]; [0; 255; 255]; [0; 255; 255]]%Z.
Proof. vm_compute. reflexivity. Qed.

Lemma C8_mask_is_binary_witness :
  grayscale example_mask
  /\ (pixel (binarize_mask example_mask) 1 1 = 255%Z
      <-> pixel example_mask 1 1 = 255%Z)
  /\ (pixel (binarize_mask example_mask) 0 1 = 255%Z
      <-> pixel example_mask 0 1 = 255%Z)
  /\ (pixel (derive_mask example_mask (3, 3)) 2 2 = 255%Z
      <-> exists sx sy,
            source_pixel (image_size example_mask) (3, 3) 2 2 = Some (sx, sy)
            /\ pixel example_mask sx sy = 255%Z)
  /\ derive_mask example_mask (image_size example_mask)
     = binarize_mask example_mask.
Proof.
  split; [exact example_mask_grayscale |].
  destruct (C8_mask_is_binary example_mask example_mask_grayscale)
    as (Hbin & _ & Hpin & Hsame & _).
  split; [exact (proj2 (Hbin 1%nat 1%nat)) |].
  split; [exact (proj2 (Hbin 0%nat 1%nat)) |].
  split; [| exact Hsame].
  apply Hpin; lia.
Defined.

(* ===================================================================== *)
(** ** Cleanup: [try ... finally] around generation *)
(* ===================================================================== *)

Lemma bound_unbind_same :
  forall h l, existsb (Handle_eqb h) (unbind h l) = false.
Proof.
  intros h l. induction l as [| x l IH]; simpl; [reflexivity |].
  destruct (Handle_eqb h x) eqn:E; simpl; [exact IH |].
  rewrite E. exact IH.
Qed.

Lemma bound_unbind_other :
  forall h h' l,
    existsb (Handle_eqb h) l = false ->
    existsb (Handle_eqb h) (unbind h' l) = false.
Proof.
  intros h h' l. induction l as [| x l IH]; simpl; [reflexivity |].
  intros H. apply orb_false_iff in H as [Hx Hl].
  destruct (Handle_eqb h' x); simpl; [now apply IH |].
  rewrite Hx. now apply IH.
Qed.

(** A [finally] clause that itself neither returns nor raises leaves the
    outcome of the block as it was and runs from where the block ended. *)
Lemma try_finally_runs_cleanup :
  forall R A (body : M R A) (fin : M R unit) w,
    (forall w1, fst (fin w1) = Val tt) ->
    try_finally body fin w = (fst (body w), snd (fin (snd (body w)))).
Proof.
  intros R A body fin w Hfin. unfold try_finally.
  destruct (body w) as [res w1]. simpl.
  specialize (Hfin w1). destruct (fin w1) as [r2 w2]. simpl in *.
  now subst r2.
Qed.

Lemma sd_finally_spec :
  forall w,
    fst (sd_finally w) = Val tt
    /\ released [H_stable_diffusion_model] (snd (sd_finally w)).
Proof.
  intros w. split; [reflexivity |]. split; [reflexivity |].
  intros h [<- | []]. apply bound_unbind_same.
Qed.

Lemma audio_finally_spec :
  forall mbd w,
    fst (audio_finally mbd w) = Val tt
    /\ released (H_model :: handles_of [mbd]) (snd (audio_finally mbd w)).
Proof.
  intros mbd w. unfold audio_finally, released, bound.
  destruct mbd as [| s | h | a b]; simpl;
    try (destruct (s =? ""); simpl);
    (split; [reflexivity |]); (split; [reflexivity |]); simpl;
    intros h' Hin.
  1, 2, 3, 5: destruct Hin as [<- | []]; apply bound_unbind_same.
  destruct Hin as [<- | [<- | []]].
  - apply bound_unbind_other, bound_unbind_same.
  - apply bound_unbind_same.
Qed.

Lemma video_finally_spec :
  forall w,
    fst (video_finally w) = Val tt
    /\ released [H_pipe] (snd (video_finally w)).
Proof.
  intros w. unfold video_finally, bind, try_except, del_local, empty_cache,
    modify, released.
  destruct (bound H_pipe w) eqn:Hb; simpl.
  - split; [reflexivity |]. split; [reflexivity |].
    intros h [<- | []]. unfold bound. simpl. apply bound_unbind_same.
  - split; [reflexivity |]. split; [reflexivity |].
    intros h [<- | []]. unfold bound. simpl. exact Hb.
Qed.

Lemma chat_finally_spec :
  forall tokenizer llm_model w,
    fst (chat_finally tokenizer llm_model w) = Val tt
    /\ released (handles_of [tokenizer; llm_model; tts_model w;
                             whisper_model w])
         (snd (chat_finally tokenizer llm_model w))
    /\ tts_model (snd (chat_finally tokenizer llm_model w)) = PNone
    /\ whisper_model (snd (chat_finally tokenizer llm_model w)) = PNone.
Proof.
  intros tokenizer llm_model w.
  destruct w as [ss ch cd tm wm amp fs0 lv tr tk].
  unfold chat_finally, released, bound.
  destruct tokenizer as [| s1 | h1 | a1 b1];
    destruct llm_model as [| s2 | h2 | a2 b2];
    destruct tm as [| s3 | h3 | a3 b3];
    destruct wm as [| s4 | h4 | a4 b4]; simpl;
    (split; [reflexivity |]);
    (split; [| split; reflexivity]);
    (split; [reflexivity |]);
    intros h Hin; simpl in Hin;
    repeat (destruct Hin as [<- | Hin];
            [ repeat first [ apply bound_unbind_same
                           | apply bound_unbind_other ] | ]);
    destruct Hin.
Qed.

(** C1, as stated, fails on two exit paths of [generate_image_txt2img].
    A request with no model selected returns its message without clearing
    the cache.  A request whose LoRA weights fail to load ends with the
    exception while the pipeline is still bound and the cache was never
    cleared: the [try ... finally] only starts after that step. *)
Lemma C1_exits_without_cleanup :
  (fst (generate_image_txt2img quiet_env "a cat" None None None "SD" false
          "x2" world_with_models)
     = Returned (None, Some "Please, select a StableDiffusion model!")
   /\ existsb clears_cache
        (trace (snd (generate_image_txt2img quiet_env "a cat" None None None
                       "SD" false "x2" world_with_models)))
      = false)
  /\ (fst (generate_image_txt2img lora_fails "a cat" (Some "m") None
             (Some ["style.safetensors"]) "SD" false "x2" world_with_models)
        = Raised (mkExn OSError "lora file not found")
      /\ bound H_stable_diffusion_model
           (snd (generate_image_txt2img lora_fails "a cat" (Some "m") None
                   (Some ["style.safetensors"]) "SD" false "x2"
                   world_with_models))
         = true
      /\ existsb clears_cache
           (trace (snd (generate_image_txt2img lora_fails "a cat" (Some "m")
                          None (Some ["style.safetensors"]) "SD" false "x2"
                          world_with_models)))
         = false).
Proof.
  repeat split; reflexivity.
Qed.

(** C1 (amended): in each of the six dispatchers, every way out of the
    block guarded by [try ... finally] (normal completion, a [return] for a
    stop or a validation failure inside the block, an exception raised
    inside it) runs the cleanup: the way the block ended is kept, the
    model variables named in the [finally] clause are unbound and the
    cache clear is the last effect. *)
Theorem C1_guarded_block_always_cleans_up :
  forall env,
    (forall prompt enable_upscale upscale_factor w,
        fst (try_finally (txt2img_body env prompt enable_upscale
                            upscale_factor) sd_finally w)
        = fst (txt2img_body env prompt enable_upscale upscale_factor w)
        /\ released [H_stable_diffusion_model]
             (snd (try_finally (txt2img_body env prompt enable_upscale
                                  upscale_factor) sd_finally w)))
    /\ (forall prompt init_image w,
        fst (try_finally (img2img_body env prompt init_image) sd_finally w)
        = fst (img2img_body env prompt init_image w)
        /\ released [H_stable_diffusion_model]
             (snd (try_finally (img2img_body env prompt init_image)
                     sd_finally w)))
    /\ (forall prompt init_image mask_image w,
        fst (try_finally (inpaint_body env prompt init_image mask_image)
               sd_finally w)
        = fst (inpaint_body env prompt init_image mask_image w)
        /\ released [H_stable_diffusion_model]
             (snd (try_finally (inpaint_body env prompt init_image mask_image)
                     sd_finally w)))
    /\ (forall init_image w,
        fst (try_finally (video_body env init_image) video_finally w)
        = fst (video_body env init_image w)
        /\ released [H_pipe]
             (snd (try_finally (video_body env init_image) video_finally w)))
    /\ (forall prompt input_audio model_type audio_dir mbd w,
        fst (try_finally (audio_body env prompt input_audio model_type
                            audio_dir mbd) (audio_finally mbd) w)
        = fst (audio_body env prompt input_audio model_type audio_dir mbd w)
        /\ released (H_model :: handles_of [mbd])
             (snd (try_finally (audio_body env prompt input_audio model_type
                                  audio_dir mbd) (audio_finally mbd) w)))
    /\ (forall tokenizer llm_model prompt input_audio llm_model_type
               avatar_name enable_tts speaker_wav language w,
        fst (try_finally
               (chat_body env tokenizer llm_model prompt input_audio
                  llm_model_type avatar_name enable_tts speaker_wav language)
               (chat_finally tokenizer llm_model) w)
        = fst (chat_body env tokenizer llm_model prompt input_audio
                 llm_model_type avatar_name enable_tts speaker_wav language w)
        /\ released (handles_of [tokenizer; llm_model])
             (snd (try_finally
                     (chat_body env tokenizer llm_model prompt input_audio
                        llm_model_type avatar_name enable_tts speaker_wav
                        language)
                     (chat_finally tokenizer llm_model) w))
        /\ tts_model
             (snd (try_finally
                     (chat_body env tokenizer llm_model prompt input_audio
                        llm_model_type avatar_name enable_tts speaker_wav
                        language)
                     (chat_finally tokenizer llm_model) w)) = PNone
        /\ whisper_model
             (snd (try_finally
                     (chat_body env tokenizer llm_model prompt input_audio
                        llm_model_type avatar_name enable_tts speaker_wav
                        language)
                     (chat_finally tokenizer llm_model) w)) = PNone).
Proof.
  intros env. repeat apply conj; intros.
  - rewrite try_finally_runs_cleanup by (intro; apply sd_finally_spec).
    split; [reflexivity | apply sd_finally_spec].
  - rewrite try_finally_runs_cleanup by (intro; apply sd_finally_spec).
    split; [reflexivity | apply sd_finally_spec].
  - rewrite try_finally_runs_cleanup by (intro; apply sd_finally_spec).
    split; [reflexivity | apply sd_finally_spec].
  - rewrite try_finally_runs_cleanup by (intro; apply video_finally_spec).
    split; [reflexivity | apply video_finally_spec].
  - rewrite try_finally_runs_cleanup by (intro; apply audio_finally_spec).
    split; [reflexivity | apply audio_finally_spec].
  - rewrite try_finally_runs_cleanup by (intro; apply chat_finally_spec).
    simpl fst. simpl snd.
    destruct (chat_finally_spec tokenizer llm_model
                (snd (chat_body env tokenizer llm_model prompt input_audio
                        llm_model_type avatar_name enable_tts speaker_wav
                        language w)))
      as (_ & [Hhd Hrel] & Htts & Hwh).
    split; [reflexivity |]. split; [| split; assumption].
    split; [exact Hhd |].
    intros h Hin. apply Hrel.
    destruct tokenizer; destruct llm_model; simpl in *; tauto.
Qed.

(* ===================================================================== *)
(** ** Output paths *)
(* ===================================================================== *)

Lemma append_assoc_s :
  forall a b c : string, (a ++ b) ++ c = a ++ (b ++ c).
Proof.
  induction a as [| ch a IH]; intros b c; simpl; [reflexivity |].
  now rewrite IH.
Qed.

Lemma append_cancel_l :
  forall a b c : string, a ++ b = a ++ c -> b = c.
Proof.
  induction a as [| ch a IH]; intros b c H; simpl in H; [exact H |].
  injection H as H. now apply IH.
Qed.

Lemma append_length_s :
  forall a b : string,
    String.length (a ++ b) = String.length a + String.length b.
Proof.
  induction a as [| ch a IH]; intros b; simpl; [reflexivity |].
  now rewrite IH.
Qed.

(** Two concatenations whose first parts have the same length agree part
    by part. *)
Lemma append_split :
  forall a a' b b' : string,
    String.length a = String.length a' ->
    a ++ b = a' ++ b' -> a = a' /\ b = b'.
Proof.
  induction a as [| ch a IH]; intros [| ch' a'] b b' Hlen H;
    simpl in *; try discriminate.
  - now split.
  - injection H as Hch H. injection Hlen as Hlen.
    destruct (IH a' b b' Hlen H) as [-> ->]. now subst ch'.
Qed.

Lemma append_cancel_r :
  forall a a' b : string, a ++ b = a' ++ b -> a = a'.
Proof.
  intros a a' b H.
  assert (Hlen : String.length a = String.length a').
  { apply (f_equal String.length) in H.
    rewrite !append_length_s in H. lia. }
  now destruct (append_split a a' b b Hlen H).
Qed.

Lemma digit_inj :
  forall a b, (a < 10)%N -> (b < 10)%N -> digit a = digit b -> a = b.
Proof.
  intros a b Ha Hb H. unfold digit in H.
  apply (f_equal N_of_ascii) in H.
  rewrite !N_ascii_embedding in H by lia. lia.
Qed.

Lemma pad2_inj :
  forall a b, (a < 100)%N -> (b < 100)%N -> pad2 a = pad2 b -> a = b.
Proof.
  intros a b Ha Hb H. unfold pad2 in H. injection H as H1 H0.
  apply digit_inj in H1; [| apply N.mod_lt; discriminate ..].
  apply digit_inj in H0; [| apply N.mod_lt; discriminate ..].
  rewrite (N.div_mod a 10), (N.div_mod b 10) by discriminate.
  rewrite !N.mod_small in H1
    by (apply N.Div0.div_lt_upper_bound; lia).
  now rewrite H1, H0.
Qed.

Lemma pad4_inj :
  forall a b, (a < 10000)%N -> (b < 10000)%N -> pad4 a = pad4 b -> a = b.
Proof.
  intros a b Ha Hb H. unfold pad4, pad2 in H.
  injection H as H3 H2 H1 H0.
  apply digit_inj in H3; [| apply N.mod_lt; discriminate ..].
  apply digit_inj in H2; [| apply N.mod_lt; discriminate ..].
  apply digit_inj in H1; [| apply N.mod_lt; discriminate ..].
  apply digit_inj in H0; [| apply N.mod_lt; discriminate ..].
  rewrite !N.mod_small in H3
    by (apply N.Div0.div_lt_upper_bound; lia).
  pose proof (N.div_mod a 10 ltac:(discriminate)) as Ea.
  pose proof (N.div_mod b 10 ltac:(discriminate)) as Eb.
  pose proof (N.div_mod (a / 10) 10 ltac:(discriminate)) as Ea1.
  pose proof (N.div_mod (b / 10) 10 ltac:(discriminate)) as Eb1.
  pose proof (N.div_mod (a / 100) 10 ltac:(discriminate)) as Ea2.
  pose proof (N.div_mod (b / 100) 10 ltac:(discriminate)) as Eb2.
  rewrite !N.Div0.div_div in Ea1, Eb1, Ea2, Eb2.
  change (10 * 10)%N with 100%N in *.
  change (100 * 10)%N with 1000%N in *.
  lia.
Qed.

Lemma length_pad2 : forall n, String.length (pad2 n) = 2.
Proof. reflexivity. Qed.

Lemma length_pad4 : forall n, String.length (pad4 n) = 4.
Proof. reflexivity. Qed.

Lemma length_strftime_Ymd : forall t, String.length (strftime_Ymd t) = 8.
Proof.
  intros t. unfold strftime_Ymd.
  now rewrite !append_length_s, length_pad4, !length_pad2.
Qed.

Lemma length_strftime_Ymd_HMS :
  forall t, String.length (strftime_Ymd_HMS t) = 15.
Proof.
  intros t. unfold strftime_Ymd_HMS.
  now rewrite !append_length_s, length_strftime_Ymd, !length_pad2.
Qed.

Lemma strftime_Ymd_inj :
  forall a b,
    valid_datetime a -> valid_datetime b ->
    strftime_Ymd a = strftime_Ymd b -> same_day a b.
Proof.
  intros a b Ha Hb H. unfold strftime_Ymd in H.
  unfold valid_datetime in Ha, Hb.
  apply append_split in H as [Hy H]; [| reflexivity].
  apply append_split in H as [Hm Hd]; [| reflexivity].
  apply pad4_inj in Hy; [| lia ..].
  apply pad2_inj in Hm; [| lia ..].
  apply pad2_inj in Hd; [| lia ..].
  now repeat split.
Qed.

Lemma strftime_Ymd_HMS_inj :
  forall a b,
    valid_datetime a -> valid_datetime b ->
    strftime_Ymd_HMS a = strftime_Ymd_HMS b -> a = b.
Proof.
  intros a b Ha Hb H. unfold strftime_Ymd_HMS in H.
  apply append_split in H as [Hymd H];
    [| now rewrite !length_strftime_Ymd].
  apply strftime_Ymd_inj in Hymd as (Hy & Hm & Hd); [| assumption ..].
  unfold valid_datetime in Ha, Hb.
  apply append_cancel_l with (a := "_") in H.
  apply append_split in H as [HH H]; [| reflexivity].
  apply append_split in H as [HM HS]; [| reflexivity].
  apply pad2_inj in HH; [| lia ..].
  apply pad2_inj in HM; [| lia ..].
  apply pad2_inj in HS; [| lia ..].
  destruct a, b; simpl in *; congruence.
Qed.

(** The path [save_artifact] writes and returns is [output_path] at its
    two clock readings. *)
Lemma save_artifact_path :
  forall env category subtype ext_ w p w',
    save_artifact env category subtype ext_ w = (Val p, w') ->
    p = output_path category subtype ext_
          (env_now env (tick w)) (env_now env (S (tick w))).
Proof.
  intros env category subtype ext_ w p w' H.
  unfold save_artifact, bind, datetime_now, os_makedirs, ext, ret in H.
  simpl in H.
  destruct (existsb _ (fs w)); simpl in H;
    destruct (r_raise _); simpl in H; try discriminate;
    now injection H as <- _.
Qed.

(** C6, as stated, fails: two successful text-to-image requests served
    within the same second are given the same output path (the second
    file replaces the first). *)
Lemma C6_same_second_same_path :
  fst (generate_image_txt2img quiet_env "a cat" (Some "m") None None "SD"
         false "x2" world_with_models)
    = Returned
        (Some "outputs/StableDiffusion_20240517/txt2img_20240517_120000.png",
         None)
  /\ fst (generate_image_txt2img quiet_env "a dog" (Some "m") None None "SD"
            false "x2" after_first_txt2img)
    = Returned
        (Some "outputs/StableDiffusion_20240517/txt2img_20240517_120000.png",
         None).
Proof.
  split; reflexivity.
Qed.

(** The shape of an output path: equal paths with day stamps of equal
    length have equal day stamps and equal time stamps. *)
Lemma output_path_shape_inj :
  forall category subtype ext_ d1 d2 t1 t2 : string,
    String.length d1 = String.length d2 ->
    path_join [path_join ["outputs"; category ++ "_" ++ d1];
               subtype ++ "_" ++ t1 ++ ext_]
    = path_join [path_join ["outputs"; category ++ "_" ++ d2];
                 subtype ++ "_" ++ t2 ++ ext_] ->
    d1 = d2 /\ t1 = t2.
Proof.
  intros category subtype ext_ d1 d2 t1 t2 Hlen H.
  unfold path_join in H.
  rewrite !append_assoc_s in H.
  apply (append_cancel_l "outputs") in H.
  apply (append_cancel_l "/") in H.
  apply append_cancel_l in H.
  apply (append_cancel_l "_") in H.
  apply append_split in H as [Hd H]; [| exact Hlen].
  apply (append_cancel_l "/") in H.
  apply append_cancel_l in H.
  apply (append_cancel_l "_") in H.
  apply append_cancel_r in H.
  now split.
Qed.

(** C6 (amended): the output path of a modality is determined by the
    calendar day and by the second at which the file name is generated:
    two paths of the same modality are equal exactly when the days agree
    and the file names were generated in the same second.  Calls whose file
    names are generated in different seconds get different paths; there is
    no rule that separates calls within one second. *)
Theorem C6_paths_differ_iff_seconds_differ :
  forall category subtype ext_ today1 now1 today2 now2,
    valid_datetime today1 -> valid_datetime now1 ->
    valid_datetime today2 -> valid_datetime now2 ->
    (output_path category subtype ext_ today1 now1
     = output_path category subtype ext_ today2 now2
     <-> same_day today1 today2 /\ now1 = now2).
Proof.
  intros category subtype ext_ today1 now1 today2 now2 Ht1 Hn1 Ht2 Hn2.
  unfold output_path, output_dir, output_filename.
  split.
  - intros H.
    apply output_path_shape_inj in H as [Hday Hstamp];
      [| now rewrite !length_strftime_Ymd].
    split.
    + now apply strftime_Ymd_inj.
    + now apply strftime_Ymd_HMS_inj.
  - intros [(Hy & Hm & Hd) ->].
    unfold strftime_Ymd. now rewrite Hy, Hm, Hd.
Qed.

Lemma valid_noon : valid_datetime noon.
Proof. unfold valid_datetime, noon; simpl; lia. Qed.

Lemma C6_paths_differ_iff_seconds_differ_witness :
  valid_datetime noon
  /\ (output_path "StableDiffusion" "txt2img" ".png" noon noon
      = output_path "StableDiffusion" "txt2img" ".png" noon noon
      <-> same_day noon noon /\ noon = noon).
Proof.
  split; [exact valid_noon |].
  exact (C6_paths_differ_iff_seconds_differ "StableDiffusion" "txt2img" ".png"
           noon noon noon noon valid_noon valid_noon valid_noon valid_noon).
Defined.

(* ===================================================================== *)
(** ** Requests with no model selected *)
(* ===================================================================== *)

(** C4, as stated, fails for the chat dispatcher: it returns the chat
    history with the message appended (five values, not a pair), and a
    spoken request is transcribed before the model selection is looked at,
    which downloads and loads the speech-to-text model. *)
Lemma C4_chat_transcribes_before_validating :
  fst (generate_text_and_speech quiet_env None (Some "question.wav") None
         "transformers" None false None None initial_world)
    = Returned (Chat5 [(None, Some msg_select_llm)] None None None None)
  /\ filter loads_model
       (trace (snd (generate_text_and_speech quiet_env None
                      (Some "question.wav") None "transformers" None false
                      None None initial_world)))
     = [E_call (Load H_transcriber "whisper.load_model"
                  "inputs/text/whisper-medium/medium.pt")]
  /\ filter writes_file
       (trace (snd (generate_text_and_speech quiet_env None
                      (Some "question.wav") None "transformers" None false
                      None None initial_world)))
     = [E_call (Fetch whisper_url "inputs/text/whisper-medium/medium.pt");
        E_makedirs "inputs/text/whisper-medium"].
Proof.
  repeat split; reflexivity.
Qed.

(** C4 (amended): with no model selected, the txt2img, img2img, inpaint
    and audio dispatchers return [None] with their own message and change
    nothing but the stop flag, so they load no model and write no file; the
    chat dispatcher, given a typed request, appends its message to the chat
    history, returns the history with four [None]s and changes nothing
    else. *)
Theorem C4_missing_model_selection :
  forall env w,
    (forall prompt name vae loras ty upscale factor,
        truthy_str name = false ->
        generate_image_txt2img env prompt name vae loras ty upscale factor w
        = (Returned (None, Some msg_select_sd), set_stop_signal false w))
    /\ (forall prompt init_image name vae ty,
        truthy_str name = false ->
        generate_image_img2img env prompt init_image name vae ty w
        = (Returned (None, Some msg_select_sd), set_stop_signal false w))
    /\ (forall prompt init_image mask name vae ty,
        truthy_str name = false ->
        generate_image_inpaint env prompt init_image mask name vae ty w
        = (Returned (None, Some msg_select_sd), set_stop_signal false w))
    /\ (forall prompt input_audio name ty multiband,
        truthy_str name = false ->
        generate_audio env prompt input_audio name ty multiband w
        = (Returned (None, Some msg_select_audiocraft),
           set_stop_signal false w))
    /\ (forall input_text input_audio name ty avatar tts voice language,
        truthy_str name = false ->
        truthy_str input_text = true ->
        truthy_str input_audio = false ->
        generate_text_and_speech env input_text input_audio name ty avatar
          tts voice language w
        = (Returned
             (Chat5 (chat_history w ++ [(None, Some msg_select_llm)])
                None None None None),
           set_chat_history (chat_history w ++ [(None, Some msg_select_llm)])
             (set_stop_signal false w))).
Proof.
  intros env w. repeat apply conj; intros.
  - unfold generate_image_txt2img, def, bind, when, modify, return_.
    now rewrite H.
  - unfold generate_image_img2img, def, bind, when, modify, return_.
    now rewrite H.
  - unfold generate_image_inpaint, def, bind, when, modify, return_.
    now rewrite H.
  - unfold generate_audio, def, bind, when, modify, return_.
    now rewrite H.
  - unfold generate_text_and_speech, def, bind, when, modify, return_,
      return_history, chat_history_append, get, ret.
    now rewrite H, H0, H1.
Qed.

Lemma C4_missing_model_selection_witness :
  generate_image_txt2img quiet_env "a cat" None None None "SD" false "x2"
    world_with_models
  = (Returned (None, Some msg_select_sd),
     set_stop_signal false world_with_models)
  /\ generate_text_and_speech quiet_env (Some "hi") None None "transformers"
       None false None None initial_world
     = (Returned
          (Chat5 (chat_history initial_world ++ [(None, Some msg_select_llm)])
             None None None None),
        set_chat_history
          (chat_history initial_world ++ [(None, Some msg_select_llm)])
          (set_stop_signal false initial_world)).
Proof.
  split.
  - exact (proj1 (C4_missing_model_selection quiet_env world_with_models)
             "a cat" None None None "SD" false "x2" eq_refl).
  - exact (proj2 (proj2 (proj2 (proj2
             (C4_missing_model_selection quiet_env initial_world))))
             (Some "hi") None None "transformers" None false None None
             eq_refl eq_refl eq_refl).
Defined.

(* ===================================================================== *)
(** ** Rules of the frame logic *)
(* ===================================================================== *)

Section FrameRules.

Variable I : World -> World -> Prop.
Hypothesis HI : frame_ok I.

Section Statements.
Context {R : Type}.
Variable PR : World -> R -> World -> Prop.
Hypothesis HR : ret_ok I PR.

Lemma sat_ret {A} (PV : A -> Prop) a : PV a -> sat I PV PR (ret a).
Proof. intros H w. split; [apply HI | exact H]. Qed.

Lemma sat_return {A} (PV : A -> Prop) r :
  (forall w, PR w r w) -> sat I (A := A) PV PR (return_ r).
Proof. intros H w. apply H. Qed.

Lemma sat_raise {A} (PV : A -> Prop) e : sat I (A := A) PV PR (raise e).
Proof. intros w. apply HI. Qed.

Lemma sat_get {A} (f : World -> A) : sat I any PR (get f).
Proof. intros w. split; [apply HI | exact Logic.I]. Qed.

Lemma sat_modify f : (forall w, I w (f w)) -> sat I any PR (modify f).
Proof. intros H w. split; [apply H | exact Logic.I]. Qed.

Lemma sat_bind {A B} (PV1 : A -> Prop) (PV : B -> Prop)
    (c : M R A) (k : A -> M R B) :
  sat I PV1 PR c -> (forall a, PV1 a -> sat I PV PR (k a)) ->
  sat I PV PR (bind c k).
Proof.
  intros Hc Hk w. unfold bind. specialize (Hc w).
  destruct (c w) as [[a | r | e] w1]; try exact Hc.
  destruct Hc as [Hc Ha]. specialize (Hk a Ha w1).
  destruct (k a w1) as [[b | r | e] w2].
  - destruct Hk as [Hk Hb]. split; [| exact Hb].
    exact (fr_trans I HI _ _ _ Hc Hk).
  - exact (ro_left I PR HR _ _ _ _ Hc Hk).
  - exact (fr_trans I HI _ _ _ Hc Hk).
Qed.

(** The same with the statements grouped the other way round. *)
Lemma sat_bind_assoc {A B C} (PV1 : B -> Prop) (PV : C -> Prop)
    (c : M R A) (k : A -> M R B) (rest : B -> M R C) :
  sat I PV1 PR (bind c k) -> (forall b, PV1 b -> sat I PV PR (rest b)) ->
  sat I PV PR (bind c (fun a => bind (k a) rest)).
Proof.
  intros Hc Hk w. pose proof (sat_bind PV1 PV (bind c k) rest Hc Hk w) as H.
  unfold bind in *. destruct (c w) as [[a | r | e] w1]; exact H.
Qed.

Lemma sat_when b (c : M R unit) : sat I any PR c -> sat I any PR (when b c).
Proof. intros H. destruct b; [exact H | now apply sat_ret]. Qed.

Lemma sat_weaken {A} (PV PV' : A -> Prop) (c : M R A) :
  sat I PV PR c -> (forall a, PV a -> PV' a) -> sat I PV' PR c.
Proof.
  intros H Himp w. specialize (H w).
  destruct (c w) as [[a | r | e] w1]; try exact H.
  destruct H as [H Ha]. split; [exact H | now apply Himp].
Qed.

Lemma sat_try_except {A} (PV : A -> Prop) (body : M R A) catches handler :
  sat I PV PR body -> (forall e, sat I PV PR (handler e)) ->
  sat I PV PR (try_except body catches handler).
Proof.
  intros Hb Hh w. unfold try_except. specialize (Hb w).
  destruct (body w) as [[a | r | e] w1]; try exact Hb.
  destruct (catches e); [| exact Hb].
  specialize (Hh e w1).
  destruct (handler e w1) as [[a | r | e'] w2].
  - destruct Hh as [Hh Ha]. split; [| exact Ha].
    exact (fr_trans I HI _ _ _ Hb Hh).
  - exact (ro_left I PR HR _ _ _ _ Hb Hh).
  - exact (fr_trans I HI _ _ _ Hb Hh).
Qed.

Lemma sat_try_finally {A} (PV : A -> Prop) (body : M R A) fin :
  sat I PV PR body -> runs I fin ->
  sat I PV PR (try_finally body fin).
Proof.
  intros Hb Hf w. unfold try_finally. specialize (Hb w).
  destruct (body w) as [res w1]. destruct (Hf w1) as [Hv Hf1].
  destruct (fin w1) as [[u | r | e] w2]; simpl in *; try discriminate.
  destruct res as [a | r | e].
  - destruct Hb as [Hb Ha]. split; [| exact Ha].
    exact (fr_trans I HI _ _ _ Hb Hf1).
  - exact (ro_right I PR HR _ _ _ _ Hb Hf1).
  - exact (fr_trans I HI _ _ _ Hb Hf1).
Qed.

Lemma sat_for_each {A} (l : list A) (f : A -> M R unit) :
  (forall x, sat I any PR (f x)) -> sat I any PR (for_each l f).
Proof.
  intros H. induction l as [| x l IH]; simpl.
  - now apply sat_ret.
  - apply (sat_bind any any); [apply H | intros _ _; exact IH].
Qed.

Lemma sat_call {R'} (PV : R' -> Prop) (f : Fn R') :
  fn_sat I PV f -> sat I PV PR (call f).
Proof.
  intros H w. unfold call. specialize (H w).
  now destruct (f w) as [[r | e] w1].
Qed.

(** *** Primitive statements *)

Variable env : Env.

Lemma frame_ext_world c w :
  I w (step (log (E_call c)
               (set_stop_signal
                  (stop_signal w || r_stop (env_reply env (tick w) c)) w))).
Proof.
  eapply (fr_trans I HI); [apply (fr_stop I HI) |].
  eapply (fr_trans I HI); [apply (fr_log I HI) | apply (fr_step I HI)].
Qed.

Lemma sat_ext c : sat I any PR (ext env c).
Proof.
  intros w. unfold ext. destruct (r_raise _).
  - apply frame_ext_world.
  - split; [| exact Logic.I].
    eapply (fr_trans I HI); [apply frame_ext_world |].
    destruct c; first [apply (fr_refl I HI) | apply (fr_live I HI)
                      | apply (fr_fs I HI)].
Qed.

Lemma sat_ext_text c : sat I any PR (ext_text env c).
Proof.
  intros w. unfold ext_text. pose proof (sat_ext c w) as H.
  destruct (ext env c w) as [[a | r | e] w1]; exact H.
Qed.

Lemma sat_datetime_now : sat I any PR (datetime_now env).
Proof. intros w. split; [apply (fr_step I HI) | exact Logic.I]. Qed.

Lemma sat_os_path_exists p : sat I any PR (os_path_exists p).
Proof. apply sat_get. Qed.

Lemma sat_os_makedirs p b : sat I any PR (os_makedirs p b).
Proof.
  intros w. unfold os_makedirs.
  destruct (existsb _ _); [destruct b |].
  - split; [apply HI | exact Logic.I].
  - apply HI.
  - split; [| exact Logic.I].
    eapply (fr_trans I HI); [apply (fr_fs I HI) | apply (fr_log I HI)].
Qed.

Lemma sat_empty_cache : sat I any PR empty_cache.
Proof. apply sat_modify. intros w. apply (fr_log I HI). Qed.

Lemma frame_del h w :
  I w (log (E_del h) (set_live (unbind h (live w)) w)).
Proof.
  eapply (fr_trans I HI); [apply (fr_live I HI) | apply (fr_log I HI)].
Qed.

Lemma sat_del v : sat I any PR (del_ v).
Proof.
  destruct v; try (apply sat_ret; exact Logic.I).
  apply sat_modify. intros w. apply frame_del.
Qed.

Lemma sat_del_local h name : sat I any PR (del_local h name).
Proof.
  intros w. unfold del_local. destruct (bound h w).
  - apply (sat_del (PObj h)).
  - apply HI.
Qed.

Lemma sat_out_of_scope hs : sat I any PR (out_of_scope hs).
Proof. apply sat_modify. intros w. apply (fr_live I HI). Qed.

Lemma sat_method v name arg : sat I any PR (method env v name arg).
Proof. destruct v; first [apply sat_ext | apply sat_raise]. Qed.

Lemma sat_call_obj v input : sat I any PR (call_obj env v input).
Proof. destruct v; first [apply sat_ext_text | apply sat_raise]. Qed.

End Statements.

(** A function whose body keeps the frame keeps it. *)
Lemma fn_sat_def {R} (PV : R -> Prop) (body : M R R) :
  sat I PV (fun w r w' => I w w' /\ PV r) body -> fn_sat I PV (def body).
Proof.
  intros H w. unfold def. specialize (H w).
  now destruct (body w) as [[a | r | e] w1].
Qed.

Lemma ret_ok_fn {R} (PV : R -> Prop) :
  ret_ok I (fun w (r : R) w' => I w w' /\ PV r).
Proof.
  split.
  - intros a b c r Hab [Hbc Hr]. split; [| exact Hr].
    exact (fr_trans I HI _ _ _ Hab Hbc).
  - intros a b c r [Hab Hr] Hbc. split; [| exact Hr].
    exact (fr_trans I HI _ _ _ Hab Hbc).
Qed.

Lemma ret_ok_no_return {R} : ret_ok I (@no_return R).
Proof. split; intros a b c r; unfold no_return; tauto. Qed.

End FrameRules.

(** One step of a frame proof: the rule for the statement at the head of
    the goal.  [tacI] proves that a [modify] stays in the frame, [tacR]
    that a [return] meets the return condition. *)
Ltac sat_step HI HR tacI tacR :=
  lazymatch goal with
  | |- sat _ _ _ (let _ := _ in _) => cbv zeta
  | |- sat _ _ _ (if ?b then _ else _) => destruct b
  | |- sat _ _ _ (match ?x with _ => _ end) => destruct x
  | |- sat _ _ _ (bind _ _) =>
      apply sat_bind with (PV1 := any);
      [exact HI | exact HR | | intros ? _]
  | |- sat _ _ _ (when _ _) => apply sat_when; [exact HI |]
  | |- sat _ _ _ (ret _) => apply sat_ret; [exact HI | exact Logic.I]
  | |- sat _ _ _ (return_ _) => apply sat_return; tacR
  | |- sat _ _ _ (raise _) => apply sat_raise; exact HI
  | |- sat _ _ _ (get _) => apply sat_get; exact HI
  | |- sat _ _ _ (modify _) => apply sat_modify; tacI
  | |- sat _ _ _ (try_except _ _ _) =>
      apply sat_try_except; [exact HI | exact HR | | intros ?]
  | |- sat _ _ _ (for_each _ _) =>
      apply sat_for_each; [exact HI | exact HR | intros ?]
  | |- sat _ _ _ (ext _ _) => apply sat_ext; exact HI
  | |- sat _ _ _ (ext_text _ _) => apply sat_ext_text; exact HI
  | |- sat _ _ _ (datetime_now _) => apply sat_datetime_now; exact HI
  | |- sat _ _ _ (os_path_exists _) => apply sat_os_path_exists; exact HI
  | |- sat _ _ _ (os_makedirs _ _) => apply sat_os_makedirs; exact HI
  | |- sat _ _ _ empty_cache => apply sat_empty_cache; exact HI
  | |- sat _ _ _ (del_ _) => apply sat_del; exact HI
  | |- sat _ _ _ (del_local _ _) => apply sat_del_local; exact HI
  | |- sat _ _ _ (out_of_scope _) => apply sat_out_of_scope; exact HI
  | |- sat _ _ _ (method _ _ _ _) => apply sat_method; exact HI
  | |- sat _ _ _ (call_obj _ _ _) => apply sat_call_obj; exact HI
  end.

Section Helpers.

Variable I : World -> World -> Prop.
Hypothesis HI : frame_ok I.
Variable env : Env.

Ltac helper T :=
  apply (fn_sat_def _ (@any T));
  repeat sat_step HI (ret_ok_fn I HI (@any T))
    ltac:(idtac) ltac:(intros; split; [apply (fr_refl I HI) | exact Logic.I]).

Lemma load_model_frame n ty : fn_sat I any (load_model env n ty).
Proof. unfold load_model. helper (PyVal * PyVal * option string)%type. Qed.

Lemma transcribe_audio_frame a : fn_sat I any (transcribe_audio env a).
Proof. unfold transcribe_audio. helper string. Qed.

Lemma load_tts_model_frame : fn_sat I any (load_tts_model env).
Proof. unfold load_tts_model. helper PyVal. Qed.

Lemma load_whisper_model_frame : fn_sat I any (load_whisper_model env).
Proof. unfold load_whisper_model. helper PyVal. Qed.

Lemma load_upscale_model_frame f : fn_sat I any (load_upscale_model env f).
Proof. unfold load_upscale_model. helper PyVal. Qed.

End Helpers.

(** The step tactic, with the loaders as single steps. *)
Ltac sat_step_calls HI HR tacI tacR :=
  lazymatch goal with
  | |- sat _ _ _ (call (load_model _ _ _)) =>
      apply sat_call, load_model_frame; exact HI
  | |- sat _ _ _ (call (transcribe_audio _ _)) =>
      apply sat_call, transcribe_audio_frame; exact HI
  | |- sat _ _ _ (call (load_tts_model _)) =>
      apply sat_call, load_tts_model_frame; exact HI
  | |- sat _ _ _ (call (load_whisper_model _)) =>
      apply sat_call, load_whisper_model_frame; exact HI
  | |- sat _ _ _ (call (load_upscale_model _ _)) =>
      apply sat_call, load_upscale_model_frame; exact HI
  | |- _ => sat_step HI HR tacI tacR
  end.

Section Cleanups.

Variable I : World -> World -> Prop.
Hypothesis HI : frame_ok I.

Lemma runs_of_sat {R} (fin : M R unit) :
  (forall w, fst (fin w) = Val tt) -> sat I any no_return fin -> runs I fin.
Proof.
  intros Hv Hs w. split; [apply Hv |].
  specialize (Hv w). specialize (Hs w).
  destruct (fin w) as [[u | r | e] w1]; simpl in *; try discriminate.
  apply Hs.
Qed.

Ltac cleanup :=
  repeat sat_step HI (ret_ok_no_return I (R := Pair))
    ltac:(idtac) ltac:(idtac).

Lemma sd_finally_runs : runs I sd_finally.
Proof.
  apply runs_of_sat; [intro; apply sd_finally_spec |].
  unfold sd_finally. cleanup.
Qed.

Lemma audio_finally_runs mbd : runs I (audio_finally mbd).
Proof.
  apply runs_of_sat; [intro; apply audio_finally_spec |].
  unfold audio_finally. cleanup.
Qed.

Lemma video_finally_runs : runs I video_finally.
Proof.
  apply runs_of_sat; [intro; apply video_finally_spec |].
  unfold video_finally. cleanup.
Qed.

Lemma chat_finally_runs tokenizer llm_model :
  (forall v w, I w (set_tts_model v w)) ->
  (forall v w, I w (set_whisper_model v w)) ->
  runs I (chat_finally tokenizer llm_model).
Proof.
  intros Htts Hwhisper.
  apply runs_of_sat; [intro; apply chat_finally_spec |].
  unfold chat_finally.
  repeat sat_step HI (ret_ok_no_return I (R := ChatResult))
    ltac:(intros; first [apply Htts | apply Hwhisper])
    ltac:(idtac).
Qed.

End Cleanups.

(* ===================================================================== *)
(** ** The chat history *)
(* ===================================================================== *)

Lemma same_history_frame : frame_ok same_history.
Proof. split; unfold same_history; intros; simpl; congruence. Qed.

Lemma one_more_entry_ret : ret_ok same_history one_more_entry.
Proof.
  split; unfold same_history, one_more_entry.
  - intros a b c r Hab [e Hbc]. exists e. congruence.
  - intros a b c r [e Hab] Hbc. exists e. congruence.
Qed.

(** [chat_history.append([a, b])] followed at once by a [return]. *)
Lemma append_then_return {A} (PV : A -> Prop) a b (k : M ChatResult A) :
  (forall w, exists r, k w = (Ret r, w)) ->
  sat same_history PV one_more_entry
    (bind (chat_history_append a b) (fun _ => k)).
Proof.
  intros Hk w. unfold bind, chat_history_append, modify.
  destruct (Hk (set_chat_history (chat_history w ++ [(a, b)]) w)) as [r Hr].
  rewrite Hr. now exists (a, b).
Qed.

Ltac chat_step :=
  lazymatch goal with
  | |- sat _ _ _ (bind (chat_history_append _ _) _) =>
      apply append_then_return; intros ?; eexists; reflexivity
  | |- sat _ _ _ (try_finally _ (chat_finally _ _)) =>
      apply sat_try_finally;
      [ exact same_history_frame | exact one_more_entry_ret |
      | apply chat_finally_runs;
        [exact same_history_frame | reflexivity | reflexivity] ]
  | |- _ =>
      sat_step_calls same_history_frame one_more_entry_ret
        ltac:(intros; reflexivity) ltac:(idtac)
  end.

Lemma generate_text_history env tokenizer llm_model ty prompt :
  sat same_history any one_more_entry
    (generate_text env tokenizer llm_model ty prompt).
Proof. unfold generate_text. repeat chat_step. Qed.

Lemma chat_body_history env tokenizer llm_model prompt ia ty av tts sw la :
  sat same_history any one_more_entry
    (chat_body env tokenizer llm_model prompt ia ty av tts sw la).
Proof.
  unfold chat_body.
  apply sat_bind with (PV1 := any);
    [exact same_history_frame | exact one_more_entry_ret | | intros ? _].
  { repeat chat_step. }
  apply sat_bind with (PV1 := any);
    [exact same_history_frame | exact one_more_entry_ret | | intros ? _].
  { repeat chat_step. }
  apply sat_bind with (PV1 := any);
    [exact same_history_frame | exact one_more_entry_ret
    | apply generate_text_history | intros text _].
  repeat chat_step.
Qed.

(** At the function boundary: a body that never falls off its end. *)
Lemma def_sat {R} (I : World -> World -> Prop)
    (PR : World -> R -> World -> Prop) (body : M R R) :
  sat I never PR body ->
  forall w,
    match def body w with
    | (Returned r, w') => PR w r w'
    | (Raised _, w') => I w w'
    end.
Proof.
  intros H w. unfold def. specialize (H w).
  destruct (body w) as [[a | r | e] w1]; try exact H.
  now destruct H.
Qed.

(** X5: every call of the chat dispatcher that returns has appended
    exactly one entry to [chat_history] and changed no earlier entry; a
    call that raises leaves the history as it was. *)
Theorem chat_history_grows_by_one :
  forall env input_text input_audio llm_model_name llm_model_type
         avatar_name enable_tts speaker_wav language w,
    match generate_text_and_speech env input_text input_audio llm_model_name
            llm_model_type avatar_name enable_tts speaker_wav language w with
    | (Returned _, w') =>
        exists entry, chat_history w' = (chat_history w ++ [entry])%list
    | (Raised _, w') => chat_history w' = chat_history w
    end.
Proof.
  intros. unfold generate_text_and_speech.
  apply (def_sat same_history one_more_entry).
  repeat first [ apply chat_body_history | chat_step ].
Qed.

(* ===================================================================== *)
(** ** The shape of a dispatcher's result *)
(* ===================================================================== *)

Lemma any_change_frame : frame_ok any_change.
Proof. split; intros; exact Logic.I. Qed.

Lemma well_formed_result_ret : ret_ok any_change well_formed_result.
Proof. split; intros a b c r; unfold well_formed_result; tauto. Qed.

Lemma fn_any_change {R} (f : Fn R) : fn_sat any_change any f.
Proof.
  intros w. destruct (f w) as [[r | e] w1]; repeat split.
Qed.

Ltac shape_step :=
  lazymatch goal with
  | |- sat _ _ _ (call _) => apply sat_call, fn_any_change
  | |- sat _ _ _ (bind (try_finally _ _) _) =>
      apply sat_bind with (PV1 := never);
      [ exact any_change_frame | exact well_formed_result_ret
      | apply sat_try_finally;
        [ exact any_change_frame | exact well_formed_result_ret |
        | first [ apply sd_finally_runs | apply audio_finally_runs
                | apply video_finally_runs ]; exact any_change_frame ]
      | intros ? [] ]
  | |- _ =>
      sat_step any_change_frame well_formed_result_ret
        ltac:(intros; exact Logic.I) ltac:(intros; exact Logic.I)
  end.

(** X6: whenever one of the six dispatchers that answer with a
    [(path, message)] pair returns, exactly one of the two is [None]: an
    artifact path with no message, or a message with no path. *)
Theorem dispatchers_return_path_xor_message :
  forall env w,
    (forall p n v l ty up f,
        match generate_image_txt2img env p n v l ty up f w with
        | (Returned r, _) => path_xor_message r
        | (Raised _, _) => True
        end)
    /\ (forall p i n v ty,
        match generate_image_img2img env p i n v ty w with
        | (Returned r, _) => path_xor_message r
        | (Raised _, _) => True
        end)
    /\ (forall p i m n v ty,
        match generate_image_inpaint env p i m n v ty w with
        | (Returned r, _) => path_xor_message r
        | (Raised _, _) => True
        end)
    /\ (forall i,
        match generate_video env i w with
        | (Returned r, _) => path_xor_message r
        | (Raised _, _) => True
        end)
    /\ (forall i up,
        match generate_image_extras env i up w with
        | (Returned r, _) => path_xor_message r
        | (Raised _, _) => True
        end)
    /\ (forall p ia n ty mb,
        match generate_audio env p ia n ty mb w with
        | (Returned r, _) => path_xor_message r
        | (Raised _, _) => True
        end).
Proof.
  intros env w. repeat apply conj; intros.
  - unfold generate_image_txt2img.
    apply (def_sat any_change well_formed_result).
    unfold load_pipeline, place_on_device, txt2img_body, save_artifact.
    repeat shape_step.
  - unfold generate_image_img2img.
    apply (def_sat any_change well_formed_result).
    unfold load_pipeline, place_on_device, img2img_body, save_artifact.
    repeat shape_step.
  - unfold generate_image_inpaint.
    apply (def_sat any_change well_formed_result).
    unfold load_pipeline, place_on_device, inpaint_body, save_artifact.
    repeat shape_step.
  - unfold generate_video.
    apply (def_sat any_change well_formed_result).
    unfold video_body, save_artifact.
    repeat shape_step.
  - unfold generate_image_extras.
    apply (def_sat any_change well_formed_result).
    unfold save_artifact.
    repeat shape_step.
  - unfold generate_audio.
    apply (def_sat any_change well_formed_result).
    unfold load_audio_model, audio_body.
    repeat shape_step.
Qed.

(* ===================================================================== *)
(** ** What each dispatcher leaves alone *)
(* ===================================================================== *)

Section DispatcherFrames.

Variable I : World -> World -> Prop.
Hypothesis HI : frame_ok I.
Variable env : Env.

Ltac frame_step :=
  lazymatch goal with
  | |- sat _ _ _ (try_finally _ _) =>
      apply sat_try_finally;
      [ exact HI | exact (ret_ok_fn I HI (@any Pair)) |
      | first [ apply sd_finally_runs | apply audio_finally_runs
              | apply video_finally_runs ]; exact HI ]
  | |- _ =>
      sat_step_calls HI (ret_ok_fn I HI (@any Pair))
        ltac:(intros; apply (fr_stop I HI))
        ltac:(intros; split; [apply (fr_refl I HI) | exact Logic.I])
  end.

(** The image, video and extras dispatchers only do the bookkeeping every
    frame tolerates. *)
Lemma txt2img_frame p n v l ty up f :
  fn_sat I any (generate_image_txt2img env p n v l ty up f).
Proof.
  apply fn_sat_def.
  unfold load_pipeline, place_on_device, txt2img_body, save_artifact.
  repeat frame_step.
Qed.

Lemma img2img_frame p i n v ty :
  fn_sat I any (generate_image_img2img env p i n v ty).
Proof.
  apply fn_sat_def.
  unfold load_pipeline, place_on_device, img2img_body, save_artifact.
  repeat frame_step.
Qed.

Lemma inpaint_frame p i m n v ty :
  fn_sat I any (generate_image_inpaint env p i m n v ty).
Proof.
  apply fn_sat_def.
  unfold load_pipeline, place_on_device, inpaint_body, save_artifact.
  repeat frame_step.
Qed.

Lemma video_frame i : fn_sat I any (generate_video env i).
Proof.
  apply fn_sat_def.
  unfold video_body, save_artifact.
  repeat frame_step.
Qed.

Lemma extras_frame i up : fn_sat I any (generate_image_extras env i up).
Proof.
  apply fn_sat_def.
  unfold save_artifact.
  repeat frame_step.
Qed.

End DispatcherFrames.

Lemma fn_sat_snd {R} I (PV : R -> Prop) (f : Fn R) :
  fn_sat I PV f -> forall w, I w (snd (f w)).
Proof.
  intros H w. specialize (H w).
  destruct (f w) as [[r | e] w1]; simpl; [apply H | exact H].
Qed.

(** A statement run only while a global is unset, for a frame that says
    nothing in that case. *)
Lemma sat_guarded {R A} (I J : World -> World -> Prop)
    (PR : World -> R -> World -> Prop) (f : World -> A) (g : A -> bool)
    (X : M R unit) :
  frame_ok I ->
  (forall w w', g (f w) = true -> J w w' -> I w w') ->
  sat J any no_return X ->
  sat I any PR (bind (get f) (fun a => when (g a) X)).
Proof.
  intros HI Hvac HX w. unfold bind, get, when.
  destruct (g (f w)) eqn:E.
  - specialize (HX w). destruct (X w) as [[u | r | e] w1].
    + split; [| exact Logic.I]. apply (Hvac _ _ E), HX.
    + destruct HX.
    + now apply (Hvac _ _ E).
  - split; [apply (fr_refl I HI) | exact Logic.I].
Qed.

Lemma untouched_globals_frame : frame_ok untouched_globals.
Proof.
  split; unfold untouched_globals, same_session; intros; simpl;
    intuition congruence.
Qed.

Lemma same_session_frame : frame_ok same_session.
Proof.
  split; unfold same_session; intros; simpl; intuition congruence.
Qed.

Lemma audiocraft_path_kept_trans :
  forall a b c,
    audiocraft_path_kept a b -> audiocraft_path_kept b c ->
    audiocraft_path_kept a c.
Proof.
  unfold audiocraft_path_kept. intros a b c Hab Hbc Ha.
  specialize (Hab Ha). rewrite <- Hab. apply Hbc. now rewrite Hab.
Qed.

Lemma chat_dir_kept_trans :
  forall a b c, chat_dir_kept a b -> chat_dir_kept b c -> chat_dir_kept a c.
Proof.
  unfold chat_dir_kept. intros a b c Hab Hbc Ha.
  specialize (Hab Ha). rewrite <- Hab. apply Hbc. now rewrite Hab.
Qed.

Lemma audio_frame_ok : frame_ok audio_frame.
Proof.
  split; unfold audio_frame.
  - intros w. split; [apply same_session_frame | now intros _].
  - intros a b c [H1 H2] [H3 H4]. split.
    + exact (fr_trans _ same_session_frame _ _ _ H1 H3).
    + exact (audiocraft_path_kept_trans _ _ _ H2 H4).
  - intros b w. split; [apply same_session_frame | now intros _].
  - intros e w. split; [apply same_session_frame | now intros _].
  - intros w. split; [apply same_session_frame | now intros _].
  - intros l w. split; [apply same_session_frame | now intros _].
  - intros p w. split; [apply same_session_frame | now intros _].
Qed.

Lemma audiocraft_path_same_frame : frame_ok audiocraft_path_same.
Proof.
  split; unfold audiocraft_path_same; intros; simpl; congruence.
Qed.

Lemma chat_frame_ok : frame_ok chat_frame.
Proof.
  split; unfold chat_frame.
  - intros w. split; [reflexivity | now intros _].
  - intros a b c [H1 H2] [H3 H4]. split; [congruence |].
    exact (chat_dir_kept_trans _ _ _ H2 H4).
  - intros b w. split; [reflexivity | now intros _].
  - intros e w. split; [reflexivity | now intros _].
  - intros w. split; [reflexivity | now intros _].
  - intros l w. split; [reflexivity | now intros _].
  - intros p w. split; [reflexivity | now intros _].
Qed.

Lemma load_audiocraft_model_session env name :
  fn_sat same_session any (load_audiocraft_model env name).
Proof.
  unfold load_audiocraft_model. apply fn_sat_def.
  repeat sat_step same_session_frame
    (ret_ok_fn same_session same_session_frame (@any string))
    ltac:(intros; repeat split)
    ltac:(intros; repeat split).
Qed.

(** The audio dispatcher leaves the chat session alone and never changes
    a model path that is already resolved. *)
Lemma generate_audio_frame env p ia n ty mb :
  fn_sat audio_frame any (generate_audio env p ia n ty mb).
Proof.
  unfold generate_audio. apply fn_sat_def.
  unfold load_audio_model, audio_body.
  repeat
    lazymatch goal with
    | |- sat _ _ _ (bind (get audiocraft_model_path) (fun _ => bind (when _ _) _)) =>
        apply sat_bind_assoc with (PV1 := any);
        [ exact audio_frame_ok
        | exact (ret_ok_fn audio_frame audio_frame_ok (@any Pair))
        | apply sat_guarded with (J := same_session);
          [ exact audio_frame_ok
          | intros w0 w1 Hg HJ; split; [exact HJ |];
            unfold audiocraft_path_kept; intros Ht; rewrite Ht in Hg;
            discriminate
          | repeat
              lazymatch goal with
              | |- sat _ _ _ (call (load_audiocraft_model _ _)) =>
                  apply sat_call, load_audiocraft_model_session
              | |- _ =>
                  sat_step same_session_frame
                    (ret_ok_no_return same_session (R := Pair))
                    ltac:(intros; repeat split) ltac:(idtac)
              end ]
        | intros ? _ ]
    | |- sat _ _ _ (try_finally _ _) =>
        apply sat_try_finally;
        [ exact audio_frame_ok
        | exact (ret_ok_fn audio_frame audio_frame_ok (@any Pair)) |
        | apply audio_finally_runs; exact audio_frame_ok ]
    | |- _ =>
        sat_step audio_frame_ok
          (ret_ok_fn audio_frame audio_frame_ok (@any Pair))
          ltac:(intros; apply (fr_stop _ audio_frame_ok))
          ltac:(intros; split;
                [apply (fr_refl _ audio_frame_ok) | exact Logic.I])
    end.
Qed.

Ltac chat_frame_step env :=
  lazymatch goal with
  | |- sat _ _ _ (chat_history_append _ _) => unfold chat_history_append
  | |- sat _ _ _ return_history => unfold return_history
  | |- sat _ _ _ (bind (get chat_dir) (fun _ => bind (when _ _) _)) =>
      apply sat_bind_assoc with (PV1 := any);
      [ exact chat_frame_ok
      | exact (ret_ok_fn chat_frame chat_frame_ok (@any ChatResult))
      | apply sat_guarded with (J := audiocraft_path_same);
        [ exact chat_frame_ok
        | intros w0 w1 Hg HJ; split; [exact HJ |];
          unfold chat_dir_kept; intros Ht; simpl in Hg; rewrite Ht in Hg;
          discriminate
        | repeat
            sat_step audiocraft_path_same_frame
              (ret_ok_no_return audiocraft_path_same (R := ChatResult))
              ltac:(intros; reflexivity) ltac:(idtac) ]
      | intros ? _ ]
  | |- sat _ _ _ (try_finally _ (chat_finally _ _)) =>
      apply sat_try_finally;
      [ exact chat_frame_ok
      | exact (ret_ok_fn chat_frame chat_frame_ok (@any ChatResult)) |
      | apply chat_finally_runs;
        [ exact chat_frame_ok
        | intros; split; [reflexivity | now intros _]
        | intros; split; [reflexivity | now intros _] ] ]
  | |- _ =>
      sat_step_calls chat_frame_ok
        (ret_ok_fn chat_frame chat_frame_ok (@any ChatResult))
        ltac:(intros; split; [reflexivity | now intros _])
        ltac:(intros; split;
              [apply (fr_refl _ chat_frame_ok) | exact Logic.I])
  end.

(** The chat dispatcher never changes the AudioCraft model path, and never
    changes the directory of a session that is already open. *)
Lemma generate_text_and_speech_frame env it ia n ty av tts sw la :
  fn_sat chat_frame any
    (generate_text_and_speech env it ia n ty av tts sw la).
Proof.
  unfold generate_text_and_speech. apply fn_sat_def.
  unfold return_history, chat_history_append, chat_body, generate_text.
  repeat chat_frame_step env.
Qed.

(** X7: the image, video and extras dispatchers never touch the globals
    that outlive a request: the chat history, the chat directory, the TTS
    and Whisper globals and the AudioCraft model path are the same after
    the call, whether it returned or raised. *)
Theorem image_dispatchers_leave_globals :
  forall env w,
    (forall p n v l ty up f,
        untouched_globals w
          (snd (generate_image_txt2img env p n v l ty up f w)))
    /\ (forall p i n v ty,
        untouched_globals w (snd (generate_image_img2img env p i n v ty w)))
    /\ (forall p i m n v ty,
        untouched_globals w
          (snd (generate_image_inpaint env p i m n v ty w)))
    /\ (forall i, untouched_globals w (snd (generate_video env i w)))
    /\ (forall i up,
        untouched_globals w (snd (generate_image_extras env i up w))).
Proof.
  intros env w. repeat apply conj; intros;
    apply (fn_sat_snd untouched_globals any);
    first [ apply txt2img_frame | apply img2img_frame | apply inpaint_frame
          | apply video_frame | apply extras_frame ];
    exact untouched_globals_frame.
Qed.

(** X8: once [audiocraft_model_path] holds a path, no call of
    [generate_audio] changes it, whatever model name the call is given and
    however it ends; the call leaves the chat session alone as well. *)
Theorem resolved_audiocraft_path_is_kept :
  forall env prompt input_audio model_name model_type enable_multiband w,
    truthy_str (audiocraft_model_path w) = true ->
    audiocraft_model_path
      (snd (generate_audio env prompt input_audio model_name model_type
              enable_multiband w))
    = audiocraft_model_path w
    /\ same_session w
         (snd (generate_audio env prompt input_audio model_name model_type
                 enable_multiband w)).
Proof.
  intros env prompt input_audio model_name model_type enable_multiband w Hset.
  destruct (fn_sat_snd audio_frame any _
              (generate_audio_frame env prompt input_audio model_name
                 model_type enable_multiband) w) as [Hsession Hkept].
  split; [exact (Hkept Hset) | exact Hsession].
Qed.

Lemma resolved_audiocraft_path_is_kept_witness :
  truthy_str (audiocraft_model_path after_first_audio) = true
  /\ audiocraft_model_path
       (snd (generate_audio quiet_env "barking" None (Some "audiogen-medium")
               "audiogen" false after_first_audio))
     = audiocraft_model_path after_first_audio.
Proof.
  split; [reflexivity |].
  exact (proj1 (resolved_audiocraft_path_is_kept quiet_env "barking" None
                  (Some "audiogen-medium") "audiogen" false after_first_audio
                  eq_refl)).
Defined.

(** X9: once a chat session has its directory, no call of the chat
    dispatcher changes it, however the call ends; and the chat dispatcher
    never changes the AudioCraft model path. *)
Theorem open_chat_session_keeps_directory :
  forall env input_text input_audio llm_model_name llm_model_type
         avatar_name enable_tts speaker_wav language w,
    truthy_str (chat_dir w) = true ->
    chat_dir
      (snd (generate_text_and_speech env input_text input_audio
              llm_model_name llm_model_type avatar_name enable_tts
              speaker_wav language w))
    = chat_dir w
    /\ audiocraft_model_path
         (snd (generate_text_and_speech env input_text input_audio
                 llm_model_name llm_model_type avatar_name enable_tts
                 speaker_wav language w))
       = audiocraft_model_path w.
Proof.
  intros env input_text input_audio llm_model_name llm_model_type
    avatar_name enable_tts speaker_wav language w Hopen.
  destruct (fn_sat_snd chat_frame any _
              (generate_text_and_speech_frame env input_text input_audio
                 llm_model_name llm_model_type avatar_name enable_tts
                 speaker_wav language) w) as [Hpath Hkept].
  split; [exact (Hkept Hopen) | exact Hpath].
Qed.

Lemma open_chat_session_keeps_directory_witness :
  truthy_str (chat_dir after_first_chat) = true
  /\ chat_dir
       (snd (generate_text_and_speech quiet_env (Some "and then?") None
               (Some "llm") "transformers" None false None None
               after_first_chat))
     = chat_dir after_first_chat.
Proof.
  split; [reflexivity |].
  exact (proj1 (open_chat_session_keeps_directory quiet_env
                  (Some "and then?") None (Some "llm") "transformers" None
                  false None None after_first_chat eq_refl)).
Defined.

(* ===================================================================== *)
(** ** The upscaler *)
(* ===================================================================== *)

(** [load_upscale_model] never returns a falsy value: it returns the
    upscaler or, when stopped, a non-empty tuple. *)
Lemma load_upscale_model_truthy env f :
  fn_sat any_change is_truthy (load_upscale_model env f).
Proof.
  unfold load_upscale_model. apply fn_sat_def.
  repeat sat_step any_change_frame
    (ret_ok_fn any_change any_change_frame is_truthy)
    ltac:(intros; exact Logic.I)
    ltac:(intros; split; [exact Logic.I | reflexivity]).
Qed.

Lemma not_upscale_failure_ret : ret_ok any_change not_upscale_failure.
Proof. split; intros a b c r; unfold not_upscale_failure; tauto. Qed.

(** X10: [generate_image_extras] never answers "Failed to load upscale
    model": [load_upscale_model] returns the upscaler or, when stopped, a
    non-empty tuple, so the [else] branch of [if upscaler:] cannot run. *)
Theorem extras_never_reports_upscaler_failure :
  forall env image_path enable_upscale w,
    match generate_image_extras env image_path enable_upscale w with
    | (Returned r, _) => message_differs msg_upscale_failed r
    | (Raised _, _) => True
    end.
Proof.
  intros env image_path enable_upscale w. unfold generate_image_extras.
  apply (def_sat any_change not_upscale_failure).
  unfold save_artifact.
  repeat
    lazymatch goal with
    | |- sat _ _ _ (bind (call (load_upscale_model _ _)) _) =>
        apply sat_bind with (PV1 := is_truthy);
        [ exact any_change_frame | exact not_upscale_failure_ret
        | apply sat_call, load_upscale_model_truthy
        | intros upscaler Hup; unfold is_truthy in Hup; rewrite Hup ]
    | |- _ =>
        sat_step any_change_frame not_upscale_failure_ret
          ltac:(intros; exact Logic.I)
          ltac:(intros; cbv [not_upscale_failure message_differs snd];
                first [exact Logic.I | discriminate])
    end.
Qed.

(* ===================================================================== *)
(** ** The language-model loader *)
(* ===================================================================== *)

(** X11: whatever [load_model] returns has one of three shapes: no
    tokenizer and no model (with or without a message), tokenizer and model
    with no message (only for the "transformers" type), or a model alone
    with no message (only for the "llama" type).  A message never comes
    with a handle. *)
Theorem load_model_returns_error_or_model :
  forall env model_name model_type w,
    match load_model env model_name model_type w with
    | (Returned r, _) => load_model_result model_type r
    | (Raised _, _) => True
    end.
Proof.
  intros env model_name model_type w.
  assert (H : fn_sat any_change (load_model_result model_type)
                (load_model env model_name model_type)).
  { unfold load_model. apply fn_sat_def.
    repeat
      lazymatch goal with
      | |- sat _ _ _ (if ?x =? ?y then _ else _) =>
          destruct (String.eqb_spec x y)
      | |- _ =>
          sat_step any_change_frame
            (ret_ok_fn any_change any_change_frame
               (load_model_result model_type))
            ltac:(intros; exact Logic.I)
            ltac:(intros; split; [exact Logic.I | simpl; auto])
      end. }
  specialize (H w).
  destruct (load_model env model_name model_type w) as [[r | e] w1];
    [apply H | exact Logic.I].
Qed.

(* ===================================================================== *)
(** ** A returned path names a written file *)
(* ===================================================================== *)

Lemma keeps_log_frame : frame_ok keeps_log.
Proof.
  split; unfold keeps_log.
  - intros w. split; [now exists [] | apply incl_refl].
  - intros a b c [[n1 H1] F1] [[n2 H2] F2]. split.
    + exists (n2 ++ n1)%list. now rewrite H2, H1, app_assoc.
    + eapply incl_tran; eassumption.
  - intros b w. split; [now exists [] | apply incl_refl].
  - intros e w. split; [now exists [e] | apply incl_refl].
  - intros w. split; [now exists [] | apply incl_refl].
  - intros l w. split; [now exists [] | apply incl_refl].
  - intros p w. split; [now exists [] | apply incl_tl, incl_refl].
Qed.

Lemma returned_path_written_ret : ret_ok keeps_log returned_path_written.
Proof.
  split; unfold keeps_log, returned_path_written; intros a b c r.
  - intros [[n1 H1] _] H. destruct (fst r) as [p |]; [| exact Logic.I].
    destruct H as (n2 & H2 & Hin & Hfs).
    exists (n2 ++ n1)%list. rewrite H2, H1, app_assoc.
    repeat split; [apply in_or_app; now left | exact Hfs].
  - intros H [[n2 H2] F2]. destruct (fst r) as [p |]; [| exact Logic.I].
    destruct H as (n1 & H1 & Hin & Hfs).
    exists (n2 ++ n1)%list. rewrite H2, H1, app_assoc.
    repeat split; [apply in_or_app; now right | now apply F2].
Qed.

(** Writing a file and returning its path at once. *)
Lemma write_then_return {A} (PV : A -> Prop) env p :
  sat keeps_log PV returned_path_written
    (bind (ext env (FileWrite p)) (fun _ => return_ (Some p, None))).
Proof.
  intros w. unfold bind, ext, return_. destruct (r_raise _); simpl.
  - split; [now eexists [_] | apply incl_refl].
  - exists [E_call (FileWrite p)]. repeat split; now left.
Qed.

Lemma save_then_return {A} (PV : A -> Prop) env category subtype ext_ :
  sat keeps_log PV returned_path_written
    (bind (save_artifact env category subtype ext_)
       (fun p => return_ (Some p, None))).
Proof.
  intros w. unfold save_artifact, bind, datetime_now, os_makedirs, ext,
    return_, ret, returned_path_written, keeps_log.
  simpl.
  destruct (existsb _ (fs w)); simpl; destruct (r_raise _); simpl.
  - split; [now eexists [_] | apply incl_refl].
  - eexists [_]. repeat split; now left.
  - split; [now eexists [_; _] | apply incl_tl, incl_refl].
  - eexists [_; _]. repeat split; now left.
Qed.

Ltac written_step :=
  lazymatch goal with
  | |- sat _ _ _ (call (load_audiocraft_model _ _)) =>
      apply sat_call, fn_sat_def; unfold load_audiocraft_model;
      repeat sat_step keeps_log_frame
        (ret_ok_fn keeps_log keeps_log_frame (@any string))
        ltac:(intros; split; [now exists [] | apply incl_refl])
        ltac:(intros; split;
              [split; [now exists [] | apply incl_refl] | exact Logic.I])
  | |- sat _ _ _ (bind (save_artifact _ _ _ _) _) => apply save_then_return
  | |- sat _ _ _ (bind (ext _ (FileWrite _)) (fun _ => return_ _)) =>
      apply write_then_return
  | |- sat _ _ _ (bind (try_finally _ _) _) =>
      apply sat_bind with (PV1 := never);
      [ exact keeps_log_frame | exact returned_path_written_ret
      | apply sat_try_finally;
        [ exact keeps_log_frame | exact returned_path_written_ret |
        | first [ apply sd_finally_runs | apply audio_finally_runs
                | apply video_finally_runs ]; exact keeps_log_frame ]
      | intros ? [] ]
  | |- _ =>
      sat_step_calls keeps_log_frame returned_path_written_ret
        ltac:(intros; split; [now exists [] | apply incl_refl])
        ltac:(intros; exact Logic.I)
  end.

(** At the function boundary, looking at returned values only. *)
Lemma def_returns {R} (I : World -> World -> Prop)
    (PR : World -> R -> World -> Prop) (body : M R R) :
  sat I never PR body ->
  forall w,
    match def body w with
    | (Returned r, w') => PR w r w'
    | (Raised _, _) => True
    end.
Proof.
  intros H w. pose proof (def_sat I PR body H w) as Hd.
  destruct (def body w) as [[r | e] w1]; [exact Hd | exact Logic.I].
Qed.

(** X12: the path a dispatcher returns is the path it wrote.  During the
    call a [FileWrite] of that very path was made, and the file is there
    afterwards. *)
Theorem returned_artifact_was_written :
  forall env w,
    (forall p n v l ty up f,
        match generate_image_txt2img env p n v l ty up f w with
        | (Returned r, w') => returned_path_written w r w'
        | (Raised _, _) => True
        end)
    /\ (forall p i n v ty,
        match generate_image_img2img env p i n v ty w with
        | (Returned r, w') => returned_path_written w r w'
        | (Raised _, _) => True
        end)
    /\ (forall p i m n v ty,
        match generate_image_inpaint env p i m n v ty w with
        | (Returned r, w') => returned_path_written w r w'
        | (Raised _, _) => True
        end)
    /\ (forall i,
        match generate_video env i w with
        | (Returned r, w') => returned_path_written w r w'
        | (Raised _, _) => True
        end)
    /\ (forall i up,
        match generate_image_extras env i up w with
        | (Returned r, w') => returned_path_written w r w'
        | (Raised _, _) => True
        end)
    /\ (forall p ia n ty mb,
        match generate_audio env p ia n ty mb w with
        | (Returned r, w') => returned_path_written w r w'
        | (Raised _, _) => True
        end).
Proof.
  intros env w. repeat apply conj; intros.
  - unfold generate_image_txt2img.
    apply (def_returns keeps_log returned_path_written).
    unfold load_pipeline, place_on_device, txt2img_body.
    repeat written_step.
  - unfold generate_image_img2img.
    apply (def_returns keeps_log returned_path_written).
    unfold load_pipeline, place_on_device, img2img_body.
    repeat written_step.
  - unfold generate_image_inpaint.
    apply (def_returns keeps_log returned_path_written).
    unfold load_pipeline, place_on_device, inpaint_body.
    repeat written_step.
  - unfold generate_video.
    apply (def_returns keeps_log returned_path_written).
    unfold video_body.
    repeat written_step.
  - unfold generate_image_extras.
    apply (def_returns keeps_log returned_path_written).
    repeat written_step.
  - unfold generate_audio.
    apply (def_returns keeps_log returned_path_written).
    unfold load_audio_model, audio_body.
    repeat written_step.
Qed.

(* ===================================================================== *)
(** ** Exceptions inside the image-to-image block *)
(* ===================================================================== *)

Lemma img2img_body_unfold env prompt init_image :
  img2img_body env prompt init_image
  = try_except (img2img_try env prompt init_image) (fun _ => true)
      (fun e => return_ (None, Some (exn_str e))).
Proof. reflexivity. Qed.

Lemma img2img_try_never_falls_through env prompt init_image :
  sat any_change never well_formed_result
    (img2img_try env prompt init_image).
Proof.
  unfold img2img_try, save_artifact.
  repeat sat_step any_change_frame well_formed_result_ret
    ltac:(intros; exact Logic.I) ltac:(intros; exact Logic.I).
Qed.

(** X13: no exception leaves the guarded block of
    [generate_image_img2img].  An exception [e] raised by any statement
    under its [try:] (opening the image, preprocessing, inference, saving)
    becomes the result [(None, str(e))], a [return] stays what it was, the
    cleanup runs in both cases, and the block never falls through. *)
Theorem img2img_block_turns_exceptions_into_messages :
  forall env prompt init_image w,
    match img2img_try env prompt init_image w with
    | (Exc e, w1) =>
        try_finally (img2img_body env prompt init_image) sd_finally w
        = (Ret (None, Some (exn_str e)), snd (sd_finally w1))
    | (Ret r, w1) =>
        try_finally (img2img_body env prompt init_image) sd_finally w
        = (Ret r, snd (sd_finally w1))
    | (Val _, _) => False
    end.
Proof.
  intros env prompt init_image w.
  rewrite try_finally_runs_cleanup by (intro; apply sd_finally_spec).
  rewrite img2img_body_unfold. unfold try_except.
  pose proof (img2img_try_never_falls_through env prompt init_image w) as H.
  destruct (img2img_try env prompt init_image w) as [[u | r | e] w1];
    simpl; [now destruct H | reflexivity | reflexivity].
Qed.

(* ===================================================================== *)
(** ** Stop pressed before the guarded block *)
(* ===================================================================== *)

Ltac run_stopped Hok Hstop :=
  unfold try_finally, bind, call_obj, ext_text, ext, get, when, return_,
    ret, method;
  simpl; rewrite ?Hok; simpl; rewrite ?Hstop; simpl;
  repeat (rewrite ?Hok; simpl; rewrite ?Hstop; simpl);
  try (split; reflexivity).

(** X14: if stop has been pressed by the time a dispatcher enters its
    guarded block (for instance while the model was loading) and no
    library call fails, the block still makes its inference call, then
    returns [(None, "Generation stopped")] and leaves the file system as it
    was: no directory is created and no artifact written. *)
Theorem stop_before_block_cancels_without_writing :
  forall env w,
    never_fails env -> stop_signal w = true ->
    (forall prompt up f,
        fst (try_finally (txt2img_body env prompt up f) sd_finally w)
        = Ret stopped
        /\ fs (snd (try_finally (txt2img_body env prompt up f) sd_finally w))
           = fs w)
    /\ (forall prompt init_image,
        fst (try_finally (img2img_body env prompt init_image) sd_finally w)
        = Ret stopped
        /\ fs (snd (try_finally (img2img_body env prompt init_image)
                      sd_finally w))
           = fs w)
    /\ (forall prompt init_image mask,
        fst (try_finally (inpaint_body env prompt init_image (Mask_str mask))
               sd_finally w)
        = Ret stopped
        /\ fs (snd (try_finally
                      (inpaint_body env prompt init_image (Mask_str mask))
                      sd_finally w))
           = fs w)
    /\ (forall prompt init_image composite,
        fst (try_finally
               (inpaint_body env prompt init_image
                  (Mask_dict (Some composite))) sd_finally w)
        = Ret stopped
        /\ fs (snd (try_finally
                      (inpaint_body env prompt init_image
                         (Mask_dict (Some composite))) sd_finally w))
           = fs w)
    /\ (forall init_image,
        fst (try_finally (video_body env init_image) video_finally w)
        = Ret stopped
        /\ fs (snd (try_finally (video_body env init_image) video_finally w))
           = fs w)
    /\ (forall prompt input_audio model_type audio_dir mbd,
        fst (try_finally (audio_body env prompt input_audio model_type
                            audio_dir mbd) (audio_finally mbd) w)
        = Ret stopped
        /\ fs (snd (try_finally (audio_body env prompt input_audio model_type
                                   audio_dir mbd) (audio_finally mbd) w))
           = fs w).
Proof.
  intros env w Hok Hstop. repeat apply conj; intros.
  - unfold txt2img_body, sd_finally. run_stopped Hok Hstop.
  - unfold img2img_body, try_except, sd_finally. run_stopped Hok Hstop.
  - unfold inpaint_body, sd_finally. run_stopped Hok Hstop.
  - unfold inpaint_body, sd_finally. run_stopped Hok Hstop.
  - unfold video_body, video_finally, try_except, del_local, bound.
    run_stopped Hok Hstop.
  - unfold audio_body, audio_finally.
    destruct (truthy_str input_audio && (model_type =? "musicgen"));
      destruct mbd as [| s | h | a b]; run_stopped Hok Hstop;
      destruct (s =? ""); simpl; split; reflexivity.
Qed.

Lemma quiet_env_never_fails : never_fails quiet_env.
Proof. intros n c. reflexivity. Qed.

Lemma stop_before_block_cancels_without_writing_witness :
  never_fails quiet_env
  /\ stop_signal (stop_all_processes world_with_models) = true
  /\ fst (try_finally (txt2img_body quiet_env "a cat" false "x2") sd_finally
            (stop_all_processes world_with_models))
     = Ret stopped.
Proof.
  split; [exact quiet_env_never_fails |]. split; [reflexivity |].
  exact (proj1 (proj1 (stop_before_block_cancels_without_writing quiet_env
                         (stop_all_processes world_with_models)
                         quiet_env_never_fails eq_refl)
                  "a cat" false "x2")).
Defined.

(* ===================================================================== *)
(** ** Failures reported before anything is loaded *)
(* ===================================================================== *)

Lemma unknown_type_tests :
  forall ty,
    ty <> "SD" -> ty <> "SD2" -> ty <> "SDXL" ->
    (ty =? "SD") = false /\ (ty =? "SD2") = false /\ (ty =? "SDXL") = false.
Proof.
  intros ty H1 H2 H3. repeat split; now apply String.eqb_neq.
Qed.

(** X17: a selected checkpoint whose file is missing is reported as
    "StableDiffusion model not found: <path>", and a model type other than
    "SD", "SD2", "SDXL" as "Invalid StableDiffusion model type!"; in both
    cases the text-to-image dispatcher has loaded nothing and changed
    nothing but the stop flag. *)
Theorem txt2img_reports_missing_file_and_unknown_type :
  forall env prompt name vae loras ty upscale factor w,
    truthy_str name = true ->
    (existsb (String.eqb (sd_model_path [] name)) (fs w) = false ->
     generate_image_txt2img env prompt name vae loras ty upscale factor w
     = (Returned (None, Some ("StableDiffusion model not found: "
                                ++ sd_model_path [] name)),
        set_stop_signal false w))
    /\ (existsb (String.eqb (sd_model_path [] name)) (fs w) = true ->
        ty <> "SD" -> ty <> "SD2" -> ty <> "SDXL" ->
        generate_image_txt2img env prompt name vae loras ty upscale factor w
        = (Returned (None, Some "Invalid StableDiffusion model type!"),
           set_stop_signal false w)).
Proof.
  intros env prompt name vae loras ty upscale factor w Hname. split.
  - intros Hfile.
    unfold generate_image_txt2img, def, bind, when, modify, return_,
      os_path_exists, get, ret.
    rewrite Hname. cbv beta iota. cbn [negb fs set_stop_signal].
    rewrite Hfile. reflexivity.
  - intros Hfile H1 H2 H3.
    destruct (unknown_type_tests ty H1 H2 H3) as (E1 & E2 & E3).
    unfold generate_image_txt2img, def, bind, when, modify, return_,
      os_path_exists, get, load_pipeline, try_except, ret.
    rewrite Hname. cbv beta iota. cbn [negb fs set_stop_signal].
    rewrite Hfile. cbv beta iota. cbn [negb]. rewrite E1, E2, E3.
    reflexivity.
Qed.

Lemma txt2img_reports_missing_file_and_unknown_type_witness :
  truthy_str (Some "absent") = true
  /\ generate_image_txt2img quiet_env "a cat" (Some "absent") None None "SD"
       false "x2" world_with_models
     = (Returned (None, Some ("StableDiffusion model not found: "
                                ++ sd_model_path [] (Some "absent"))),
        set_stop_signal false world_with_models)
  /\ generate_image_txt2img quiet_env "a cat" (Some "m") None None "SD3"
       false "x2" world_with_models
     = (Returned (None, Some "Invalid StableDiffusion model type!"),
        set_stop_signal false world_with_models).
Proof.
  split; [reflexivity |]. split.
  - exact (proj1 (txt2img_reports_missing_file_and_unknown_type quiet_env
                    "a cat" (Some "absent") None None "SD" false "x2"
                    world_with_models eq_refl) eq_refl).
  - refine (proj2 (txt2img_reports_missing_file_and_unknown_type quiet_env
                     "a cat" (Some "m") None None "SD3" false "x2"
                     world_with_models eq_refl) eq_refl _ _ _);
      discriminate.
Defined.

(* ===================================================================== *)
(** ** The instruction put before the prompt *)
(* ===================================================================== *)

(** X18: the language model is called on the instruction followed by the
    prompt, the instruction being the English one exactly when the detected
    language is "en" and the Russian one otherwise; for the "llama" type
    the turn markers are added around the prompt. *)
Theorem preamble_follows_detected_language :
  forall env prompt w,
    never_fails env ->
    In (E_call
          (Infer H_llm_model
             ((if env_text env (tick w) (Lib "langdetect.detect") =? "en"
               then instruction_en else instruction_ru) ++ fmt prompt)))
       (trace (snd (generate_text env (PObj H_tokenizer) (PObj H_llm_model)
                      "transformers" prompt w)))
    /\ In (E_call
             (Infer H_llm_model
                ((if env_text env (tick w) (Lib "langdetect.detect") =? "en"
                  then instruction_en ++ newline ++ newline ++ "Human: "
                  else instruction_ru ++ newline ++ newline ++ "Человек: ")
                   ++ fmt prompt ++ newline ++ "Assistant: ")))
          (trace (snd (generate_text env PNone (PObj H_llm_model) "llama"
                         prompt w))).
Proof.
  intros env prompt w Hok. split.
  - unfold generate_text, bind, call_obj, method, ext_text, ext, get, when,
      return_, ret, chat_history_append, modify.
    change (truthy (PObj H_llm_model)) with true.
    change ("transformers" =? "transformers") with true.
    cbv beta iota.
    repeat (rewrite Hok; cbv beta iota).
    destruct (stop_signal _); cbv beta iota;
      repeat (rewrite Hok; cbv beta iota);
      cbn [snd trace effect step log set_stop_signal set_chat_history];
      simpl; tauto.
  - unfold generate_text, bind, call_obj, method, ext_text, ext, get, when,
      return_, ret, chat_history_append, modify.
    change (truthy (PObj H_llm_model)) with true.
    change ("llama" =? "transformers") with false.
    change ("llama" =? "llama") with true.
    cbv beta iota.
    repeat (rewrite Hok; cbv beta iota).
    destruct (stop_signal _); cbv beta iota;
      cbn [snd trace effect step log set_stop_signal set_chat_history];
      simpl; tauto.
Qed.

Lemma preamble_follows_detected_language_witness :
  never_fails quiet_env
  /\ In (E_call (Infer H_llm_model (instruction_ru ++ "hi")))
       (trace (snd (generate_text quiet_env (PObj H_tokenizer)
                      (PObj H_llm_model) "transformers" (Some "hi")
                      initial_world))).
Proof.
  split; [exact quiet_env_never_fails |].
  exact (proj1 (preamble_follows_detected_language quiet_env (Some "hi")
                  initial_world quiet_env_never_fails)).
Defined.

(* ===================================================================== *)
(** ** The model lists *)
(* ===================================================================== *)

Example replace_example :
  replace_with_empty safetensors "v1-5.safetensors" = "v1-5".
Proof. reflexivity. Qed.

Example replace_twice :
  replace_with_empty safetensors "a.safetensors.safetensors" = "a".
Proof. reflexivity. Qed.

Lemma endswith_unfold :
  forall suf s,
    endswith suf s
    = (s =? suf)
      || match s with
         | EmptyString => false
         | String _ s' => endswith suf s'
         end.
Proof. intros suf s. now destruct s. Qed.

Lemma endswith_append : forall suf s, endswith suf (s ++ suf) = true.
Proof.
  intros suf s. induction s as [| c s IH].
  - rewrite endswith_unfold. simpl. now rewrite String.eqb_refl.
  - rewrite endswith_unfold. simpl. rewrite IH. apply orb_true_r.
Qed.

(** [".safetensors"] cannot start inside a name and run over into a
    following [".safetensors"]: its only dot is its first character. *)
Lemma startswith_cons :
  forall a pat b s,
    startswith (String a pat) (String b s)
    = (Ascii.eqb a b && startswith pat s)%bool.
Proof. reflexivity. Qed.

Lemma no_straddle :
  forall u, startswith safetensors (u ++ safetensors) = true ->
            u = "" \/ startswith safetensors u = true.
Proof.
  intros u H. destruct u as [| c u]; [now left | right].
  unfold safetensors in H at 1. unfold safetensors at 1.
  cbn [append] in H.
  rewrite startswith_cons in H |- *.
  apply andb_true_iff in H. destruct H as [Hc H].
  apply Ascii.eqb_eq in Hc. subst c. rewrite Ascii.eqb_refl. cbn [andb].
  do 11 (destruct u as [| c u];
         [ vm_compute in H; discriminate
         | cbn [append] in H; rewrite startswith_cons in H |- *;
           apply andb_true_iff in H; destruct H as [Hc H];
           apply Ascii.eqb_eq in Hc; subst c; rewrite Ascii.eqb_refl;
           cbn [andb] ]).
  reflexivity.
Qed.

(** Removing [".safetensors"] from a file name that carries it only as its
    extension gives back the stem. *)
Lemma replace_strips_extension :
  forall name,
    occurs safetensors name = false ->
    replace_with_empty safetensors (name ++ safetensors) = name.
Proof.
  intros name H. unfold replace_with_empty.
  change (safetensors =? "") with false. cbv iota.
  induction name as [| c name IH].
  - reflexivity.
  - simpl in H. apply orb_false_iff in H. destruct H as [Hhere Hlater].
    change (String c name ++ safetensors)
      with (String c (name ++ safetensors)).
    cbn [remove_from].
    destruct (startswith safetensors (String c (name ++ safetensors)))
      eqn:E.
    + destruct (no_straddle (String c name) E) as [Hnil | Hpre];
        [discriminate |].
      simpl in Hpre. simpl in Hhere. congruence.
    + now rewrite IH.
Qed.

Lemma sd_model_path_plain :
  forall name,
    sd_model_path [] (Some name)
    = "inputs/image/sd_models/" ++ name ++ safetensors.
Proof. reflexivity. Qed.

(** X15: a checkpoint file whose name carries [".safetensors"] only as its
    extension is offered under its stem, and the path the dispatchers build
    from that stem is the file again. *)
Theorem offered_checkpoint_resolves_to_its_file :
  forall listdir isdir name,
    occurs safetensors name = false ->
    In (name ++ safetensors) listdir ->
    In (Some name) (stable_diffusion_models_list listdir isdir)
    /\ sd_model_path [] (Some name)
       = "inputs/image/sd_models/" ++ (name ++ safetensors).
Proof.
  intros listdir isdir name Hocc Hin. split; [| reflexivity].
  unfold stable_diffusion_models_list. right.
  apply in_map_iff. exists (name ++ safetensors). split.
  - now rewrite replace_strips_extension.
  - apply filter_In. split; [exact Hin |].
    now rewrite endswith_append.
Qed.

Lemma offered_checkpoint_resolves_to_its_file_witness :
  occurs safetensors "v1-5-pruned" = false
  /\ In ("v1-5-pruned" ++ safetensors)
       ["put-models-here.txt"; "v1-5-pruned.safetensors"]
  /\ In (Some "v1-5-pruned")
       (stable_diffusion_models_list
          ["put-models-here.txt"; "v1-5-pruned.safetensors"] true).
Proof.
  split; [reflexivity |]. split; [right; left; reflexivity |].
  exact (proj1 (offered_checkpoint_resolves_to_its_file
                  ["put-models-here.txt"; "v1-5-pruned.safetensors"] true
                  "v1-5-pruned" eq_refl (or_intror (or_introl eq_refl)))).
Defined.

(** A name that holds [".safetensors"] twice is offered under a stem that
    does not lead back to it. *)
Example doubled_extension_is_not_found_again :
  stable_diffusion_models_list ["a.safetensors.safetensors"] true
  = [None; Some "a"]
  /\ sd_model_path [] (Some "a") = "inputs/image/sd_models/a.safetensors".
Proof. split; reflexivity. Qed.

Lemma audiocraft_url_of_offered :
  forall model_name,
    In model_name audiocraft_models_list ->
    exists url,
      audiocraft_url model_name = Some url
      /\ startswith "https://huggingface.co/facebook/" url = true.
Proof.
  intros model_name Hin. unfold audiocraft_models_list in Hin.
  repeat (destruct Hin as [<- | Hin];
          [eexists; split; reflexivity |]).
  destruct Hin.
Qed.

(** X16: every AudioCraft model the interface offers is cloned when its
    directory is missing.  For an offered name, a call of
    [load_audiocraft_model] that is not stopped and finds no directory
    creates the directory and then calls [Repo.clone_from] on a repository
    under huggingface.co/facebook with that directory as its target, and
    these are the only two things it logs. *)
Theorem offered_audiocraft_model_is_cloned_when_missing :
  forall env model_name w,
    In model_name audiocraft_models_list ->
    stop_signal w = false ->
    existsb (String.eqb (audiocraft_path model_name)) (fs w) = false ->
    exists url,
      startswith "https://huggingface.co/facebook/" url = true
      /\ trace (snd (load_audiocraft_model env model_name w))
         = E_call (Fetch url (audiocraft_path model_name))
             :: E_makedirs (audiocraft_path model_name) :: trace w.
Proof.
  intros env model_name w Hin Hstop Hex.
  destruct (audiocraft_url_of_offered model_name Hin) as (url & Hurl & Hfb).
  exists url. split; [exact Hfb |].
  unfold audiocraft_path in *.
  unfold load_audiocraft_model, def, bind, when, os_path_exists, get, return_,
    ret, os_makedirs, ext, modify.
  rewrite Hstop. cbv beta iota zeta. cbn [fs set_audiocraft_model_path].
  rewrite Hex. cbn [negb]. cbv beta iota zeta.
  cbn [fs set_audiocraft_model_path]. rewrite Hex, Hurl.
  cbv beta iota zeta. destruct (r_raise _); reflexivity.
Qed.

Lemma offered_audiocraft_model_is_cloned_when_missing_witness :
  In "audiogen-medium" audiocraft_models_list
  /\ stop_signal initial_world = false
  /\ exists url,
       startswith "https://huggingface.co/facebook/" url = true
       /\ trace (snd (load_audiocraft_model offline_env "audiogen-medium"
                        initial_world))
          = E_call (Fetch url (audiocraft_path "audiogen-medium"))
              :: E_makedirs (audiocraft_path "audiogen-medium")
              :: trace initial_world.
Proof.
  split; [right; left; reflexivity |]. split; [reflexivity |].
  exact (offered_audiocraft_model_is_cloned_when_missing offline_env
           "audiogen-medium" initial_world
           (or_intror (or_introl eq_refl)) eq_refl eq_refl).
Defined.

(* ===================================================================== *)
(** ** The multiband-diffusion loader *)
(* ===================================================================== *)

(** X19: [load_multiband_diffusion_model] constructs no model: it returns
    the name of the device or, when stopped, the string "Generation
    stopped", binds no handle and logs no constructor call; on a stop it
    changes nothing at all. *)
Theorem load_multiband_diffusion_model_loads_nothing :
  forall env w,
    live (snd (load_multiband_diffusion_model env w)) = live w
    /\ filter loads_model (trace (snd (load_multiband_diffusion_model env w)))
       = filter loads_model (trace w)
    /\ match fst (load_multiband_diffusion_model env w) with
       | Returned r =>
           if stop_signal w
           then r = "Generation stopped"
                /\ snd (load_multiband_diffusion_model env w) = w
           else r = device env
       | Raised _ => stop_signal w = false
       end.
Proof.
  intros env w.
  unfold load_multiband_diffusion_model, def, bind, when, os_path_exists,
    get, return_, ret, os_makedirs, ext.
  destruct (stop_signal w) eqn:Hstop; cbv beta iota zeta.
  - repeat split.
  - destruct (existsb _ (fs w)) eqn:Hdir; cbn [negb]; cbv beta iota.
    + repeat split.
    + rewrite Hdir. cbv beta iota.
      match goal with
      | |- context [match r_raise ?r with _ => _ end] =>
          destruct (r_raise r)
      end; repeat split.
Qed.

(* ===================================================================== *)
(** ** Downloads happen only into a missing directory *)
(* ===================================================================== *)

Lemma exists_on_disk_here p l :
  existsb (String.eqb p) (p :: l) = true.
Proof. cbn [existsb]. rewrite String.eqb_refl. reflexivity. Qed.

Ltac run_loader :=
  repeat match goal with
    | |- context [match r_raise ?r with _ => _ end] =>
        destruct (r_raise r); cbv beta iota zeta
    | |- context [if stop_signal ?w || ?b then _ else _] =>
        destruct (stop_signal w || b); cbv beta iota zeta
    end.

Lemma load_tts_model_no_download env w :
  exists_on_disk tts_model_path w = true ->
  downloads (snd (load_tts_model env w)) = downloads w.
Proof.
  unfold exists_on_disk, tts_model_path. intros Hex.
  unfold load_tts_model, def, bind, when, os_path_exists, get, return_, ret,
    os_makedirs, ext.
  destruct (stop_signal w); cbv beta iota zeta; [reflexivity |].
  rewrite Hex. cbn [negb]. cbv beta iota zeta.
  run_loader; reflexivity.
Qed.

Lemma load_whisper_model_no_download env w :
  exists_on_disk whisper_model_path w = true ->
  downloads (snd (load_whisper_model env w)) = downloads w.
Proof.
  unfold exists_on_disk. intros Hex.
  unfold load_whisper_model, def, bind, when, os_path_exists, get, return_,
    ret, os_makedirs, ext.
  destruct (stop_signal w); cbv beta iota zeta; [reflexivity |].
  rewrite Hex. cbn [negb]. cbv beta iota zeta.
  run_loader; reflexivity.
Qed.

Lemma transcribe_audio_no_download env a w :
  exists_on_disk whisper_model_path w = true ->
  downloads (snd (transcribe_audio env a w)) = downloads w.
Proof.
  unfold exists_on_disk. intros Hex.
  unfold transcribe_audio, def, bind, when, os_path_exists, get, return_,
    ret, os_makedirs, ext_text, ext, out_of_scope, modify.
  destruct (stop_signal w); cbv beta iota zeta; [reflexivity |].
  rewrite Hex. cbn [negb]. cbv beta iota zeta.
  run_loader; reflexivity.
Qed.

Lemma load_audiocraft_model_no_download env name w :
  exists_on_disk (path_join ["inputs"; "audio"; "audiocraft"; name]) w = true ->
  downloads (snd (load_audiocraft_model env name w)) = downloads w.
Proof.
  unfold exists_on_disk. intros Hex.
  unfold load_audiocraft_model, def, bind, when, os_path_exists, get, return_,
    ret, os_makedirs, ext, modify.
  destruct (stop_signal w); cbv beta iota zeta; [reflexivity |].
  cbn [fs set_audiocraft_model_path]. rewrite Hex. reflexivity.
Qed.

Lemma load_multiband_diffusion_model_no_download env w :
  exists_on_disk multiband_diffusion_path w = true ->
  downloads (snd (load_multiband_diffusion_model env w)) = downloads w.
Proof.
  unfold exists_on_disk, multiband_diffusion_path. intros Hex.
  unfold load_multiband_diffusion_model, def, bind, when, os_path_exists, get,
    return_, ret, os_makedirs, ext.
  destruct (stop_signal w); cbv beta iota zeta; [reflexivity |].
  change (path_join ["inputs"; "audio"; "audiocraft"; "multiband-diffusion"])
    with "inputs/audio/audiocraft/multiband-diffusion".
  rewrite Hex. reflexivity.
Qed.

Lemma load_upscale_model_no_download env f w :
  exists_on_disk (upscale_model_path f) w = true ->
  downloads (snd (load_upscale_model env f w)) = downloads w.
Proof.
  unfold exists_on_disk, upscale_model_path. intros Hex.
  unfold load_upscale_model, def, bind, when, os_path_exists, get,
    return_, ret, os_makedirs, ext.
  destruct (stop_signal w); cbv beta iota zeta; [reflexivity |].
  destruct (f =? 2)%nat; cbv beta iota zeta;
    match goal with
    | |- context [path_join ?l] =>
        let s := eval vm_compute in (path_join l) in
        change (path_join l) with s
    end;
    rewrite Hex; cbn [negb]; cbv beta iota zeta;
    destruct (XFORMERS_AVAILABLE env); cbv beta iota zeta;
    run_loader; reflexivity.
Qed.

Ltac dir_exists Hex :=
  cbv beta iota zeta;
  repeat match goal with
    | |- context [match r_raise ?r with _ => _ end] =>
        destruct (r_raise r); cbv beta iota zeta
    end;
  cbn [snd fs effect step log set_stop_signal set_live set_fs
       set_audiocraft_model_path];
  first [exact Hex | apply exists_on_disk_here].

Lemma load_tts_model_creates_directory env w :
  stop_signal w = false ->
  exists_on_disk tts_model_path (snd (load_tts_model env w)) = true.
Proof.
  unfold exists_on_disk, tts_model_path. intros Hstop.
  unfold load_tts_model, def, bind, when, os_path_exists, get, return_, ret,
    os_makedirs, ext.
  rewrite Hstop. cbv beta iota zeta.
  destruct (existsb _ (fs w)) eqn:Hex; cbn [negb]; cbv beta iota zeta.
  - dir_exists Hex.
  - rewrite Hex. dir_exists Hex.
Qed.

Lemma load_whisper_model_creates_directory env w :
  stop_signal w = false ->
  exists_on_disk whisper_model_path (snd (load_whisper_model env w)) = true.
Proof.
  unfold exists_on_disk. intros Hstop.
  unfold load_whisper_model, def, bind, when, os_path_exists, get, return_,
    ret, os_makedirs, ext.
  rewrite Hstop. cbv beta iota zeta.
  destruct (existsb _ (fs w)) eqn:Hex; cbn [negb]; cbv beta iota zeta.
  - dir_exists Hex.
  - rewrite Hex. dir_exists Hex.
Qed.

Lemma transcribe_audio_creates_directory env a w :
  stop_signal w = false ->
  exists_on_disk whisper_model_path (snd (transcribe_audio env a w)) = true.
Proof.
  unfold exists_on_disk. intros Hstop.
  unfold transcribe_audio, def, bind, when, os_path_exists, get, return_,
    ret, os_makedirs, ext_text, ext, out_of_scope, modify.
  rewrite Hstop. cbv beta iota zeta.
  destruct (existsb _ (fs w)) eqn:Hex; cbn [negb]; cbv beta iota zeta.
  - dir_exists Hex.
  - rewrite Hex. dir_exists Hex.
Qed.

Lemma load_audiocraft_model_creates_directory env name w :
  stop_signal w = false ->
  exists_on_disk (path_join ["inputs"; "audio"; "audiocraft"; name])
    (snd (load_audiocraft_model env name w)) = true.
Proof.
  unfold exists_on_disk. intros Hstop.
  unfold load_audiocraft_model, def, bind, when, os_path_exists, get, return_,
    ret, os_makedirs, ext, modify.
  rewrite Hstop. cbv beta iota zeta. cbn [fs set_audiocraft_model_path].
  destruct (existsb _ (fs w)) eqn:Hex; cbn [negb]; cbv beta iota zeta.
  - dir_exists Hex.
  - cbn [fs set_audiocraft_model_path]. rewrite Hex.
    destruct (audiocraft_url name); dir_exists Hex.
Qed.

Lemma load_multiband_diffusion_model_creates_directory env w :
  stop_signal w = false ->
  exists_on_disk multiband_diffusion_path
    (snd (load_multiband_diffusion_model env w)) = true.
Proof.
  unfold exists_on_disk, multiband_diffusion_path. intros Hstop.
  unfold load_multiband_diffusion_model, def, bind, when, os_path_exists, get,
    return_, ret, os_makedirs, ext.
  rewrite Hstop. cbv beta iota zeta.
  change (path_join ["inputs"; "audio"; "audiocraft"; "multiband-diffusion"])
    with "inputs/audio/audiocraft/multiband-diffusion".
  destruct (existsb _ (fs w)) eqn:Hex; cbn [negb]; cbv beta iota zeta.
  - dir_exists Hex.
  - rewrite Hex. dir_exists Hex.
Qed.

Lemma load_upscale_model_creates_directory env f w :
  stop_signal w = false ->
  exists_on_disk (upscale_model_path f)
    (snd (load_upscale_model env f w)) = true.
Proof.
  unfold exists_on_disk, upscale_model_path. intros Hstop.
  unfold load_upscale_model, def, bind, when, os_path_exists, get,
    return_, ret, os_makedirs, ext.
  rewrite Hstop. cbv beta iota zeta.
  destruct (f =? 2)%nat; cbv beta iota zeta;
    match goal with
    | |- context [path_join ?l] =>
        let s := eval vm_compute in (path_join l) in
        change (path_join l) with s
    end;
    (destruct (existsb _ (fs w)) eqn:Hex; cbn [negb]; cbv beta iota zeta;
     [| rewrite Hex];
     destruct (XFORMERS_AVAILABLE env); dir_exists Hex).
Qed.

(** X20: a loader whose model directory is already there downloads
    nothing: no [Repo.clone_from] and no [requests.get] is made, whatever
    else the call does and however it ends. *)
Theorem present_model_is_not_downloaded :
  forall env w,
    (forall a, exists_on_disk whisper_model_path w = true ->
               downloads (snd (transcribe_audio env a w)) = downloads w)
    /\ (exists_on_disk tts_model_path w = true ->
        downloads (snd (load_tts_model env w)) = downloads w)
    /\ (exists_on_disk whisper_model_path w = true ->
        downloads (snd (load_whisper_model env w)) = downloads w)
    /\ (forall name,
        exists_on_disk (path_join ["inputs"; "audio"; "audiocraft"; name]) w
        = true ->
        downloads (snd (load_audiocraft_model env name w)) = downloads w)
    /\ (exists_on_disk multiband_diffusion_path w = true ->
        downloads (snd (load_multiband_diffusion_model env w)) = downloads w)
    /\ (forall upscale_factor,
        exists_on_disk (upscale_model_path upscale_factor) w = true ->
        downloads (snd (load_upscale_model env upscale_factor w))
        = downloads w).
Proof.
  intros env w. repeat split; intros.
  - now apply transcribe_audio_no_download.
  - now apply load_tts_model_no_download.
  - now apply load_whisper_model_no_download.
  - now apply load_audiocraft_model_no_download.
  - now apply load_multiband_diffusion_model_no_download.
  - now apply load_upscale_model_no_download.
Qed.

(** X21: a download is attempted at most once.  After a call that was
    not stopped at entry the model directory exists, whether the download
    succeeded or raised, so the next call of the same loader downloads
    nothing. *)
Theorem download_is_attempted_once :
  forall env w,
    stop_signal w = false ->
    (forall a b,
        downloads (snd (transcribe_audio env b
                          (snd (transcribe_audio env a w))))
        = downloads (snd (transcribe_audio env a w)))
    /\ downloads (snd (load_tts_model env (snd (load_tts_model env w))))
       = downloads (snd (load_tts_model env w))
    /\ downloads (snd (load_whisper_model env
                         (snd (load_whisper_model env w))))
       = downloads (snd (load_whisper_model env w))
    /\ (forall name,
        downloads (snd (load_audiocraft_model env name
                          (snd (load_audiocraft_model env name w))))
        = downloads (snd (load_audiocraft_model env name w)))
    /\ downloads (snd (load_multiband_diffusion_model env
                         (snd (load_multiband_diffusion_model env w))))
       = downloads (snd (load_multiband_diffusion_model env w))
    /\ (forall upscale_factor,
        downloads (snd (load_upscale_model env upscale_factor
                          (snd (load_upscale_model env upscale_factor w))))
        = downloads (snd (load_upscale_model env upscale_factor w))).
Proof.
  intros env w Hstop. repeat split; intros.
  - apply transcribe_audio_no_download.
    now apply transcribe_audio_creates_directory.
  - apply load_tts_model_no_download.
    now apply load_tts_model_creates_directory.
  - apply load_whisper_model_no_download.
    now apply load_whisper_model_creates_directory.
  - apply load_audiocraft_model_no_download.
    now apply load_audiocraft_model_creates_directory.
  - apply load_multiband_diffusion_model_no_download.
    now apply load_multiband_diffusion_model_creates_directory.
  - apply load_upscale_model_no_download.
    now apply load_upscale_model_creates_directory.
Qed.

Lemma present_model_is_not_downloaded_witness :
  exists_on_disk tts_model_path (set_fs [tts_model_path] initial_world) = true
  /\ downloads (snd (load_tts_model quiet_env
                       (set_fs [tts_model_path] initial_world)))
     = downloads (set_fs [tts_model_path] initial_world).
Proof.
  split; [reflexivity |].
  exact (proj1 (proj2 (present_model_is_not_downloaded quiet_env
                         (set_fs [tts_model_path] initial_world)))
           eq_refl).
Defined.

Lemma download_is_attempted_once_witness :
  stop_signal initial_world = false
  /\ downloads (snd (load_tts_model offline_env
                       (snd (load_tts_model offline_env initial_world))))
     = downloads (snd (load_tts_model offline_env initial_world)).
Proof.
  split; [reflexivity |].
  exact (proj1 (proj2 (download_is_attempted_once offline_env initial_world
                         eq_refl))).
Defined.

(* ===================================================================== *)
(** ** An unknown language-model type *)
(* ===================================================================== *)

Lemma load_model_unknown_type env name ty w :
  stop_signal w = false -> truthy_str name = true ->
  ty <> "transformers" -> ty <> "llama" ->
  load_model env name ty w = (Returned (PNone, PNone, None), w).
Proof.
  intros Hstop Hname Hty1 Hty2. apply String.eqb_neq in Hty1, Hty2.
  unfold load_model, def, bind, when, get, return_, ret.
  rewrite Hstop, Hname, Hty1, Hty2. reflexivity.
Qed.

Lemma chat_body_without_model env prompt input_audio ty avatar sw la w :
  truthy_str input_audio = false ->
  match chat_body env PNone PNone prompt input_audio ty avatar false sw la w
  with
  | (Val r, w') => r = (None, None, avatar_path_of avatar) /\ no_model_used w w'
  | (Ret _, _) => False
  | (Exc _, w') => no_model_used w w'
  end.
Proof.
  intros Haudio.
  unfold chat_body, generate_text, bind, when, get, ret, modify,
    datetime_now, os_makedirs, ext, no_model_used, avatar_path_of.
  rewrite Haudio. cbn [truthy andb]. cbv beta iota zeta.
  destruct (truthy_str (chat_dir w)); cbn [negb]; cbv beta iota zeta.
  - destruct (r_raise _); cbn; repeat split.
  - repeat match goal with
      | |- context [if existsb ?f ?l then _ else _] =>
          destruct (existsb f l); cbv beta iota zeta
      | |- context [match r_raise ?r with _ => _ end] =>
          destruct (r_raise r); cbv beta iota zeta
      end; cbn; repeat split.
Qed.

(** X22: a model type that is neither "transformers" nor "llama" is not
    reported.  For a typed request without speech, no model is loaded and
    none is run, and a call that returns has appended [prompt, None] to
    the history and returns it with no audio and no message. *)
Theorem unknown_llm_type_is_not_reported :
  forall env input_text input_audio name ty avatar speaker_wav language w,
    truthy_str input_text = true -> truthy_str input_audio = false ->
    truthy_str name = true ->
    ty <> "transformers" -> ty <> "llama" ->
    filter uses_model
      (trace (snd (generate_text_and_speech env input_text input_audio name
                     ty avatar false speaker_wav language w)))
    = filter uses_model (trace w)
    /\ match generate_text_and_speech env input_text input_audio name
               ty avatar false speaker_wav language w with
       | (Returned r, w') =>
           r = Chat5 (chat_history w ++ [(input_text, None)]) None
                 (avatar_path_of avatar) (chat_dir w') None
       | (Raised _, _) => True
       end.
Proof.
  intros env input_text input_audio name ty avatar speaker_wav language w
         Htext Haudio Hname Hty1 Hty2.
  pose proof (chat_body_without_model env input_text input_audio ty avatar
                speaker_wav language
                (set_whisper_model PNone
                   (set_tts_model PNone (set_stop_signal false w))) Haudio)
    as Hbody.
  unfold generate_text_and_speech, def, bind, when, modify, call.
  rewrite Htext, Haudio, Hname. cbn [negb andb]. cbv beta iota zeta.
  unfold ret. cbv beta iota zeta.
  rewrite (load_model_unknown_type env name ty (set_stop_signal false w)
             eq_refl Hname Hty1 Hty2).
  cbv beta iota zeta. cbn [truthy_str]. cbv beta iota zeta.
  unfold try_finally.
  destruct (chat_body _ _ _ _ _ _ _ _ _ _ _) as [[v | r | e] w1].
  - destruct Hbody as [-> (Ht & Hh & Htts & Hwh)].
    cbn in Ht, Hh, Htts, Hwh.
    unfold chat_finally, bind, when, get, is_not_None, del_, ret,
      empty_cache, chat_history_append, return_, modify.
    cbv beta iota zeta. rewrite Htts. cbv beta iota zeta.
    rewrite Hwh. cbv beta iota zeta.
    cbn [snd trace log set_chat_history chat_history chat_dir].
    rewrite Hh. split; [exact Ht | reflexivity].
  - destruct Hbody.
  - destruct Hbody as (Ht & Hh & Htts & Hwh).
    cbn in Ht, Hh, Htts, Hwh.
    unfold chat_finally, bind, when, get, is_not_None, del_, ret,
      empty_cache, chat_history_append, return_, modify.
    cbv beta iota zeta. rewrite Htts. cbv beta iota zeta.
    rewrite Hwh. cbv beta iota zeta.
    cbn [snd trace log]. split; [exact Ht | exact Logic.I].
Qed.

Lemma gguf_is_not_transformers : "gguf" <> "transformers".
Proof. discriminate. Qed.

Lemma gguf_is_not_llama : "gguf" <> "llama".
Proof. discriminate. Qed.

Lemma unknown_llm_type_is_not_reported_witness :
  truthy_str (Some "hello") = true
  /\ "gguf" <> "transformers"
  /\ filter uses_model
       (trace (snd (generate_text_and_speech quiet_env (Some "hello") None
                      (Some "model") "gguf" None false None None
                      initial_world)))
     = filter uses_model (trace initial_world).
Proof.
  split; [reflexivity |]. split; [exact gguf_is_not_transformers |].
  destruct (unknown_llm_type_is_not_reported quiet_env (Some "hello") None
              (Some "model") "gguf" None None None initial_world
              (eq_refl true) (eq_refl false) (eq_refl true)
              gguf_is_not_transformers gguf_is_not_llama) as [H _].
  exact H.
Defined.


(* ===================================================================== *)
(** ** The optional VAE *)
(* ===================================================================== *)

Lemma occurs_unfold :
  forall pat s,
    occurs pat s
    = startswith pat s
      || match s with
         | EmptyString => false
         | String _ s' => occurs pat s'
         end.
Proof. intros pat s. destruct s; reflexivity. Qed.

Lemma replace_leaves_other_names :
  forall name,
    occurs safetensors name = false ->
    replace_with_empty safetensors name = name.
Proof.
  intros name H. unfold replace_with_empty.
  change (safetensors =? "") with false. cbv iota.
  induction name as [| c name IH]; [reflexivity |].
  rewrite occurs_unfold in H. apply orb_false_iff in H as [Hhere Hrest].
  cbn [remove_from]. rewrite Hhere. now rewrite IH.
Qed.

Lemma vae_model_path_plain :
  forall name,
    sd_model_path ["vae"] (Some name)
    = "inputs/image/sd_models/vae/" ++ name ++ safetensors.
Proof. reflexivity. Qed.

Lemma extension_is_added :
  forall name : string, name ++ safetensors <> name.
Proof.
  intros name H. apply (f_equal String.length) in H.
  rewrite append_length_s in H. cbn in H. lia.
Qed.

(** X24: a selected VAE whose file is missing is skipped silently: device
    placement loads no VAE and returns no message (a missing checkpoint,
    by contrast, is reported). *)
Theorem missing_vae_is_skipped_silently :
  forall env vae cfg w,
    exists_on_disk (sd_model_path ["vae"] vae) w = false ->
    filter loads_vae (trace (snd (place_on_device env vae cfg w)))
    = filter loads_vae (trace w)
    /\ match fst (place_on_device env vae cfg w) with
       | Ret _ => False
       | _ => True
       end.
Proof.
  intros env vae cfg w Hex. unfold exists_on_disk in Hex.
  unfold place_on_device, bind, when, ret, os_path_exists, get, ext.
  destruct (XFORMERS_AVAILABLE env); cbv beta iota zeta;
    repeat match goal with
      | |- context [match r_raise ?r with _ => _ end] =>
          destruct (r_raise r); cbv beta iota zeta
      end;
    try (split; [reflexivity | exact I]);
    destruct vae as [v |]; cbv beta iota zeta;
    cbn [fs effect step log set_stop_signal];
    try rewrite Hex; cbv beta iota zeta;
    (split; [reflexivity | exact I]).
Qed.

(** X23: the VAE list and the VAE path agree on [.safetensors] files
    only.  Such a file is offered under its stem and found again; any
    other file that does not end in [.txt] is offered under its full name,
    and the path built from that name, with [.safetensors] appended, is
    not the file. *)
Theorem offered_vae_resolves_only_for_safetensors :
  forall listdir name,
    occurs safetensors name = false ->
    (In (name ++ safetensors) listdir ->
     In (Some name) (vae_models_list listdir)
     /\ sd_model_path ["vae"] (Some name)
        = "inputs/image/sd_models/vae/" ++ (name ++ safetensors))
    /\ (endswith ".txt" name = false -> In name listdir ->
        In (Some name) (vae_models_list listdir)
        /\ sd_model_path ["vae"] (Some name)
           <> "inputs/image/sd_models/vae/" ++ name).
Proof.
  intros listdir name Hocc. split.
  - intros Hin. split; [| reflexivity].
    unfold vae_models_list. right.
    apply in_map_iff. exists (name ++ safetensors). split.
    + now rewrite replace_strips_extension.
    + apply filter_In. split; [exact Hin |].
      now rewrite endswith_append.
  - intros Htxt Hin. split.
    + unfold vae_models_list. right.
      apply in_map_iff. exists name. split.
      * now rewrite replace_leaves_other_names.
      * apply filter_In. split; [exact Hin |].
        rewrite Htxt. apply orb_true_r.
    + rewrite vae_model_path_plain. intros H.
      apply append_cancel_l in H. now apply extension_is_added in H.
Qed.

Lemma offered_vae_resolves_only_for_safetensors_witness :
  occurs safetensors "vae.pt" = false
  /\ In (Some "vae.pt") (vae_models_list ["kl-f8.safetensors"; "vae.pt"])
  /\ In (Some "kl-f8") (vae_models_list ["kl-f8.safetensors"; "vae.pt"]).
Proof.
  split; [reflexivity |]. split.
  - exact (proj1 (proj2 (offered_vae_resolves_only_for_safetensors
                           ["kl-f8.safetensors"; "vae.pt"] "vae.pt" eq_refl)
                    eq_refl (or_intror (or_introl eq_refl)))).
  - exact (proj1 (proj1 (offered_vae_resolves_only_for_safetensors
                           ["kl-f8.safetensors"; "vae.pt"] "kl-f8" eq_refl)
                    (or_introl eq_refl))).
Defined.

Lemma missing_vae_is_skipped_silently_witness :
  exists_on_disk (sd_model_path ["vae"] (Some "vae.pt")) world_with_pt_vae
  = false
  /\ filter loads_vae
       (trace (snd (place_on_device quiet_env (Some "vae.pt") "cfg"
                      world_with_pt_vae)))
     = filter loads_vae (trace world_with_pt_vae).
Proof.
  split; [reflexivity |].
  exact (proj1 (missing_vae_is_skipped_silently quiet_env (Some "vae.pt")
                  "cfg" world_with_pt_vae eq_refl)).
Defined.

(* ===================================================================== *)
(** ** Missing inputs *)
(* ===================================================================== *)

(** X25: a missing input is reported before any work is done.  With a
    model selected, image-to-image without an initial image, inpainting
    without an initial image or without a mask, and inpainting whose
    checkpoint is not under [sd_models/inpaint] return their message and
    change nothing but the stop flag; the extras dispatcher reports a
    disabled upscale before a missing image and changes nothing; a chat
    request with neither text nor audio only appends its message. *)
Theorem missing_inputs_are_reported_before_any_work :
  forall env w,
    (forall prompt init_image name vae ty,
        truthy_str name = true -> truthy_str init_image = false ->
        generate_image_img2img env prompt init_image name vae ty w
        = (Returned (None, Some "Please, upload an initial image!"),
           set_stop_signal false w))
    /\ (forall prompt init_image mask name vae ty,
        truthy_str name = true ->
        truthy_str init_image = false \/ truthy_mask mask = false ->
        generate_image_inpaint env prompt init_image mask name vae ty w
        = (Returned
             (None, Some "Please, upload an initial image and a mask image!"),
           set_stop_signal false w))
    /\ (forall prompt init_image mask name vae ty,
        truthy_str name = true -> truthy_str init_image = true ->
        truthy_mask mask = true ->
        existsb (String.eqb (sd_model_path ["inpaint"] name)) (fs w) = false ->
        generate_image_inpaint env prompt init_image mask name vae ty w
        = (Returned (None, Some ("StableDiffusion model not found: "
                                   ++ sd_model_path ["inpaint"] name)),
           set_stop_signal false w))
    /\ (forall image_path,
        stop_signal w = false ->
        generate_image_extras env image_path false w
        = (Returned (None, Some "Please enable upscale to generate an image!"),
           w))
    /\ (forall image_path,
        stop_signal w = false -> truthy_str image_path = false ->
        generate_image_extras env image_path true w
        = (Returned (None, Some "Please, upload an initial image!"), w))
    /\ (forall llm_model_name llm_model_type avatar_name enable_tts
               speaker_wav language input_text input_audio,
        truthy_str input_text = false -> truthy_str input_audio = false ->
        generate_text_and_speech env input_text input_audio llm_model_name
          llm_model_type avatar_name enable_tts speaker_wav language w
        = (Returned
             (Chat5 (chat_history w
                       ++ [(Some "Please, enter your request!", None)])
                None None None None),
           set_chat_history
             (chat_history w ++ [(Some "Please, enter your request!", None)])
             (set_stop_signal false w))).
Proof.
  intros env w. repeat split.
  - intros prompt init_image name vae ty Hname Himg.
    unfold generate_image_img2img, def, bind, when, modify, return_, ret.
    now rewrite Hname, Himg.
  - intros prompt init_image mask name vae ty Hname Hmiss.
    unfold generate_image_inpaint, def, bind, when, modify, return_, ret.
    rewrite Hname. cbn [negb]. cbv beta iota zeta.
    destruct Hmiss as [-> | ->]; [reflexivity |].
    now rewrite orb_true_r.
  - intros prompt init_image mask name vae ty Hname Himg Hmask Hex.
    unfold generate_image_inpaint, def, bind, when, modify, return_, ret,
      os_path_exists, get.
    rewrite Hname, Himg, Hmask. cbn [negb orb]. cbv beta iota zeta.
    cbn [fs set_stop_signal]. now rewrite Hex.
  - intros image_path Hstop.
    unfold generate_image_extras, def, bind, when, get, return_, ret.
    now rewrite Hstop.
  - intros image_path Hstop Himg.
    unfold generate_image_extras, def, bind, when, get, return_, ret.
    now rewrite Hstop, Himg.
  - intros n ty av tts sw la input_text input_audio Htext Haudio.
    unfold generate_text_and_speech, def, bind, when, modify,
      chat_history_append, return_history, get, return_, ret.
    now rewrite Htext, Haudio.
Qed.

Lemma missing_inputs_are_reported_before_any_work_witness :
  truthy_str (Some "model") = true
  /\ generate_image_img2img quiet_env "a cat" None (Some "model") None "SD"
       world_with_models
     = (Returned (None, Some "Please, upload an initial image!"),
        set_stop_signal false world_with_models).
Proof.
  split; [reflexivity |].
  exact (proj1 (missing_inputs_are_reported_before_any_work quiet_env
                  world_with_models)
           "a cat" None (Some "model") None "SD" eq_refl eq_refl).
Defined.
